(** * kiji_music: the KijiMusic tutorial driver

    A shallow embedding of [kiji_music/kiji_music.py].  The script is
    glue code: it parses flags, unpacks a KijiBento release, starts a
    cluster, runs a fixed list of shell commands and asserts on what they
    print.  The embedding keeps that shape:

    - text is [string], a character ([ascii]) being a code point below
      U+0100: what [str.lower], [int] and the classes of [re] say of such
      characters is given in full, and a text with a character from
      U+0100 on has no counterpart here;
    - Python exceptions are the constructors of [exn], and a computation
      that may raise returns a [result];
    - the process state the script touches (file names that exist, the
      root logger, standard output, the calls made to the collaborators
      that live outside this file) is the record [World], threaded by the
      monad [M];
    - the modules [command], [maven_fetcher] and [bento_cluster] and the
      shell behind [os.system] are parameters ([Externals]). *)

From Stdlib Require Import String Ascii ZArith List Bool Lia DecimalString.
From stdpp Require Import base strings list gmap.

Local Open Scope string_scope.
Local Open Scope list_scope.

(** ** Text helpers (the [str] methods and operators the script uses) *)

(** One character that cannot be written inside a literal here. *)
Definition dq : string := String (ascii_of_nat 34) "".
Definition nl : string := String (ascii_of_nat 10) "".
Definition tab : string := String (ascii_of_nat 9) "".

(** [str.lower] on one character: [A] to [Z], and the capital letters
    of Latin-1 (U+00C0 to U+00DE but for the multiplication sign). *)
Definition lower_char (c : ascii) : ascii :=
  let n := nat_of_ascii c in
  if ((65 <=? n)%nat && (n <=? 90)%nat)
     || ((192 <=? n)%nat && (n <=? 222)%nat && negb (n =? 215)%nat)
  then ascii_of_nat (n + 32) else c.

(** [text.lower()]. *)
Fixpoint lower (s : string) : string :=
  match s with
  | EmptyString => EmptyString
  | String c rest => String (lower_char c) (lower rest)
  end.

(** [s.startswith(p)]. *)
Definition startswith (s p : string) : bool := String.prefix p s.

(** [needle in hay] on text. *)
Fixpoint contains (needle hay : string) : bool :=
  String.prefix needle hay ||
  match hay with
  | EmptyString => false
  | String _ rest => contains needle rest
  end.

(** ['%d' % n]. *)
Definition str_of_int (n : Z) : string := NilZero.string_of_int (Z.to_int n).

(** [sep.join(parts)]. *)
Definition join (sep : string) (parts : list string) : string :=
  String.concat sep parts.

(** ** Exceptions and results *)

Inductive exn : Type :=
| AssertionError
| Error (text : string)       (* kiji_music.Error('Invalid truth value: %r' % text) *)
| AttributeError
| IndexError
| ValueError
| TypeError
| FileNotFoundError
| FileExistsError
| SystemExit (code : Z)
| re_error.

Inductive result (A : Type) : Type :=
| Ok (a : A)
| Raise (e : exn).
Arguments Ok {A} a.
Arguments Raise {A} e.

(** ** [Truth] *)

Definition Truth (text : string) : result bool :=
  let lowered := lower text in
  if bool_decide (lowered ∈ (list_to_set ["yes"; "true"] : gset string)) then
    Ok true
  else if bool_decide (lowered ∈ (list_to_set ["no"; "false"] : gset string)) then
    Ok false
  else
    Raise (Error text).

(** ** Regular expressions: the fragment of [re] the script's patterns use

    A pattern is a sequence of anchors and of single-character atoms, each
    atom followed by at most one of [*], [+], [?].  Groups, alternation,
    bracket classes, counted and lazy repetition are outside the
    fragment, as is every pattern [re] rejects (a dangling backslash, a
    quantifier with nothing to repeat). *)

Inductive atom : Type :=
| Lit (c : ascii)   (* the character itself *)
| Digit             (* \d *)
| Space             (* \s *)
| WordChar          (* \w *)
| AnyChar.          (* .  *)

Inductive quant : Type := One | Star | Plus | Opt.

Inductive item : Type :=
| Bol                          (* ^ *)
| Eol                          (* $ *)
| Rep (a : atom) (q : quant).

Inductive token : Type :=
| TBol | TEol | TAtom (a : atom) | TQuant (q : quant).

(** The decimal digits below U+0100: [0] to [9]. *)
Definition is_digit (c : ascii) : bool :=
  let n := nat_of_ascii c in (48 <=? n)%nat && (n <=? 57)%nat.

(** The ASCII letters. *)
Definition is_alpha (c : ascii) : bool :=
  let n := nat_of_ascii c in
  ((65 <=? n)%nat && (n <=? 90)%nat) || ((97 <=? n)%nat && (n <=? 122)%nat).

(** The blanks of C: [ \t\n\r\f\v]. *)
Definition is_space (c : ascii) : bool :=
  let n := nat_of_ascii c in
  (n =? 32)%nat || ((9 <=? n)%nat && (n <=? 13)%nat).

(** What [int] skips around a numeral, below U+0100: the blanks of C,
    U+0085 and U+00A0 (not the separators U+001C to U+001F). *)
Definition is_int_space (c : ascii) : bool :=
  let n := nat_of_ascii c in
  is_space c || (n =? 133)%nat || (n =? 160)%nat.

(** [\s] of [re] on text, below U+0100: the blanks of C, the four
    separators U+001C to U+001F, U+0085 and U+00A0. *)
Definition is_unicode_space (c : ascii) : bool :=
  let n := nat_of_ascii c in
  is_int_space c || ((28 <=? n)%nat && (n <=? 31)%nat).

(** [\w] of [re] on text, below U+0100: letters, digits and the
    underscore, the letters and numbers of Latin-1 among them. *)
Definition is_word (c : ascii) : bool :=
  let n := nat_of_ascii c in
  is_alpha c || is_digit c || (n =? 95)%nat
  || (n =? 170)%nat || (n =? 178)%nat || (n =? 179)%nat || (n =? 181)%nat
  || (n =? 185)%nat || (n =? 186)%nat
  || ((188 <=? n)%nat && (n <=? 190)%nat)
  || ((192 <=? n)%nat && (n <=? 255)%nat
      && negb (n =? 215)%nat && negb (n =? 247)%nat).

(** The atom a backslash escape stands for. *)
Definition escape (c : ascii) : option atom :=
  if Ascii.eqb c "d" then Some Digit
  else if Ascii.eqb c "s" then Some Space
  else if Ascii.eqb c "w" then Some WordChar
  else if Ascii.eqb c "t" then Some (Lit (ascii_of_nat 9))
  else if Ascii.eqb c "n" then Some (Lit (ascii_of_nat 10))
  else if Ascii.eqb c "r" then Some (Lit (ascii_of_nat 13))
  else if is_alpha c || is_digit c then None
  else Some (Lit c).

Fixpoint tokenize (s : string) : option (list token) :=
  match s with
  | EmptyString => Some []
  | String c rest =>
      if Ascii.eqb c "\" then
        match rest with
        | EmptyString => None
        | String e rest' =>
            match escape e, tokenize rest' with
            | Some a, Some ts => Some (TAtom a :: ts)
            | _, _ => None
            end
        end
      else
        let tok :=
          if Ascii.eqb c "^" then Some TBol
          else if Ascii.eqb c "$" then Some TEol
          else if Ascii.eqb c "." then Some (TAtom AnyChar)
          else if Ascii.eqb c "*" then Some (TQuant Star)
          else if Ascii.eqb c "+" then Some (TQuant Plus)
          else if Ascii.eqb c "?" then Some (TQuant Opt)
          else if existsb (Ascii.eqb c) (list_ascii_of_string "()[]{}|") then None
          else Some (TAtom (Lit c)) in
        match tok, tokenize rest with
        | Some t, Some ts => Some (t :: ts)
        | _, _ => None
        end
  end.

Fixpoint assemble (ts : list token) : option (list item) :=
  match ts with
  | [] => Some []
  | TBol :: ts' => cons Bol <$> assemble ts'
  | TEol :: ts' => cons Eol <$> assemble ts'
  | TAtom a :: TQuant q :: ts' => cons (Rep a q) <$> assemble ts'
  | TAtom a :: ts' => cons (Rep a One) <$> assemble ts'
  | TQuant _ :: _ => None
  end.

(** The pattern as a sequence of items, when it is in the fragment;
    [None] for any other pattern, valid or not: what [re] does with such
    a pattern is not computed here but taken from the world
    ([re_library]).  The five patterns of the script are inside the
    fragment. *)
Definition re_compile (pattern : string) : option (list item) :=
  tokenize pattern ≫= assemble.

Definition atom_matches (a : atom) (c : ascii) : bool :=
  match a with
  | Lit x => Ascii.eqb x c
  | Digit => is_digit c
  | Space => is_unicode_space c
  | WordChar => is_word c
  | AnyChar => negb (Ascii.eqb c (ascii_of_nat 10))
  end.

(** Without [re.MULTILINE], [$] holds at the end of the text and just
    before a newline that ends it. *)
Definition at_eol (s : string) : bool :=
  match s with
  | EmptyString => true
  | String c EmptyString => Ascii.eqb c (ascii_of_nat 10)
  | _ => false
  end.

(** Is there a match of [r] that starts where [s] starts?  [bol] says
    whether that place is the beginning of the text. *)
Fixpoint matches_at (r : list item) : string -> bool -> bool :=
  match r with
  | [] => fun _ _ => true
  | Bol :: r' => fun s bol => bol && matches_at r' s bol
  | Eol :: r' => fun s bol => at_eol s && matches_at r' s bol
  | Rep a One :: r' => fun s _ =>
      match s with
      | String c s' => atom_matches a c && matches_at r' s' false
      | EmptyString => false
      end
  | Rep a Opt :: r' => fun s bol =>
      matches_at r' s bol ||
      match s with
      | String c s' => atom_matches a c && matches_at r' s' false
      | EmptyString => false
      end
  | Rep a Star :: r' =>
      fix star (s : string) (bol : bool) {struct s} : bool :=
        matches_at r' s bol ||
        match s with
        | String c s' => atom_matches a c && star s' false
        | EmptyString => false
        end
  | Rep a Plus :: r' => fun s _ =>
      match s with
      | String c s' =>
          atom_matches a c &&
          (fix star (s : string) (bol : bool) {struct s} : bool :=
             matches_at r' s bol ||
             match s with
             | String c s' => atom_matches a c && star s' false
             | EmptyString => false
             end) s' false
      | EmptyString => false
      end
  end.

(** The truth value of [re.match(pattern, text)] for a compiled pattern. *)
Definition re_match (r : list item) (text : string) : bool :=
  matches_at r text true.

(** ** The world the script runs in *)

(** What [command.Command] exposes once the process has exited. *)
Record CommandResult : Type := {
  exit_code : Z;
  output_text : string;
  error_text : string;
  output_lines : list string;
  error_lines : list string;
}.

(** The keyword arguments of [maven_fetcher.FetchMavenArtifact]. *)
Record FetchArgs : Type := {
  group_id : string;
  artifact_id : string;
  version : string;
  type_ : string;
  classifier : string;
  transitive : bool;
  output_dir : string;
  local_repo : option string;
  remote_repo : option string;
}.

(** One call that leaves this file: to a collaborator module or to a
    shell.  [events] lists them in the order they were made. *)
Inductive Event : Type :=
| EvFetch (a : FetchArgs)
| EvSystem (cmd : string)
| EvBentoStart (home : string)
| EvBentoStop (home : string)
| EvCommand (argv : list string) (work_dir : string)
            (env : gmap string string) (r : CommandResult).

(** Arguments of a format string, kept unformatted. *)
Inductive pyval : Type :=
| PStr (s : string)
| PInt (n : Z)
| PList (l : list string)
| PHelp.   (* parser.format_help(): its layout follows the terminal, it is not spelled out *)

Record LogRecord : Type := {
  levelno : Z;
  msg : string;
  args : list pyval;
}.

Record World : Type := {
  fs : list string;                 (* the path names that exist, in directory order *)
  environ : gmap string string;     (* os.environ *)
  cwd : string;                     (* os.getcwd() *)
  clock_ms : Z;                     (* int(1000 * time.time()) *)
  temp_name : string;               (* the suffix tempfile.mkdtemp picks *)
  logger_level : Z;                 (* logging.getLogger().level *)
  log_records : list LogRecord;     (* what the root logger let through *)
  stdout : list (string * list pyval);
  events : list Event;
  re_library : string -> string -> option bool;
                                    (* re.match(pattern, text) found a match, for a
                                       pattern outside the fragment above; None: re.error *)
}.

Definition with_fs (w : World) (x : list string) : World :=
  {| fs := x; environ := environ w; cwd := cwd w; clock_ms := clock_ms w;
     temp_name := temp_name w; logger_level := logger_level w;
     log_records := log_records w; stdout := stdout w; events := events w;
     re_library := re_library w |}.

Definition with_logger_level (w : World) (x : Z) : World :=
  {| fs := fs w; environ := environ w; cwd := cwd w; clock_ms := clock_ms w;
     temp_name := temp_name w; logger_level := x;
     log_records := log_records w; stdout := stdout w; events := events w;
     re_library := re_library w |}.

Definition with_log_records (w : World) (x : list LogRecord) : World :=
  {| fs := fs w; environ := environ w; cwd := cwd w; clock_ms := clock_ms w;
     temp_name := temp_name w; logger_level := logger_level w;
     log_records := x; stdout := stdout w; events := events w;
     re_library := re_library w |}.

Definition with_stdout (w : World) (x : list (string * list pyval)) : World :=
  {| fs := fs w; environ := environ w; cwd := cwd w; clock_ms := clock_ms w;
     temp_name := temp_name w; logger_level := logger_level w;
     log_records := log_records w; stdout := x; events := events w;
     re_library := re_library w |}.

Definition with_events (w : World) (x : list Event) : World :=
  {| fs := fs w; environ := environ w; cwd := cwd w; clock_ms := clock_ms w;
     temp_name := temp_name w; logger_level := logger_level w;
     log_records := log_records w; stdout := stdout w; events := x;
     re_library := re_library w |}.

(** Modelled from the spec: the modules [command], [maven_fetcher] and
    [bento_cluster] are imported by the script and are not part of it, and
    neither are the shell and the tools it starts.  Every one of them is a
    black box that runs to completion and may change the files that exist.
    The process runner hands back a [CommandResult] whatever the exit code
    is (spec 4.1); the fetcher and the cluster adapter return nothing the
    script reads (spec 4.3, 4.4); [os.system] returns the exit status. *)
Record Externals : Type := {
  ext_process :
    list string -> string -> gmap string string -> World ->
    CommandResult * list string;
  ext_fetch : FetchArgs -> World -> list string;
  ext_shell : string -> World -> Z * list string;
  ext_bento_start : string -> World -> list string;
  ext_bento_stop : string -> World -> list string;
}.

(** ** The monad of the script: state and exceptions *)

Definition M (A : Type) : Type := World -> result A * World.

Definition ret {A} (a : A) : M A := fun w => (Ok a, w).

Definition raise {A} (e : exn) : M A := fun w => (Raise e, w).

Definition bind {A B} (m : M A) (f : A -> M B) : M B :=
  fun w =>
    match m w with
    | (Ok a, w') => f a w'
    | (Raise e, w') => (Raise e, w')
    end.

Declare Scope script_scope.
Delimit Scope script_scope with script.
Bind Scope script_scope with M.

Notation "x <- m ;; k" := (bind m (fun x => k))
  (at level 100, m at next level, right associativity) : script_scope.
Notation "m ;; k" := (bind m (fun _ => k))
  (at level 100, right associativity) : script_scope.

Local Open Scope script_scope.

(** A pure computation that may raise, run inside the script. *)
Definition lift {A} (r : result A) : M A :=
  match r with
  | Ok a => ret a
  | Raise e => raise e
  end.

(** [assert cond]. *)
Definition assert_ (cond : bool) : M unit :=
  if cond then ret tt else raise AssertionError.

(** Reading an attribute that [Setup] is the one to set. *)
Definition attr {A} (o : option A) : M A :=
  match o with
  | Some a => ret a
  | None => raise AttributeError
  end.

(** [l[i]] for an index that is not negative. *)
Definition index {A} (l : list A) (i : nat) : M A :=
  match l !! i with
  | Some x => ret x
  | None => raise IndexError
  end.

(** [for x in xs: body(x)]. *)
Fixpoint for_ {A} (xs : list A) (body : A -> M unit) : M unit :=
  match xs with
  | [] => ret tt
  | x :: rest => body x ;; for_ rest body
  end.

Definition emit (e : Event) : M unit :=
  fun w => (Ok tt, with_events w (events w ++ [e])).

(** [print(fmt % args)]. *)
Definition print (fmt : string) (a : list pyval) : M unit :=
  fun w => (Ok tt, with_stdout w (stdout w ++ [(fmt, a)])).

(** *** logging *)

Definition DEBUG_VERBOSE : Z := 5.

Definition logging_DEBUG : Z := 10.
Definition logging_INFO : Z := 20.
Definition logging_ERROR : Z := 40.

Fixpoint repeat_string (s : string) (n : nat) : string :=
  match n with
  | O => ""
  | S n' => s +:+ repeat_string s n'
  end.

(** ['-' * 80]. *)
Definition LINE : string := repeat_string "-" 80.

(** [logging.log(level, msg, *args)]: the root logger keeps a record
    whose level is at least its own. *)
Definition logging_log (level : Z) (fmt : string) (a : list pyval) : M unit :=
  fun w =>
    if (logger_level w <=? level)%Z then
      (Ok tt, with_log_records w
                (log_records w ++ [{| levelno := level; msg := fmt; args := a |}]))
    else (Ok tt, w).

Definition logging_debug := logging_log logging_DEBUG.
Definition logging_info := logging_log logging_INFO.
Definition logging_error := logging_log logging_ERROR.

(** *** Paths and files *)

Fixpoint ends_with_slash (s : string) : bool :=
  match s with
  | EmptyString => false
  | String c EmptyString => Ascii.eqb c "/"
  | String _ rest => ends_with_slash rest
  end.

(** [os.path.join(a, b)] (posixpath). *)
Definition os_path_join (a b : string) : string :=
  if startswith b "/" then b
  else if String.eqb a "" || ends_with_slash a then a +:+ b
  else a +:+ "/" +:+ b.

(** [s.split('/')]. *)
Fixpoint split_slash (cur : string) (s : string) : list string :=
  match s with
  | EmptyString => [cur]
  | String c rest =>
      if Ascii.eqb c "/" then cur :: split_slash "" rest
      else split_slash (cur +:+ String c "") rest
  end.

(** The loop of [posixpath.normpath] over the components of a path;
    [acc] is [new_comps], last component first. *)
Fixpoint norm_comps (absolute : bool) (acc : list string) (comps : list string)
  : list string :=
  match comps with
  | [] => rev acc
  | comp :: rest =>
      if String.eqb comp "" || String.eqb comp "." then
        norm_comps absolute acc rest
      else if negb (String.eqb comp "..") then
        norm_comps absolute (comp :: acc) rest
      else
        match acc with
        | [] => if absolute then norm_comps absolute acc rest
                else norm_comps absolute (comp :: acc) rest
        | top :: acc' =>
            if String.eqb top ".." then norm_comps absolute (comp :: acc) rest
            else norm_comps absolute acc' rest
        end
  end.

(** [os.path.normpath(path)] (posixpath). *)
Definition os_path_normpath (path : string) : string :=
  if String.eqb path "" then "."
  else
    let slashes :=
      if negb (startswith path "/") then ""
      else if startswith path "//" && negb (startswith path "///") then "//"
      else "/" in
    let body :=
      join "/" (norm_comps (startswith path "/") [] (split_slash "" path)) in
    let out := slashes +:+ body in
    if String.eqb out "" then "." else out.

(** [os.path.abspath(path)]. *)
Definition os_path_abspath (path : string) : M string :=
  fun w =>
    (Ok (os_path_normpath
           (if startswith path "/" then path else os_path_join (cwd w) path)),
     w).

Definition os_getcwd : M string := fun w => (Ok (cwd w), w).

(** [os.path.exists(path)]: the file system is the list of the path
    names that exist, spelled as the script spells them. *)
Definition os_path_exists (path : string) : M bool :=
  fun w => (Ok (bool_decide (path ∈ fs w)), w).

(** The directories above [path], outermost first. *)
Fixpoint parents (seen : string) (path : string) : list string :=
  match path with
  | EmptyString => []
  | String c rest =>
      if Ascii.eqb c "/" then
        (if String.eqb seen "" then [] else [seen])
          ++ parents (seen +:+ "/") rest
      else parents (seen +:+ String c "") rest
  end.

(** [os.makedirs(path)]: the path and the directories above it that are
    missing come into being; the path itself must be new, and not empty.
    This is [os.makedirs] where the names above the path that exist are
    directories the process may write to and the path has no [..]
    component; elsewhere [os.makedirs] raises ([NotADirectoryError],
    [PermissionError], [FileExistsError]) where this returns. *)
Definition os_makedirs (path : string) : M unit :=
  fun w =>
    if String.eqb path "" then (Raise FileNotFoundError, w)
    else if bool_decide (path ∈ fs w) then (Raise FileExistsError, w)
    else
      (Ok tt,
       with_fs w
         (fs w ++ List.filter (fun p => negb (bool_decide (p ∈ fs w)))
                              (parents "" path ++ [path]))).

(** [shutil.rmtree(path)]: the tree rooted at [path] goes, that is the
    name [path] and the names that begin with [path/].  This is
    [shutil.rmtree] for a path that is not empty and has no final slash,
    as [os.path.abspath] spells every directory but the root. *)
Definition shutil_rmtree (path : string) : M unit :=
  fun w =>
    if bool_decide (path ∈ fs w) then
      (Ok tt,
       with_fs w
         (List.filter
            (fun p => negb (String.eqb p path || startswith p (path +:+ "/")))
            (fs w)))
    else (Raise FileNotFoundError, w).

(** [tempfile.mkdtemp(prefix=prefix, dir=dir)]. *)
Definition tempfile_mkdtemp (prefix dir : string) : M string :=
  fun w =>
    let path := os_path_join dir (prefix +:+ temp_name w) in
    (Ok path, with_fs w (fs w ++ [path])).

(** Does [name] match the shell pattern [pat]?  This is [glob] for the
    patterns in which [*] is the only magic character: [glob] also reads
    [?] and [[] as magic, and they are taken literally here, so that the
    two agree on the patterns without [?] and [[] only ([has_magic]
    below).  A [*] crosses no [/]; at the start of a component it takes no
    name that begins with a dot, and no empty name, a directory listing
    having none.  [start] says whether a component starts here. *)
Fixpoint glob_matches (pat : string) : string -> bool -> bool :=
  match pat with
  | EmptyString => fun name _ => String.eqb name ""
  | String p pat' =>
      if Ascii.eqb p "*" then
        fun name start =>
          negb (start && (startswith name "." || startswith name "/"
                          || String.eqb name "")) &&
          (fix star (name : string) (start : bool) {struct name} : bool :=
             glob_matches pat' name start ||
             match name with
             | String c name' => negb (Ascii.eqb c "/") && star name' false
             | EmptyString => false
             end) name start
      else
        fun name _ =>
          match name with
          | String c name' => Ascii.eqb p c && glob_matches pat' name' (Ascii.eqb c "/")
          | EmptyString => false
          end
  end.

(** [glob.has_magic(s)]: does [s] hold one of [*], [?], [[]? *)
Definition has_magic (s : string) : bool :=
  existsb (fun c => existsb (Ascii.eqb c) (list_ascii_of_string "*?["))
          (list_ascii_of_string s).

(** [glob.glob(pattern)]: the existing paths the pattern matches, in
    directory order. *)
Definition glob_glob (pattern : string) : M (list string) :=
  fun w => (Ok (List.filter (fun p => glob_matches pattern p true) (fs w)), w).

(** [NowMS]: the current time, in ms since the Epoch. *)
Definition NowMS : M Z := fun w => (Ok (clock_ms w), w).

(** ** Assertion helpers *)

(** [Expect(expect, actual)], used on integers. *)
Definition Expect (expect actual : Z) : M unit :=
  if negb (expect =? actual)%Z then
    logging_error "Expected %r, got %r" [PInt expect; PInt actual] ;;
    raise AssertionError
  else ret tt.

(** Whether [re.match(pattern, text)] finds a match, for a pattern
    outside the fragment: the answer of the world's [re], which raises
    [re.error] on a pattern it rejects. *)
Definition re_library_match (pattern text : string) : M bool :=
  fun w =>
    match re_library w pattern text with
    | Some found => (Ok found, w)
    | None => (Raise re_error, w)
    end.

(** [ExpectRegexMatch(expect, actual)]. *)
Definition ExpectRegexMatch (expect actual : string) : M bool :=
  found <- match re_compile expect with
           | Some r => ret (re_match r actual)
           | None => re_library_match expect actual
           end ;;
  if found then ret true
  else
    logging_error "%r does not match regex %r." [PStr actual; PStr expect] ;;
    raise AssertionError.

(** ** The tutorial runner *)

(** [bento_cluster.BentoCluster(home=...)]. *)
Record BentoCluster : Type := { home : string }.

(** The attributes of a [Tutorial]: the first five are set by [__init__],
    the others by [Setup]. *)
Record Tutorial : Type := {
  _work_dir : string;
  _run_id : Z;
  _kiji_version : string;
  _maven_local_repo : option string;
  _maven_remote_repo : option string;
  _kiji_bento_dir : option string;
  _bento_cluster_dir : option string;
  _kiji_music_dir : option string;
  _bento : option BentoCluster;
  _hdfs_base : option string;
  _kiji_instance_uri : option string;
  _env : option (gmap string string);
}.

(** [d.update(pairs)]. *)
Definition dict_update (d : gmap string string) (pairs : list (string * string))
  : gmap string string :=
  fold_left (fun d kv => <[kv.1 := kv.2]> d) pairs d.

Section Script.

Variable X : Externals.

(** [os.system(cmd)]: the exit status, after whatever the command did. *)
Definition os_system (cmd : string) : M Z :=
  fun w =>
    let '(status, files) := ext_shell X cmd w in
    (Ok status, with_events (with_fs w files) (events w ++ [EvSystem cmd])).

(** [maven_fetcher.FetchMavenArtifact(...)]. *)
Definition FetchMavenArtifact (a : FetchArgs) : M unit :=
  fun w =>
    (Ok tt, with_events (with_fs w (ext_fetch X a w)) (events w ++ [EvFetch a])).

Definition BentoCluster_Start (b : BentoCluster) : M unit :=
  fun w =>
    (Ok tt, with_events (with_fs w (ext_bento_start X (home b) w))
                        (events w ++ [EvBentoStart (home b)])).

Definition BentoCluster_Stop (b : BentoCluster) : M unit :=
  fun w =>
    (Ok tt, with_events (with_fs w (ext_bento_stop X (home b) w))
                        (events w ++ [EvBentoStop (home b)])).

(** [command.Command] on an argument vector, with [work_dir] and [env]:
    runs the process to its end and exposes what it left. *)
Definition command_Command
    (argv : list string) (work_dir : string) (env : gmap string string)
  : M CommandResult :=
  fun w =>
    let '(r, files) := ext_process X argv work_dir env w in
    (Ok r, with_events (with_fs w files)
                       (events w ++ [EvCommand argv work_dir env r])).

(** [KijiCommand(command=..., work_dir=..., env=...)]. *)
Definition KijiCommand
    (command : string) (work_dir : string) (env : gmap string string)
  : M CommandResult :=
  command_Command
    ["/bin/bash"; "-c";
     "source ./bin/kiji-env.sh > /dev/null 2>&1 && " +:+ command]
    work_dir env.

(** [ExtractArchive(archive, work_dir, strip_components)]. *)
Definition ExtractArchive (archive work_dir : string) (strip_components : Z)
  : M unit :=
  e <- os_path_exists archive ;;
  assert_ e ;;
  e <- os_path_exists work_dir ;;
  assert_ e ;;
  os_system ("/bin/tar xf " +:+ archive +:+ " --directory " +:+ work_dir
             +:+ " --strip-components=" +:+ str_of_int strip_components) ;;
  ret tt.

(** [Tutorial(work_dir, version, maven_local_repo, maven_remote_repo)]. *)
Definition Tutorial_init
    (work_dir ver : string) (maven_local_repo maven_remote_repo : option string)
  : M Tutorial :=
  run_id <- NowMS ;;
  ret {| _work_dir := work_dir;
         _run_id := run_id;
         _kiji_version := ver;
         _maven_local_repo := maven_local_repo;
         _maven_remote_repo := maven_remote_repo;
         _kiji_bento_dir := None;
         _bento_cluster_dir := None;
         _kiji_music_dir := None;
         _bento := None;
         _hdfs_base := None;
         _kiji_instance_uri := None;
         _env := None |}.

(** [Setup], lines 206-229: the release archive is fetched unless it is
    there, and unpacked unless its directory is there.  Returns
    [self._kiji_bento_dir]. *)
Definition Setup_unpack (t : Tutorial) : M string :=
  let archive_name := "kiji-bento-" +:+ _kiji_version t +:+ "-release.tar.gz" in
  let archive := os_path_join (_work_dir t) archive_name in
  e <- os_path_exists archive ;;
  (if negb e then
     FetchMavenArtifact
       {| group_id := "org.kiji.kiji-bento";
          artifact_id := "kiji-bento";
          version := _kiji_version t;
          type_ := "tar.gz";
          classifier := "release";
          transitive := false;
          output_dir := _work_dir t;
          local_repo := _maven_local_repo t;
          remote_repo := _maven_remote_repo t |}
   else ret tt) ;;
  let kiji_bento_dir :=
    os_path_join (_work_dir t) ("kiji-bento-" +:+ _kiji_version t) in
  e <- os_path_exists kiji_bento_dir ;;
  (if negb e then
     os_makedirs kiji_bento_dir ;;
     ExtractArchive archive kiji_bento_dir 1
   else ret tt) ;;
  ret kiji_bento_dir.

(** [Setup], lines 230-259, after [Setup_unpack]. *)
Definition Setup (t : Tutorial) : M Tutorial :=
  kiji_bento_dir <- Setup_unpack t ;;
  e <- os_path_exists kiji_bento_dir ;;
  assert_ e ;;
  let bento_cluster_dir := os_path_join kiji_bento_dir "cluster" in
  e <- os_path_exists bento_cluster_dir ;;
  assert_ e ;;
  let kiji_music_dir :=
    os_path_join (os_path_join kiji_bento_dir "examples") "music" in
  e <- os_path_exists kiji_music_dir ;;
  assert_ e ;;
  let bento := {| home := bento_cluster_dir |} in
  BentoCluster_Start bento ;;
  let hdfs_base := "kiji-music-" +:+ str_of_int (_run_id t) in
  let kiji_instance_uri := "kiji://.env/kiji_music_" +:+ str_of_int (_run_id t) in
  let kiji_music_lib_dir := os_path_join kiji_music_dir "lib" in
  os_environ <- (fun w => (Ok (environ w), w)) ;;
  libs <- glob_glob (os_path_join kiji_music_lib_dir "*") ;;
  let env :=
    dict_update os_environ
      [("MUSIC_HOME", kiji_music_dir);
       ("LIBS_DIR", kiji_music_lib_dir);
       ("KIJI", kiji_instance_uri);
       ("KIJI_CLASSPATH", join ":" libs);
       ("HDFS_BASE", hdfs_base)] in
  ret {| _work_dir := _work_dir t;
         _run_id := _run_id t;
         _kiji_version := _kiji_version t;
         _maven_local_repo := _maven_local_repo t;
         _maven_remote_repo := _maven_remote_repo t;
         _kiji_bento_dir := Some kiji_bento_dir;
         _bento_cluster_dir := Some bento_cluster_dir;
         _kiji_music_dir := Some kiji_music_dir;
         _bento := Some bento;
         _hdfs_base := Some hdfs_base;
         _kiji_instance_uri := Some kiji_instance_uri;
         _env := Some env |}.

(** [Tutorial.Command(command)]. *)
Definition Command (t : Tutorial) (command : string) : M CommandResult :=
  work_dir <- attr (_kiji_bento_dir t) ;;
  env <- attr (_env t) ;;
  cmd <- KijiCommand command work_dir env ;;
  logging_debug "Exit code: %d" [PInt (exit_code cmd)] ;;
  level <- (fun w => (Ok (logger_level w), w)) ;;
  (if (level <=? DEBUG_VERBOSE)%Z then
     logging_debug ("Output:" +:+ nl +:+ "%s" +:+ nl +:+ "%s%s")
                   [PStr LINE; PStr (output_text cmd); PStr LINE] ;;
     logging_debug ("Error:" +:+ nl +:+ "%s" +:+ nl +:+ "%s%s")
                   [PStr LINE; PStr (error_text cmd); PStr LINE]
   else
     logging_debug "Output: %r" [PStr (output_text cmd)] ;;
     logging_debug "Error: %r" [PStr (error_text cmd)]) ;;
  ret cmd.

(** Line 292. *)
Definition Part1_install : string :=
  "kiji install --kiji=${KIJI}".

(** Line 298. *)
Definition Part1_create_table : string :=
  nl
  +:+ "        kiji-schema-shell "
  +:+ "            --kiji=${KIJI} "
  +:+ "            --file=${MUSIC_HOME}/music_schema.ddl" +:+ nl
  +:+ "    ".

(** Line 307. *)
Definition Part1_generate_data : string :=
  nl
  +:+ "        rm -f $MUSIC_HOME/example_data/*" +:+ nl
  +:+ "        ${MUSIC_HOME}/bin/data_generator.py "
  +:+ "            --output-dir=${MUSIC_HOME}/example_data/" +:+ nl
  +:+ "    ".

(** Line 316. *)
Definition Part1_mkdir : string :=
  "hadoop fs -mkdir ${HDFS_BASE}/kiji-mr-tutorial/".

(** Line 319. *)
Definition Part1_copy : string :=
  nl
  +:+ "    hadoop fs -copyFromLocal "
  +:+ "        ${MUSIC_HOME}/example_data/*.json "
  +:+ "        ${HDFS_BASE}/kiji-mr-tutorial/" +:+ nl
  +:+ "    ".

(** Line 328. *)
Definition Part1_list_tables : string :=
  "kiji ls ${KIJI}".

(** Line 347. *)
Definition Part2_bulk_import_1 : string :=
  nl
  +:+ "    kiji bulk-import "
  +:+ "        --importer=org.kiji.examples.music.bulkimport.SongMetadataBulkImporter "
  +:+ "        --lib=${LIBS_DIR} "
  +:+ "        --input=" +:+ dq +:+ "format=text "
  +:+ "                 file=${HDFS_BASE}/kiji-mr-tutorial/song-metadata.json" +:+ dq +:+ " "
  +:+ "        --output=" +:+ dq +:+ "format=kiji "
  +:+ "                  table=${KIJI}/songs "
  +:+ "                  nsplits=1" +:+ dq +:+ nl
  +:+ "    ".

(** Line 364. *)
Definition Part2_list_rows_1 : string :=
  "kiji scan ${KIJI}/songs --max-rows=3".

(** Line 370. *)
Definition Part2_copy : string :=
  nl
  +:+ "    hadoop fs -copyFromLocal "
  +:+ "      ${MUSIC_HOME}/import/song-plays-import-descriptor.json "
  +:+ "      ${HDFS_BASE}/kiji-mr-tutorial/" +:+ nl
  +:+ "    ".

(** Line 379. *)
Definition Part2_bulk_import_2 : string :=
  nl
  +:+ "    kiji bulk-import "
  +:+ "      -Dkiji.import.text.input.descriptor.path="
  +:+ "${HDFS_BASE}/kiji-mr-tutorial/song-plays-import-descriptor.json "
  +:+ "      --importer=org.kiji.mapreduce.lib.bulkimport.JSONBulkImporter "
  +:+ "      --input=" +:+ dq +:+ "format=text "
  +:+ "               file=${HDFS_BASE}/kiji-mr-tutorial/song-plays.json" +:+ dq +:+ " "
  +:+ "      --output=" +:+ dq +:+ "format=kiji "
  +:+ "                table=${KIJI}/users "
  +:+ "                nsplits=1" +:+ dq +:+ " "
  +:+ "      --lib=${LIBS_DIR}" +:+ nl
  +:+ "    ".

(** Line 398. *)
Definition Part2_list_rows_2 : string :=
  "kiji scan ${KIJI}/users --max-rows=3".

(** Line 421. *)
Definition Part3_gather : string :=
  nl
  +:+ "    kiji gather "
  +:+ "        --gatherer=org.kiji.examples.music.gather.SongPlayCounter "
  +:+ "        --reducer=org.kiji.mapreduce.lib.reduce.LongSumReducer "
  +:+ "        --input=" +:+ dq +:+ "format=kiji table=${KIJI}/users" +:+ dq +:+ " "
  +:+ "        --output=" +:+ dq +:+ "format=text "
  +:+ "                  file=${HDFS_BASE}/output.txt_file "
  +:+ "                  nsplits=2" +:+ dq +:+ " "
  +:+ "        --lib=${LIBS_DIR}" +:+ nl
  +:+ "    ".

(** Line 435. *)
Definition Part3_fs_text : string :=
  nl
  +:+ "        hadoop fs -text ${HDFS_BASE}/output.txt_file/part-r-00000 | head -3" +:+ nl
  +:+ "    ".

(** Line 452. *)
Definition Part4_gather : string :=
  nl
  +:+ "    kiji gather "
  +:+ "        --gatherer=org.kiji.examples.music.gather.SequentialPlayCounter "
  +:+ "        --reducer=org.kiji.examples.music.reduce.SequentialPlayCountReducer "
  +:+ "        --input=" +:+ dq +:+ "format=kiji table=${KIJI}/users" +:+ dq +:+ " "
  +:+ "        --output=" +:+ dq +:+ "format=avrokv "
  +:+ "                  file=${HDFS_BASE}/output.sequentialPlayCount "
  +:+ "                  nsplits=2" +:+ dq +:+ " "
  +:+ "        --lib=${LIBS_DIR}" +:+ nl
  +:+ "    ".

(** Line 466. *)
Definition Part4_fs_text : string :=
  nl
  +:+ "        hadoop fs -text ${HDFS_BASE}/output.txt_file/part-r-00000 | head -3" +:+ nl
  +:+ "    ".

(** [Tutorial.Part1]: the setup part of the tutorial. *)
Definition Part1 (t : Tutorial) : M unit :=
  install <- Command t Part1_install ;;
  assert_ (exit_code install =? 0)%Z ;;
  assert_ (contains "Successfully created kiji instance: " (output_text install)) ;;
  create_table <- Command t Part1_create_table ;;
  assert_ (exit_code create_table =? 0)%Z ;;
  generate_data <- Command t Part1_generate_data ;;
  assert_ (exit_code generate_data =? 0)%Z ;;
  mkdir <- Command t Part1_mkdir ;;
  assert_ (exit_code mkdir =? 0)%Z ;;
  copy <- Command t Part1_copy ;;
  assert_ (exit_code copy =? 0)%Z ;;
  list_tables <- Command t Part1_list_tables ;;
  assert_ (exit_code list_tables =? 0)%Z ;;
  assert_ (contains "songs" (output_text list_tables)) ;;
  assert_ (contains "users" (output_text list_tables)).

(** [Tutorial.Part2]: the bulk-importing part of the tutorial. *)
Definition Part2 (t : Tutorial) : M unit :=
  bulk_import <- Command t Part2_bulk_import_1 ;;
  assert_ (exit_code bulk_import =? 0)%Z ;;
  assert_ (contains "Total input paths to process : 1" (error_text bulk_import)) ;;
  assert_ (contains "BULKIMPORTER_RECORDS_PROCESSED=50" (error_text bulk_import)) ;;
  list_rows <- Command t Part2_list_rows_1 ;;
  assert_ (exit_code list_rows =? 0)%Z ;;
  copy <- Command t Part2_copy ;;
  assert_ (exit_code copy =? 0)%Z ;;
  bulk_import <- Command t Part2_bulk_import_2 ;;
  assert_ (exit_code bulk_import =? 0)%Z ;;
  assert_ (contains "Total input paths to process : 1" (error_text bulk_import)) ;;
  assert_ (contains "BULKIMPORTER_RECORDS_PROCESSED=" (error_text bulk_import)) ;;
  list_rows <- Command t Part2_list_rows_2 ;;
  assert_ (exit_code list_rows =? 0)%Z ;;
  first <- index (output_lines list_rows) 0 ;;
  assert_ (startswith first "Scanning kiji table: kiji://") ;;
  assert_ (3 * 3 + 1 <=? List.length (output_lines list_rows))%nat ;;
  for_ (seq 0 3) (fun row =>
    line <- index (output_lines list_rows) (1 + row * 3) ;;
    ExpectRegexMatch "^entity-id=\['user-\d+'\] \[\d+\] info:track_plays$" line ;;
    line <- index (output_lines list_rows) (2 + row * 3) ;;
    ExpectRegexMatch "^\s*song-\d+$" line ;;
    line <- index (output_lines list_rows) (3 + row * 3) ;;
    ExpectRegexMatch "^$" line ;;
    ret tt).

(** [list(filter(None, lines))]: the lines that are not empty. *)
Definition filter_None (lines : list string) : list string :=
  List.filter (fun l => negb (String.eqb l "")) lines.

(** [Tutorial.Part3]: the play-count part of the tutorial. *)
Definition Part3 (t : Tutorial) : M unit :=
  gather <- Command t Part3_gather ;;
  assert_ (exit_code gather =? 0)%Z ;;
  fs_text <- Command t Part3_fs_text ;;
  Expect 0 (exit_code fs_text) ;;
  let lines := filter_None (output_lines fs_text) in
  Expect 3 (Z.of_nat (List.length lines)) ;;
  for_ lines (fun line =>
    ExpectRegexMatch "^song-\d+\t\d+$" line ;;
    ret tt).

(** [Tutorial.Part4]: the sequential play-count part of the tutorial. *)
Definition Part4 (t : Tutorial) : M unit :=
  gather <- Command t Part4_gather ;;
  assert_ (exit_code gather =? 0)%Z ;;
  fs_text <- Command t Part4_fs_text ;;
  Expect 0 (exit_code fs_text) ;;
  let lines := filter_None (output_lines fs_text) in
  Expect 3 (Z.of_nat (List.length lines)) ;;
  for_ lines (fun line =>
    ExpectRegexMatch "^song-\d+\t\d+$" line ;;
    ret tt).

(** [Tutorial.Cleanup]. *)
Definition Cleanup (t : Tutorial) : M unit :=
  bento <- attr (_bento t) ;;
  BentoCluster_Stop bento ;;
  shutil_rmtree (_work_dir t).

End Script.

(** ** Command-line flags *)

(** How many arguments a flag takes: one ([nargs] left out), one or
    none ([nargs='?'], [const] standing in when there is none), or none at
    all, which here is the help action. *)
Inductive nargs : Type :=
| NargsOne
| NargsOptional (const : string)
| NargsHelp.

(** One [parser.add_argument] call. *)
Record Action : Type := {
  option_string : string;
  dest : string;
  default_ : option string;
  nargs_ : nargs;
}.

(** [BuildFlagParser]: the flags of the script ([help] texts left out),
    after [-h] and [--help], which [ArgumentParser] adds of itself
    ([add_help] is left at [True]); their [default] is [SUPPRESS], so they
    set no attribute. *)
Definition BuildFlagParser : list Action :=
  [ {| option_string := "-h"; dest := "help";
       default_ := None; nargs_ := NargsHelp |};
    {| option_string := "--help"; dest := "help";
       default_ := None; nargs_ := NargsHelp |};
    {| option_string := "--work_dir"; dest := "work_dir";
       default_ := None; nargs_ := NargsOne |};
    {| option_string := "--maven_local_repo"; dest := "maven_local_repo";
       default_ := None; nargs_ := NargsOne |};
    {| option_string := "--maven_remote_repo"; dest := "maven_remote_repo";
       default_ := None; nargs_ := NargsOne |};
    {| option_string := "--kiji_bento_version"; dest := "kiji_bento_version";
       default_ := None; nargs_ := NargsOne |};
    {| option_string := "--disable_cleanup_after_test";
       dest := "disable_cleanup_after_test";
       default_ := Some "false"; nargs_ := NargsOptional "true" |};
    {| option_string := "--log_dir"; dest := "log_dir";
       default_ := None; nargs_ := NargsOne |};
    {| option_string := "--log_level"; dest := "log_level";
       default_ := Some "INFO"; nargs_ := NargsOne |} ].

(** The namespace [parse_known_args] fills: one attribute per flag. *)
Record Flags : Type := {
  work_dir : option string;
  maven_local_repo : option string;
  maven_remote_repo : option string;
  kiji_bento_version : option string;
  disable_cleanup_after_test : option string;
  log_dir : option string;
  log_level : option string;
}.

Definition empty_namespace : Flags :=
  {| work_dir := None; maven_local_repo := None; maven_remote_repo := None;
     kiji_bento_version := None; disable_cleanup_after_test := None;
     log_dir := None; log_level := None |}.

(** [setattr(namespace, dest, value)]. *)
Definition setattr (ns : Flags) (d : string) (v : option string) : Flags :=
  {| work_dir := if String.eqb d "work_dir" then v else work_dir ns;
     maven_local_repo :=
       if String.eqb d "maven_local_repo" then v else maven_local_repo ns;
     maven_remote_repo :=
       if String.eqb d "maven_remote_repo" then v else maven_remote_repo ns;
     kiji_bento_version :=
       if String.eqb d "kiji_bento_version" then v else kiji_bento_version ns;
     disable_cleanup_after_test :=
       if String.eqb d "disable_cleanup_after_test" then v
       else disable_cleanup_after_test ns;
     log_dir := if String.eqb d "log_dir" then v else log_dir ns;
     log_level := if String.eqb d "log_level" then v else log_level ns |}.

(** [s.split('=', 1)] on a text that may hold no [=]. *)
Fixpoint split_eq (seen : string) (s : string) : string * option string :=
  match s with
  | EmptyString => (seen, None)
  | String c rest =>
      if Ascii.eqb c "=" then (seen, Some rest)
      else split_eq (seen +:+ String c "") rest
  end.

(** What [argparse] takes an argument for. *)
Inductive arg_kind : Type :=
| Positional                                   (* a value, or a stray word *)
| Optional (a : Action) (explicit : option string)
| UnknownOptional
| Ambiguous.

(** A text that reads as a negative number is a value, not a flag. *)
Definition negative_number (a : string) : bool :=
  match re_compile "^-\d+$", re_compile "^-\d*\.\d+$" with
  | Some r1, Some r2 => re_match r1 a || re_match r2 a
  | _, _ => false
  end.

(** [ArgumentParser._get_option_tuples]: the readings of an argument
    that is no flag as it stands.  Behind two dashes, the flags it
    abbreviates, with what follows its [=] if it has one; behind one dash,
    a one-letter flag with the rest of the argument as its value, or the
    flags the whole argument abbreviates. *)
Definition get_option_tuples (parser : list Action) (a : string)
  : list (Action * option string) :=
  if startswith a "--" then
    let '(prefix_, explicit) := split_eq "" a in
    map (fun act => (act, explicit))
        (List.filter (fun act => startswith (option_string act) prefix_) parser)
  else
    flat_map
      (fun act =>
         if String.eqb (option_string act) (substring 0 2 a) then
           [(act, Some (substring 2 (String.length a - 2) a))]
         else if startswith (option_string act) a then [(act, None)]
         else [])
      parser.

(** [ArgumentParser._parse_optional]: an exact flag, [flag=value], one
    reading out of [get_option_tuples], or a flag the parser does not
    know. *)
Definition parse_optional (parser : list Action) (a : string) : arg_kind :=
  if negb (startswith a "-") then Positional
  else
    match List.filter (fun act => String.eqb (option_string act) a) parser with
    | act :: _ => Optional act None
    | [] =>
        if (String.length a =? 1)%nat then Positional
        else
          let '(name, explicit) := split_eq "" a in
          match List.filter (fun act => String.eqb (option_string act) name) parser,
                explicit with
          | act :: _, Some v => Optional act (Some v)
          | _, _ =>
              match get_option_tuples parser a with
              | [(act, explicit_)] => Optional act explicit_
              | _ :: _ :: _ => Ambiguous
              | [] =>
                  if negative_number a then Positional
                  else if contains " " a then Positional
                  else UnknownOptional
              end
          end
    end.

(** Is every letter of [v] a one-letter flag that takes no argument?
    ([-hh] reads as [-h -h].) *)
Definition short_flags (parser : list Action) (v : string) : bool :=
  forallb
    (fun c =>
       match List.filter
               (fun act => String.eqb (option_string act) (String "-" (String c "")))
               parser with
       | act :: _ => match nargs_ act with NargsHelp => true | _ => false end
       | [] => false
       end)
    (list_ascii_of_string v).

(** The loop of [parse_known_args]: flags are stored as they come, what
    the parser does not know is set aside in [extras].  An error of
    [argparse] (a flag that lacks its value, a value given to a flag that
    takes none) leaves through [sys.exit(2)], the help action through
    [sys.exit(0)]. *)
Fixpoint parse_loop (parser : list Action) (args : list string)
    (ns : Flags) (extras : list string) : result (Flags * list string) :=
  match args with
  | [] => Ok (ns, extras)
  | a :: rest =>
      if String.eqb a "--" then Ok (ns, extras ++ a :: rest)
      else
        match parse_optional parser a with
        | Positional | UnknownOptional => parse_loop parser rest ns (extras ++ [a])
        | Ambiguous => Raise (SystemExit 2)
        | Optional act (Some v) =>
            match nargs_ act with
            | NargsHelp =>
                if negb (startswith (option_string act) "--")
                   && negb (String.eqb v "") && short_flags parser v
                then Raise (SystemExit 0)
                else Raise (SystemExit 2)
            | _ => parse_loop parser rest (setattr ns (dest act) (Some v)) extras
            end
        | Optional act None =>
            let no_value :=
              match nargs_ act with
              | NargsOptional const =>
                  parse_loop parser rest (setattr ns (dest act) (Some const)) extras
              | NargsOne => Raise (SystemExit 2)
              | NargsHelp => Raise (SystemExit 0)
              end in
            match nargs_ act, rest with
            | NargsHelp, _ => no_value
            | _, v :: rest' =>
                if String.eqb v "--" then no_value
                else
                  match parse_optional parser v with
                  | Positional =>
                      parse_loop parser rest' (setattr ns (dest act) (Some v)) extras
                  | _ => no_value
                  end
            | _, [] => no_value
            end
        end
  end.

(** The arguments before the first [--]. *)
Fixpoint before_dashes (args : list string) : list string :=
  match args with
  | [] => []
  | a :: rest => if String.eqb a "--" then [] else a :: before_dashes rest
  end.

(** [parser.parse_known_args(args)]: every argument before the first
    [--] is read as a flag or a value first, and an ambiguous abbreviation
    among them is an error before any flag is acted on. *)
Definition parse_known_args (parser : list Action) (args : list string)
  : result (Flags * list string) :=
  if existsb (fun a => match parse_optional parser a with
                       | Ambiguous => true
                       | _ => false
                       end)
             (before_dashes args)
  then Raise (SystemExit 2)
  else
    parse_loop parser args
      (fold_left (fun ns act => setattr ns (dest act) (default_ act)) parser
                 empty_namespace)
      [].

(** The names of [logging.__dict__] whose value is an [int]. *)
Definition logging_dict_int (name : string) : option Z :=
  if String.eqb name "CRITICAL" then Some 50%Z
  else if String.eqb name "FATAL" then Some 50%Z
  else if String.eqb name "ERROR" then Some 40%Z
  else if String.eqb name "WARNING" then Some 30%Z
  else if String.eqb name "WARN" then Some 30%Z
  else if String.eqb name "INFO" then Some 20%Z
  else if String.eqb name "DEBUG" then Some 10%Z
  else if String.eqb name "NOTSET" then Some 0%Z
  else None.

Fixpoint lstrip (s : string) : string :=
  match s with
  | String c rest => if is_int_space c then lstrip rest else s
  | EmptyString => s
  end.

Definition strip (s : string) : string :=
  String.rev (lstrip (String.rev (lstrip s))).

Fixpoint digits_value (acc : Z) (s : string) : option Z :=
  match s with
  | EmptyString => Some acc
  | String c rest =>
      if is_digit c then
        digits_value (10 * acc + Z.of_nat (nat_of_ascii c - 48))%Z rest
      else None
  end.

(** The digits of a numeral in which single underscores may group
    them: one underscore at most between two digits, none before the first
    digit or after the last.  [after_digit] says whether the character
    before was a digit. *)
Fixpoint ungroup (after_digit : bool) (s : string) : option string :=
  match s with
  | EmptyString => if after_digit then Some "" else None
  | String c rest =>
      if Ascii.eqb c "_" then
        if after_digit then ungroup false rest else None
      else if is_digit c then String c <$> ungroup true rest
      else None
  end.

(** [sys.get_int_max_str_digits()], as Python 3.11 sets it. *)
Definition int_max_str_digits : nat := 4300.

(** [int(text)]: blanks around, a sign, decimal digits that underscores
    may group; a numeral of more than [int_max_str_digits] digits is
    refused. *)
Definition py_int (text : string) : result Z :=
  let body := strip text in
  let '(sign, ds) :=
    match body with
    | String c rest =>
        if Ascii.eqb c "-" then ((-1)%Z, rest)
        else if Ascii.eqb c "+" then (1%Z, rest)
        else (1%Z, body)
    | EmptyString => (1%Z, body)
    end in
  match ungroup false ds with
  | Some d =>
      if (int_max_str_digits <? String.length d)%nat then Raise ValueError
      else
        match digits_value 0 d with
        | Some n => Ok (sign * n)%Z
        | None => Raise ValueError
        end
  | None => Raise ValueError
  end.

(** [os.EX_USAGE]. *)
Definition EX_USAGE : Z := 64.

Section Entry.

Variable X : Externals.

(** [Main], lines 573-586: the tutorial itself. *)
Definition Main_tutorial (work_dir_ ver : string) (FLAGS : Flags)
    (disable_cleanup : bool) : M (option Z) :=
  tutorial <- Tutorial_init work_dir_ ver
                (maven_local_repo FLAGS) (maven_remote_repo FLAGS) ;;
  tutorial <- Setup X tutorial ;;
  Part1 X tutorial ;;
  Part2 X tutorial ;;
  Part3 X tutorial ;;
  Part4 X tutorial ;;
  (if negb disable_cleanup then Cleanup X tutorial else ret tt) ;;
  ret None.

(** [Main(args)]: the program entry point.  [Some code] is a returned
    status, [None] is falling off the end of the function. *)
Definition Main (args : list string) : M (option Z) :=
  let parser := BuildFlagParser in
  parsed <- (match parse_known_args parser (tail args) with
             | Ok r => ret r
             | Raise (SystemExit code) =>
                 (if (code =? 0)%Z then print "%s" [PHelp] else ret tt) ;;
                 raise (SystemExit code)
             | Raise e => raise e
             end) ;;
  let '(FLAGS, unparsed_flags) := parsed in
  if (0 <? List.length unparsed_flags)%nat then
    print "Unknown flag: %s" [PList unparsed_flags] ;;
    ret (Some EX_USAGE)
  else
    text <- attr (disable_cleanup_after_test FLAGS) ;;
    disable_cleanup <- lift (Truth text) ;;
    (* Initialize the logging system: *)
    level_name <- match log_level FLAGS with
                  | Some s => ret s
                  | None => raise TypeError
                  end ;;
    log_level_ <-
      (if (0 <? String.length level_name)%nat then
         match logging_dict_int level_name with
         | Some n => ret (Some n)
         | None => n <- lift (py_int level_name) ;; ret (Some n)
         end
       else ret None) ;;
    match log_level_ with
    | Some n => (fun w => (Ok tt, with_logger_level w n))
    | None => raise TypeError
    end ;;
    (* Create a temporary working directory: *)
    work_dir_ <- match work_dir FLAGS with
                 | Some d => ret d
                 | None => d <- os_getcwd ;; tempfile_mkdtemp "work_dir." d
                 end ;;
    work_dir_ <- os_path_abspath work_dir_ ;;
    e <- os_path_exists work_dir_ ;;
    (if negb e then os_makedirs work_dir_ else ret tt) ;;
    logging_debug "Working directory: %r" [PStr work_dir_] ;;
    let log_dir_ := match log_dir FLAGS with
                    | Some d => d
                    | None => work_dir_
                    end in
    e <- os_path_exists log_dir_ ;;
    (if negb e then os_makedirs log_dir_ else ret tt) ;;
    logging_debug "Log directory: %r" [PStr log_dir_] ;;
    match kiji_bento_version FLAGS with
    | None | Some "" =>
        print ("Specify the version of KijiBento to test "
               +:+ "with --kiji_bento_version=...") [] ;;
        ret (Some EX_USAGE)
    | Some ver =>
        logging_info "Testing tutorial of KijiBento %s" [PStr ver] ;;
        Main_tutorial work_dir_ ver FLAGS disable_cleanup
    end.

End Entry.

(** ** A scripted stand-in for the collaborators

    Used to run the model on concrete inputs: a fetcher that drops the
    archive into its output directory, a [tar] that unpacks release 1.0.0
    under [/w], a cluster adapter that touches no file, and tools that
    print what the tutorial expects of them. *)

Definition demo_scan_lines : list string :=
  [ "Scanning kiji table: kiji://.env/kiji_music_7/users/";
    "entity-id=['user-1'] [1366] info:track_plays"; "    song-12"; "";
    "entity-id=['user-2'] [1367] info:track_plays"; "    song-7"; "";
    "entity-id=['user-3'] [1368] info:track_plays"; "    song-40"; "" ].

Definition demo_count_lines : list string :=
  [ "song-1" +:+ tab +:+ "10"; "song-2" +:+ tab +:+ "20";
    "song-3" +:+ tab +:+ "30"; "" ].

Definition demo_result (status : Z) (lines : list string) : CommandResult :=
  {| exit_code := status;
     output_text := "Successfully created kiji instance: kiji_music_7; songs users";
     error_text :=
       "Total input paths to process : 1 BULKIMPORTER_RECORDS_PROCESSED=50";
     output_lines := lines;
     error_lines := [] |}.

(** The tools: every command exits with [status]. *)
Definition demo_process (status : Z)
    (argv : list string) (work_dir_ : string) (env : gmap string string)
    (w : World) : CommandResult * list string :=
  let text := join " " argv in
  (demo_result status
     (if contains "hadoop fs -text" text then demo_count_lines
      else demo_scan_lines),
   fs w).

Definition demo_release : list string :=
  [ "/w/kiji-bento-1.0.0/cluster";
    "/w/kiji-bento-1.0.0/examples";
    "/w/kiji-bento-1.0.0/examples/music";
    "/w/kiji-bento-1.0.0/examples/music/lib";
    "/w/kiji-bento-1.0.0/examples/music/lib/a.jar";
    "/w/kiji-bento-1.0.0/examples/music/lib/b.jar" ].

(** [tar_status] is what [tar] exits with and [cmd_status] what every
    tutorial command exits with. *)
Definition demo (tar_status cmd_status : Z) : Externals :=
  {| ext_process := demo_process cmd_status;
     ext_fetch := fun a w =>
       fs w ++ [os_path_join (output_dir a)
                  ("kiji-bento-" +:+ version a +:+ "-release.tar.gz")];
     ext_shell := fun cmd w => (tar_status, fs w ++ demo_release);
     ext_bento_start := fun _ w => fs w;
     ext_bento_stop := fun _ w => fs w |}.

Definition demo_world : World :=
  {| fs := ["/"; "/home"];
     environ := {[ "PATH" := "/usr/bin"; "HOME" := "/home" ]};
     cwd := "/home";
     clock_ms := 7;
     temp_name := "k3x9";
     logger_level := 0;
     log_records := [];
     stdout := [];
     events := [];
     re_library := fun _ _ => None |}.

(** ** Vocabulary of the statements below *)

(** How a computation ended: [None] if it returned, [Some e] if it raised. *)
Definition outcome {A} (r : result A) : option exn :=
  match r with
  | Ok _ => None
  | Raise e => Some e
  end.

(** A computation that calls no collaborator. *)
Definition quiet {A} (m : M A) : Prop :=
  forall w, events (m w).2 = events w.

Definition is_command (ev : Event) : bool :=
  match ev with
  | EvCommand _ _ _ _ => true
  | _ => false
  end.

(** A computation that may call collaborators but runs no tutorial
    command. *)
Definition calm {A} (m : M A) : Prop :=
  forall w, exists l,
    events (m w).2 = events w ++ l /\ Forall (fun ev => is_command ev = false) l.

(** The argument vector [KijiCommand] builds around a command text. *)
Definition kiji_argv (command : string) : list string :=
  ["/bin/bash"; "-c";
   "source ./bin/kiji-env.sh > /dev/null 2>&1 && " +:+ command].

(** The event that running [command] for tutorial [t] leaves, [r] being
    what the process runner handed back. *)
Definition issued (t : Tutorial) (command : string) (r : CommandResult) : Event :=
  EvCommand (kiji_argv command)
            (default "" (_kiji_bento_dir t)) (default ∅ (_env t)) r.

(** [follows t o cmds l]: the events [l] are the commands [cmds] run in
    order for tutorial [t], each one checked before the next: a command
    that exits with 0 lets the script go on, a command that exits with
    anything else is the last event and the script ends in
    [AssertionError]; the script may also stop between two commands, but
    not by returning. *)
Inductive follows (t : Tutorial) (o : option exn)
  : list string -> list Event -> Prop :=
| follows_stop cmds :
    (o = None -> cmds = []) -> follows t o cmds []
| follows_fail c cmds r :
    exit_code r <> 0%Z -> o = Some AssertionError ->
    follows t o (c :: cmds) [issued t c r]
| follows_step c cmds r l :
    exit_code r = 0%Z -> follows t o cmds l ->
    follows t o (c :: cmds) (issued t c r :: l).

(** A computation whose calls are the commands [cmds], each checked. *)
Definition runs {A} (t : Tutorial) (cmds : list string) (m : M A) : Prop :=
  forall w, exists l,
    events (m w).2 = events w ++ l /\ follows t (outcome (m w).1) cmds l.

(** Every command among the events [l] exited with 0, except that the
    last event may be a command that did not, and then [o] is
    [AssertionError]. *)
Definition exit_codes_checked (o : option exn) (l : list Event) : Prop :=
  forall i argv d e r,
    l !! i = Some (EvCommand argv d e r) -> exit_code r <> 0%Z ->
    S i = List.length l /\ o = Some AssertionError.

Definition checked {A} (m : M A) : Prop :=
  forall w, exists l,
    events (m w).2 = events w ++ l /\ exit_codes_checked (outcome (m w).1) l.

(** The command texts of each part, in the order the part runs them. *)
Definition Part1_commands : list string :=
  [Part1_install; Part1_create_table; Part1_generate_data; Part1_mkdir;
   Part1_copy; Part1_list_tables].

Definition Part2_commands : list string :=
  [Part2_bulk_import_1; Part2_list_rows_1; Part2_copy; Part2_bulk_import_2;
   Part2_list_rows_2].

Definition Part3_commands : list string := [Part3_gather; Part3_fs_text].

Definition Part4_commands : list string := [Part4_gather; Part4_fs_text].

(** ** Calling no collaborator *)

Lemma quiet_ret {A} (a : A) : quiet (ret a).
Proof. intros w. reflexivity. Qed.

Lemma quiet_raise {A} (e : exn) : quiet (@raise A e).
Proof. intros w. reflexivity. Qed.

Lemma quiet_bind {A B} (m : M A) (f : A -> M B) :
  quiet m -> (forall a, quiet (f a)) -> quiet (bind m f).
Proof.
  intros Hm Hf w. unfold bind. specialize (Hm w).
  destruct (m w) as [[a | e] w1]; simpl in *.
  - rewrite Hf. exact Hm.
  - exact Hm.
Qed.

Lemma quiet_lift {A} (r : result A) : quiet (lift r).
Proof. destruct r; [apply quiet_ret | apply quiet_raise]. Qed.

Lemma quiet_assert (b : bool) : quiet (assert_ b).
Proof. destruct b; [apply quiet_ret | apply quiet_raise]. Qed.

Lemma quiet_attr {A} (o : option A) : quiet (attr o).
Proof. destruct o; [apply quiet_ret | apply quiet_raise]. Qed.

Lemma quiet_index {A} (l : list A) (i : nat) : quiet (index l i).
Proof. unfold index. destruct (l !! i); [apply quiet_ret | apply quiet_raise]. Qed.

Lemma quiet_print fmt a : quiet (print fmt a).
Proof. intros w. reflexivity. Qed.

Lemma quiet_logging_log level fmt a : quiet (logging_log level fmt a).
Proof. intros w. unfold logging_log. destruct (_ <=? _)%Z; reflexivity. Qed.

Lemma quiet_for {A} (xs : list A) (body : A -> M unit) :
  (forall x, quiet (body x)) -> quiet (for_ xs body).
Proof.
  intros Hb. induction xs as [| x xs IH]; simpl.
  - apply quiet_ret.
  - apply quiet_bind; [apply Hb | intros _; exact IH].
Qed.

Lemma quiet_Expect expect actual : quiet (Expect expect actual).
Proof.
  unfold Expect. destruct (negb _).
  - apply quiet_bind; [apply quiet_logging_log | intros _; apply quiet_raise].
  - apply quiet_ret.
Qed.

(** [ExpectRegexMatch] on a pattern of the fragment. *)
Lemma ExpectRegexMatch_compiled expect actual r :
  re_compile expect = Some r ->
  ExpectRegexMatch expect actual =
    if re_match r actual then ret true
    else
      logging_error "%r does not match regex %r." [PStr actual; PStr expect] ;;
      raise AssertionError.
Proof. intros Hc. unfold ExpectRegexMatch. rewrite Hc. reflexivity. Qed.

Lemma quiet_re_library_match pattern text : quiet (re_library_match pattern text).
Proof. intros w. unfold re_library_match. destruct (re_library _ _ _); reflexivity. Qed.

Lemma quiet_ExpectRegexMatch expect actual : quiet (ExpectRegexMatch expect actual).
Proof.
  unfold ExpectRegexMatch. apply quiet_bind.
  - destruct (re_compile expect) as [r |];
      [apply quiet_ret | apply quiet_re_library_match].
  - intros [|].
    + apply quiet_ret.
    + apply quiet_bind; [apply quiet_logging_log | intros _; apply quiet_raise].
Qed.

Lemma quiet_os_path_exists p : quiet (os_path_exists p).
Proof. intros w. reflexivity. Qed.

Lemma quiet_os_path_abspath p : quiet (os_path_abspath p).
Proof. intros w. reflexivity. Qed.

Lemma quiet_os_getcwd : quiet os_getcwd.
Proof. intros w. reflexivity. Qed.

Lemma quiet_os_makedirs p : quiet (os_makedirs p).
Proof.
  intros w. unfold os_makedirs.
  destruct (String.eqb p ""); [reflexivity |].
  destruct (bool_decide _); reflexivity.
Qed.

Lemma quiet_shutil_rmtree p : quiet (shutil_rmtree p).
Proof. intros w. unfold shutil_rmtree. destruct (bool_decide _); reflexivity. Qed.

Lemma quiet_tempfile_mkdtemp prefix dir : quiet (tempfile_mkdtemp prefix dir).
Proof. intros w. reflexivity. Qed.

Lemma quiet_glob_glob p : quiet (glob_glob p).
Proof. intros w. reflexivity. Qed.

Lemma quiet_NowMS : quiet NowMS.
Proof. intros w. reflexivity. Qed.

Lemma quiet_logging_debug fmt a : quiet (logging_debug fmt a).
Proof. apply quiet_logging_log. Qed.

Lemma quiet_logging_info fmt a : quiet (logging_info fmt a).
Proof. apply quiet_logging_log. Qed.

Lemma quiet_logging_error fmt a : quiet (logging_error fmt a).
Proof. apply quiet_logging_log. Qed.

Create HintDb quiet_db.
#[local] Hint Resolve quiet_ret quiet_raise quiet_lift quiet_assert quiet_attr
  quiet_index quiet_print quiet_logging_log quiet_logging_debug
  quiet_logging_info quiet_logging_error quiet_Expect quiet_ExpectRegexMatch
  quiet_os_path_exists quiet_os_path_abspath quiet_os_getcwd quiet_os_makedirs
  quiet_shutil_rmtree quiet_tempfile_mkdtemp quiet_glob_glob quiet_NowMS
  : quiet_db.

(** Settles [quiet m] for a script [m] built from the quiet primitives,
    following the shape of [m]. *)
Ltac quiet_tac :=
  solve
    [ repeat match goal with
        | |- quiet (bind _ _) => apply quiet_bind; [| intros ? ]
        | |- quiet (for_ _ _) => apply quiet_for; intros ?
        | |- quiet (if ?b then _ else _) => destruct b
        | |- quiet (match ?x with _ => _ end) => destruct x
        | |- quiet (fun _ => _) => intros ?; reflexivity
        | |- quiet _ => solve [ auto with quiet_db ]
        end ].

(** ** Events a computation may leave *)

(** A computation all of whose events satisfy [P]. *)
Definition emits {A} (P : Event -> Prop) (m : M A) : Prop :=
  forall w, exists l, events (m w).2 = events w ++ l /\ Forall P l.

(** The events of [Setup]: fetching, unpacking, starting the cluster. *)
Definition is_setup_event (ev : Event) : bool :=
  match ev with
  | EvFetch _ | EvSystem _ | EvBentoStart _ => true
  | _ => false
  end.

Definition is_stop (ev : Event) : bool :=
  match ev with
  | EvBentoStop _ => true
  | _ => false
  end.

Lemma emits_quiet {A} P (m : M A) : quiet m -> emits P m.
Proof.
  intros Hq w. exists []. rewrite app_nil_r. split; [apply Hq | constructor].
Qed.

Lemma emits_weaken {A} (P Q : Event -> Prop) (m : M A) :
  (forall ev, P ev -> Q ev) -> emits P m -> emits Q m.
Proof.
  intros HPQ Hm w. destruct (Hm w) as (l & Hl & HP).
  exists l. split; [exact Hl |]. eapply Forall_impl; eauto.
Qed.

Lemma emits_bind {A B} P (m : M A) (f : A -> M B) :
  emits P m -> (forall a, emits P (f a)) -> emits P (bind m f).
Proof.
  intros Hm Hf w. unfold bind. destruct (Hm w) as (l1 & Hl1 & HP1).
  destruct (m w) as [[a | e] w1]; simpl in *.
  - destruct (Hf a w1) as (l2 & Hl2 & HP2).
    exists (l1 ++ l2). split.
    + rewrite Hl2, Hl1, app_assoc. reflexivity.
    + apply Forall_app. split; assumption.
  - exists l1. split; assumption.
Qed.

Section Emits.

Variable X : Externals.

Lemma emits_os_system (P : Event -> Prop) cmd :
  P (EvSystem cmd) -> emits P (os_system X cmd).
Proof.
  intros HP w. exists [EvSystem cmd]. unfold os_system.
  destruct (ext_shell X cmd w) as [status files]. simpl.
  split; [reflexivity | repeat constructor; exact HP].
Qed.

Lemma emits_FetchMavenArtifact (P : Event -> Prop) a :
  P (EvFetch a) -> emits P (FetchMavenArtifact X a).
Proof.
  intros HP w. exists [EvFetch a]. simpl.
  split; [reflexivity | repeat constructor; exact HP].
Qed.

Lemma emits_BentoCluster_Start (P : Event -> Prop) b :
  P (EvBentoStart (home b)) -> emits P (BentoCluster_Start X b).
Proof.
  intros HP w. exists [EvBentoStart (home b)]. simpl.
  split; [reflexivity | repeat constructor; exact HP].
Qed.

Lemma emits_BentoCluster_Stop (P : Event -> Prop) b :
  P (EvBentoStop (home b)) -> emits P (BentoCluster_Stop X b).
Proof.
  intros HP w. exists [EvBentoStop (home b)]. simpl.
  split; [reflexivity | repeat constructor; exact HP].
Qed.

Lemma emits_ExtractArchive archive dir n :
  emits (fun ev => is_setup_event ev = true) (ExtractArchive X archive dir n).
Proof.
  unfold ExtractArchive.
  repeat match goal with
    | |- emits _ (os_system _ _) => apply emits_os_system; reflexivity
    | |- emits _ (bind _ _) => apply emits_bind; [| intros ? ]
    | |- emits _ _ => apply emits_quiet; quiet_tac
    end.
Qed.

Lemma emits_Setup_unpack t :
  emits (fun ev => is_setup_event ev = true) (Setup_unpack X t).
Proof.
  unfold Setup_unpack.
  repeat match goal with
    | |- emits _ (ExtractArchive _ _ _ _) => apply emits_ExtractArchive
    | |- emits _ (FetchMavenArtifact _ _) =>
        apply emits_FetchMavenArtifact; reflexivity
    | |- emits _ (if ?b then _ else _) => destruct b
    | |- emits _ (bind _ _) => apply emits_bind; [| intros ? ]
    | |- emits _ _ => apply emits_quiet; quiet_tac
    end.
Qed.

Lemma emits_Setup t :
  emits (fun ev => is_setup_event ev = true) (Setup X t).
Proof.
  unfold Setup.
  repeat match goal with
    | |- emits _ (Setup_unpack _ _) => apply emits_Setup_unpack
    | |- emits _ (BentoCluster_Start _ _) =>
        apply emits_BentoCluster_Start; reflexivity
    | |- emits _ (bind _ _) => apply emits_bind; [| intros ? ]
    | |- emits _ _ => apply emits_quiet; quiet_tac
    end.
Qed.

Lemma emits_Cleanup t :
  emits (fun ev => is_stop ev = true) (Cleanup X t).
Proof.
  unfold Cleanup.
  repeat match goal with
    | |- emits _ (BentoCluster_Stop _ _) =>
        apply emits_BentoCluster_Stop; reflexivity
    | |- emits _ (bind _ _) => apply emits_bind; [| intros ? ]
    | |- emits _ _ => apply emits_quiet; quiet_tac
    end.
Qed.

End Emits.

(** ** Commands run in order, each one checked *)

Lemma follows_app t o1 o2 c1 c2 l1 l2 :
  follows t o1 c1 l1 ->
  (o1 = None -> follows t o2 c2 l2) ->
  (forall e, o1 = Some e -> o2 = Some e /\ l2 = []) ->
  follows t o2 (c1 ++ c2) (l1 ++ l2).
Proof.
  intros H1 Hok Hraise. induction H1 as [cmds Hc | c cmds r Hr Ho | c cmds r l Hr H1 IH].
  - destruct o1 as [e |].
    + destruct (Hraise e eq_refl) as [-> ->]. simpl.
      apply follows_stop. discriminate.
    + rewrite (Hc eq_refl). simpl. apply Hok. reflexivity.
  - destruct (Hraise _ Ho) as [-> ->]. simpl.
    apply follows_fail; [exact Hr | reflexivity].
  - simpl. apply follows_step; [exact Hr | exact IH].
Qed.

Lemma follows_checked t o cmds l :
  follows t o cmds l -> exit_codes_checked o l.
Proof.
  induction 1 as [cmds Hc | c cmds r Hr Ho | c cmds r l Hr H1 IH];
    intros i argv d e r' Hi Hne.
  - destruct i; discriminate.
  - destruct i as [| i]; [| destruct i; discriminate].
    split; [reflexivity | exact Ho].
  - destruct i as [| i]; simpl in Hi.
    + unfold issued in Hi. injection Hi as _ _ _ <-. contradiction.
    + destruct (IH i argv d e r' Hi Hne) as [Hlen Ho].
      split; [simpl; rewrite Hlen; reflexivity | exact Ho].
Qed.

Lemma follows_issued t o cmds l :
  follows t o cmds l ->
  Forall (fun ev => exists c r, ev = issued t c r /\ c ∈ cmds) l.
Proof.
  induction 1 as [cmds Hc | c cmds r Hr Ho | c cmds r l Hr H1 IH].
  - constructor.
  - repeat constructor. exists c, r. split; [reflexivity | left].
  - constructor.
    + exists c, r. split; [reflexivity | left].
    + eapply Forall_impl; [exact IH |].
      intros ev (c' & r' & -> & Hin). exists c', r'. split; [reflexivity | right; exact Hin].
Qed.

Lemma runs_quiet {A} t (m : M A) : quiet m -> runs t [] m.
Proof.
  intros Hq w. exists []. rewrite app_nil_r. split; [apply Hq |].
  apply follows_stop. reflexivity.
Qed.

Lemma runs_bind {A B} t c1 c2 (m : M A) (f : A -> M B) :
  runs t c1 m -> (forall a, runs t c2 (f a)) -> runs t (c1 ++ c2) (bind m f).
Proof.
  intros Hm Hf w. unfold bind. destruct (Hm w) as (l1 & Hl1 & H1).
  destruct (m w) as [[a | e] w1]; simpl in *.
  - destruct (Hf a w1) as (l2 & Hl2 & H2).
    exists (l1 ++ l2). split.
    + rewrite Hl2, Hl1, app_assoc. reflexivity.
    + eapply follows_app; [exact H1 | intros _; exact H2 | discriminate].
  - exists l1. split; [exact Hl1 |].
    rewrite <- (app_nil_r l1).
    eapply follows_app; [exact H1 | discriminate |].
    intros e' [= <-]. split; reflexivity.
Qed.

Lemma runs_quiet_bind {A B} t cmds (m : M A) (f : A -> M B) :
  quiet m -> (forall a, runs t cmds (f a)) -> runs t cmds (bind m f).
Proof.
  intros Hm Hf. apply (runs_bind t [] cmds); [apply runs_quiet; exact Hm | exact Hf].
Qed.

Lemma runs_emits {A} t cmds (m : M A) :
  runs t cmds m -> emits (fun ev => exists c r, ev = issued t c r /\ c ∈ cmds) m.
Proof.
  intros Hm w. destruct (Hm w) as (l & Hl & H).
  exists l. split; [exact Hl | eapply follows_issued; exact H].
Qed.

Section Commands.

Variable X : Externals.

(** What [Tutorial.Command] does: with [Setup] not done it raises
    [AttributeError]; after [Setup] it hands back what the process runner
    produced, having run the process once. *)
Lemma Command_cases t command w :
  (Command X t command w = (Raise AttributeError, w) /\
   (_kiji_bento_dir t = None \/ _env t = None)) \/
  (exists d e w',
     _kiji_bento_dir t = Some d /\ _env t = Some e /\
     let r := (ext_process X (kiji_argv command) d e w).1 in
     Command X t command w = (Ok r, w') /\
     events w' = events w ++ [issued t command r] /\
     fs w' = (ext_process X (kiji_argv command) d e w).2).
Proof.
  unfold Command, issued.
  destruct (_kiji_bento_dir t) as [d |]; [| left; split; [reflexivity | left; reflexivity]].
  destruct (_env t) as [e |]; [| left; split; [reflexivity | right; reflexivity]].
  right. exists d, e. simpl.
  unfold bind at 1. simpl. unfold bind at 1. simpl.
  unfold bind at 1. unfold KijiCommand, command_Command. fold (kiji_argv command).
  destruct (ext_process X (kiji_argv command) d e w) as [r files]. simpl.
  unfold logging_debug, logging_log, bind. simpl.
  repeat match goal with
         | |- context [if ?b then _ else _] => destruct b; simpl
         end;
    (eexists; do 2 (split; [reflexivity |]);
     split; [reflexivity | split; reflexivity]).
Qed.

(** A command followed by a check of its exit code. *)
Lemma runs_Command {A} t c cmds (k : CommandResult -> M A) :
  (forall r, exit_code r <> 0%Z -> forall w,
     exists w', k r w = (Raise AssertionError, w') /\ events w' = events w) ->
  (forall r, exit_code r = 0%Z -> runs t cmds (k r)) ->
  runs t (c :: cmds) (bind (Command X t c) k).
Proof.
  intros Hfail Hgo w. unfold bind.
  destruct (Command_cases t c w) as [[-> _] | (d & e & w1 & _ & _ & Hrun)].
  - exists []. rewrite app_nil_r. split; [reflexivity |].
    apply follows_stop. discriminate.
  - simpl in Hrun. destruct Hrun as (-> & Hev & _).
    set (r := (ext_process X (kiji_argv c) d e w).1) in *.
    destruct (Z.eq_dec (exit_code r) 0%Z) as [Hz | Hnz].
    + destruct (Hgo r Hz w1) as (l & Hl & H).
      exists (issued t c r :: l). split.
      * rewrite Hl, Hev, <- app_assoc. reflexivity.
      * apply follows_step; assumption.
    + destruct (Hfail r Hnz w1) as (w2 & -> & Hev2). simpl.
      exists [issued t c r]. split.
      * rewrite Hev2, Hev. reflexivity.
      * apply follows_fail; [exact Hnz | reflexivity].
Qed.

(** The check fails on an exit code that is not 0. *)
Ltac fails_check :=
  let r := fresh "r" in
  let Hr := fresh "Hr" in
  let w := fresh "w" in
  intros r Hr w;
  unfold Expect, assert_;
  first
    [ rewrite (proj2 (Z.eqb_neq (exit_code r) 0%Z) Hr)
    | rewrite (proj2 (Z.eqb_neq 0%Z (exit_code r)) (not_eq_sym Hr)) ];
  cbn [negb];
  unfold bind, logging_error, logging_log, raise;
  first
    [ eexists; split; reflexivity
    | destruct (logger_level w <=? logging_ERROR)%Z; eexists; split; reflexivity ].

(** Walks through a part: commands, their checks, and the assertions in
    between. *)
Ltac runs_tac :=
  repeat match goal with
    | |- runs _ _ (bind (Command _ _ _) _) =>
        apply runs_Command; [ fails_check | intros ? ? ]
    | |- runs _ _ (bind _ _) => apply runs_quiet_bind; [ quiet_tac | intros ? ]
    | |- runs _ _ _ => apply runs_quiet; quiet_tac
    end.

Lemma Part1_runs t : runs t Part1_commands (Part1 X t).
Proof. unfold Part1, Part1_commands. runs_tac. Qed.

Lemma Part2_runs t : runs t Part2_commands (Part2 X t).
Proof. unfold Part2, Part2_commands. runs_tac. Qed.

Lemma Part3_runs t : runs t Part3_commands (Part3 X t).
Proof. unfold Part3, Part3_commands. runs_tac. Qed.

Lemma Part4_runs t : runs t Part4_commands (Part4 X t).
Proof. unfold Part4, Part4_commands. runs_tac. Qed.

End Commands.

(** ** Exit codes are checked *)

Lemma checked_bind {A B} (m : M A) (f : A -> M B) :
  checked m -> (forall a, checked (f a)) -> checked (bind m f).
Proof.
  intros Hm Hf w. unfold bind. destruct (Hm w) as (l1 & Hl1 & H1).
  destruct (m w) as [[a | e] w1]; simpl in *.
  - destruct (Hf a w1) as (l2 & Hl2 & H2).
    exists (l1 ++ l2). split.
    + rewrite Hl2, Hl1, app_assoc. reflexivity.
    + intros i argv d e r Hi Hne.
      apply lookup_app_Some in Hi as [Hi | [Hge Hi]].
      * destruct (H1 i argv d e r Hi Hne) as [_ Ho]. discriminate.
      * destruct (H2 _ argv d e r Hi Hne) as [Hlen Ho].
        split; [rewrite length_app; lia | exact Ho].
  - exists l1. split; assumption.
Qed.

Lemma runs_checked {A} t cmds (m : M A) : runs t cmds m -> checked m.
Proof.
  intros Hm w. destruct (Hm w) as (l & Hl & H).
  exists l. split; [exact Hl | eapply follows_checked; exact H].
Qed.

Lemma emits_checked {A} (P : Event -> Prop) (m : M A) :
  (forall ev, P ev -> is_command ev = false) -> emits P m -> checked m.
Proof.
  intros HP Hm w. destruct (Hm w) as (l & Hl & H).
  exists l. split; [exact Hl |].
  intros i argv d e r Hi _.
  apply (Forall_lookup_1 _ _ _ _ H), HP in Hi. discriminate.
Qed.

Lemma quiet_checked {A} (m : M A) : quiet m -> checked m.
Proof.
  intros Hq. apply (emits_checked (fun _ => False)); [contradiction |].
  apply emits_quiet. exact Hq.
Qed.

Section Run.

Variable X : Externals.

Lemma Setup_checked t : checked (Setup X t).
Proof.
  eapply emits_checked; [| apply emits_Setup].
  intros [] H; solve [reflexivity | discriminate].
Qed.

Lemma Cleanup_checked t : checked (Cleanup X t).
Proof.
  eapply emits_checked; [| apply emits_Cleanup].
  intros [] H; solve [reflexivity | discriminate].
Qed.

(** Walks through [Main], following its shape. *)
Ltac checked_tac :=
  repeat match goal with
    | |- checked (Setup _ _) => apply Setup_checked
    | |- checked (Cleanup _ _) => apply Cleanup_checked
    | |- checked (Part1 _ _) => apply (runs_checked _ _ _ (Part1_runs X _))
    | |- checked (Part2 _ _) => apply (runs_checked _ _ _ (Part2_runs X _))
    | |- checked (Part3 _ _) => apply (runs_checked _ _ _ (Part3_runs X _))
    | |- checked (Part4 _ _) => apply (runs_checked _ _ _ (Part4_runs X _))
    | |- checked (if ?b then _ else _) => destruct b
    | |- checked (match ?x with _ => _ end) => destruct x
    | |- checked (bind _ _) => apply checked_bind; [| intros ? ]
    | |- checked _ => apply quiet_checked; quiet_tac
    end.

Lemma Main_tutorial_checked wd ver FLAGS b :
  checked (Main_tutorial X wd ver FLAGS b).
Proof. unfold Main_tutorial, Tutorial_init. checked_tac. Qed.

Lemma Main_checked args : checked (Main X args).
Proof.
  unfold Main.
  repeat match goal with
    | |- checked (Main_tutorial _ _ _ _ _) => apply Main_tutorial_checked
    | |- checked (if ?b then _ else _) => destruct b
    | |- checked (match ?x with _ => _ end) => destruct x
    | |- checked (bind _ _) => apply checked_bind; [| intros ? ]
    | |- checked _ => apply quiet_checked; quiet_tac
    end.
Qed.

(** The four parts, one after the other, run the commands of the
    tutorial in their order. *)
Lemma Parts_run t :
  runs t (Part1_commands ++ Part2_commands ++ Part3_commands ++ Part4_commands)
       (Part1 X t ;; Part2 X t ;; Part3 X t ;; Part4 X t).
Proof.
  apply runs_bind; [apply Part1_runs | intros _].
  apply runs_bind; [apply Part2_runs | intros _].
  apply runs_bind; [apply Part3_runs | intros _].
  apply Part4_runs.
Qed.

End Run.

(** ** Fixtures for the instances below *)

(** A tutorial after [Setup], as [demo] leaves it under [/w]. *)
Definition demo_tutorial : Tutorial :=
  {| _work_dir := "/w";
     _run_id := 7;
     _kiji_version := "1.0.0";
     _maven_local_repo := None;
     _maven_remote_repo := None;
     _kiji_bento_dir := Some "/w/kiji-bento-1.0.0";
     _bento_cluster_dir := Some "/w/kiji-bento-1.0.0/cluster";
     _kiji_music_dir := Some "/w/kiji-bento-1.0.0/examples/music";
     _bento := Some {| home := "/w/kiji-bento-1.0.0/cluster" |};
     _hdfs_base := Some "kiji-music-7";
     _kiji_instance_uri := Some "kiji://.env/kiji_music_7";
     _env := Some (environ demo_world) |}.

(** [then_ m w k stop]: [m], started in [w], returns [a] in a world [w']
    with [k a w'], or raises [e] in a world [w'] with [stop e w']. *)
Definition then_ {A} (m : M A) (w : World)
    (k : A -> World -> Prop) (stop : exn -> World -> Prop) : Prop :=
  match m w with
  | (Ok a, w') => k a w'
  | (Raise e, w') => stop e w'
  end.

(** ** What [Setup] is expected to do, in the words of the specification *)

(** The cached archive and the directory it is unpacked into. *)
Definition release_archive (t : Tutorial) : string :=
  os_path_join (_work_dir t)
    ("kiji-bento-" +:+ _kiji_version t +:+ "-release.tar.gz").

Definition release_dir (t : Tutorial) : string :=
  os_path_join (_work_dir t) ("kiji-bento-" +:+ _kiji_version t).

Definition cluster_dir (t : Tutorial) : string :=
  os_path_join (release_dir t) "cluster".

Definition music_dir (t : Tutorial) : string :=
  os_path_join (os_path_join (release_dir t) "examples") "music".

Definition music_lib_dir (t : Tutorial) : string :=
  os_path_join (music_dir t) "lib".

(** The request made to the artifact fetcher. *)
Definition fetch_request (t : Tutorial) : FetchArgs :=
  {| group_id := "org.kiji.kiji-bento";
     artifact_id := "kiji-bento";
     version := _kiji_version t;
     type_ := "tar.gz";
     classifier := "release";
     transitive := false;
     output_dir := _work_dir t;
     local_repo := _maven_local_repo t;
     remote_repo := _maven_remote_repo t |}.

(** The extraction, dropping one leading path component. *)
Definition tar_command (t : Tutorial) : string :=
  "/bin/tar xf " +:+ release_archive t +:+ " --directory " +:+ release_dir t
  +:+ " --strip-components=1".

(** The world once the archive has been fetched, if it had to be. *)
Definition after_fetch (X : Externals) (t : Tutorial) (w : World) : World :=
  if bool_decide (release_archive t ∈ fs w) then w
  else with_events (with_fs w (ext_fetch X (fetch_request t) w))
                   (events w ++ [EvFetch (fetch_request t)]).

(** The world once [tar] has run in [w]. *)
Definition after_tar (X : Externals) (t : Tutorial) (w : World) : World :=
  with_events (with_fs w (ext_shell X (tar_command t) w).2)
              (events w ++ [EvSystem (tar_command t)]).

(** The environment of the tutorial commands: the environment of the
    process, overlaid with the five keys of the tutorial. *)
Definition tutorial_env (t : Tutorial) (w : World) : gmap string string :=
  dict_update (environ w)
    [("MUSIC_HOME", music_dir t);
     ("LIBS_DIR", music_lib_dir t);
     ("KIJI", "kiji://.env/kiji_music_" +:+ str_of_int (_run_id t));
     ("KIJI_CLASSPATH",
      join ":" (List.filter
                  (fun p => glob_matches (os_path_join (music_lib_dir t) "*") p true)
                  (fs w)));
     ("HDFS_BASE", "kiji-music-" +:+ str_of_int (_run_id t))].

(** The external tools leave the path [p] in place. *)
Definition keeps (X : Externals) (p : string) : Prop :=
  (forall argv d e w, p ∈ fs w -> p ∈ (ext_process X argv d e w).2) /\
  (forall a w, p ∈ fs w -> p ∈ ext_fetch X a w) /\
  (forall cmd w, p ∈ fs w -> p ∈ (ext_shell X cmd w).2) /\
  (forall h w, p ∈ fs w -> p ∈ ext_bento_start X h w) /\
  (forall h w, p ∈ fs w -> p ∈ ext_bento_stop X h w).

(** A computation that leaves the path [p] in place. *)
Definition stays {A} (p : string) (m : M A) : Prop :=
  forall w, p ∈ fs w -> p ∈ fs (m w).2.

(** A computation that leaves the environment of the process alone. *)
Definition same_environ {A} (m : M A) : Prop :=
  forall w, environ (m w).2 = environ w.

(** The level the root logger is set to for a [--log_level] text. *)
Definition level_of (name : string) : option Z :=
  if (0 <? String.length name)%nat then
    match logging_dict_int name with
    | Some n => Some n
    | None => match py_int name with
              | Ok n => Some n
              | Raise _ => None
              end
    end
  else None.

(** The world once the cluster has been started in [w]. *)
Definition after_start (X : Externals) (t : Tutorial) (w : World) : World :=
  with_events (with_fs w (ext_bento_start X (cluster_dir t) w))
              (events w ++ [EvBentoStart (cluster_dir t)]).

(** The tutorial as [Setup] leaves it, [env] being its environment. *)
Definition prepared (t : Tutorial) (env : gmap string string) : Tutorial :=
  {| _work_dir := _work_dir t;
     _run_id := _run_id t;
     _kiji_version := _kiji_version t;
     _maven_local_repo := _maven_local_repo t;
     _maven_remote_repo := _maven_remote_repo t;
     _kiji_bento_dir := Some (release_dir t);
     _bento_cluster_dir := Some (cluster_dir t);
     _kiji_music_dir := Some (music_dir t);
     _bento := Some {| home := cluster_dir t |};
     _hdfs_base := Some ("kiji-music-" +:+ str_of_int (_run_id t));
     _kiji_instance_uri := Some ("kiji://.env/kiji_music_" +:+ str_of_int (_run_id t));
     _env := Some env |}.

(** A tutorial as [__init__] leaves it, and a world where [/w] exists. *)
Definition demo_fresh : Tutorial :=
  {| _work_dir := "/w";
     _run_id := 7;
     _kiji_version := "1.0.0";
     _maven_local_repo := None;
     _maven_remote_repo := None;
     _kiji_bento_dir := None;
     _bento_cluster_dir := None;
     _kiji_music_dir := None;
     _bento := None;
     _hdfs_base := None;
     _kiji_instance_uri := None;
     _env := None |}.

Definition demo_home : World := with_fs demo_world ["/"; "/home"; "/w"].

(** The world [Setup] leaves when started in [demo_home]. *)
Definition demo_ready : World :=
  Eval vm_compute in (Setup (demo 0 0) demo_fresh demo_home).2.

(** The world [w1] is [w] with, at most, more files and more log
    records, and perhaps another logger level. *)
Definition grows (w w1 : World) : Prop :=
  events w1 = events w /\ stdout w1 = stdout w /\
  (forall q, q ∈ fs w -> q ∈ fs w1).

(** The usage message for a missing version. *)
Definition usage : M (option Z) :=
  print ("Specify the version of KijiBento to test "
         +:+ "with --kiji_bento_version=...") [] ;;
  ret (Some EX_USAGE).

(** * The claims *)

Lemma outcome_Raise {A} (r : result A) (e : exn) :
  outcome r = Some e -> r = Raise e.
Proof. destruct r; simpl; congruence. Qed.

Lemma elem_of_yes_true (l : string) :
  l ∈ (list_to_set ["yes"; "true"] : gset string) <-> l = "yes" \/ l = "true".
Proof. rewrite elem_of_list_to_set, !elem_of_cons, elem_of_nil. tauto. Qed.

Lemma elem_of_no_false (l : string) :
  l ∈ (list_to_set ["no"; "false"] : gset string) <-> l = "no" \/ l = "false".
Proof. rewrite elem_of_list_to_set, !elem_of_cons, elem_of_nil. tauto. Qed.

(** C2.  [Truth] answers [True] exactly for the texts whose lower-casing
    is [yes] or [true] (so for [YES] and [True]), [False] exactly for
    those whose lower-casing is [no] or [false], and raises [Error] on
    every other text. *)
Theorem Truth_spec (text : string) :
  (Truth text = Ok true <-> lower text = "yes" \/ lower text = "true") /\
  (Truth text = Ok false <-> lower text = "no" \/ lower text = "false") /\
  (Truth text = Raise (Error text) <->
     lower text <> "yes" /\ lower text <> "true" /\
     lower text <> "no" /\ lower text <> "false") /\
  Truth "YES" = Ok true /\ Truth "True" = Ok true /\
  Truth "no" = Ok false /\ Truth "false" = Ok false.
Proof.
  unfold Truth. cbv zeta.
  pose proof (elem_of_yes_true (lower text)) as Hy.
  pose proof (elem_of_no_false (lower text)) as Hn.
  split; [| split; [| split; [| repeat split; reflexivity ] ] ];
    repeat case_bool_decide;
    (split; [ intros Heq; try discriminate Heq; tauto |]);
    intros Hl;
    try reflexivity;
    exfalso;
    repeat match goal with
           | H : _ /\ _ |- _ => destruct H
           end;
    try tauto;
    (destruct Hy as [Hy _]; destruct Hn as [Hn _];
     repeat match goal with
            | H : ?a ∈ _, Hi : ?a ∈ _ -> _ |- _ => specialize (Hi H)
            end;
     repeat match goal with
            | H : _ \/ _ |- _ => destruct H
            end;
     congruence).
Qed.

Lemma ExpectRegexMatch_cases expect actual r w :
  re_compile expect = Some r ->
  (re_match r actual = true -> ExpectRegexMatch expect actual w = (Ok true, w)) /\
  (re_match r actual = false ->
   exists w',
     ExpectRegexMatch expect actual w = (Raise AssertionError, w') /\
     events w' = events w /\ fs w' = fs w /\
     (logger_level w <= logging_ERROR ->
      log_records w' =
        log_records w ++
          [{| levelno := logging_ERROR; msg := "%r does not match regex %r.";
              args := [PStr actual; PStr expect] |}])%Z).
Proof.
  intros Hc. rewrite (ExpectRegexMatch_compiled _ _ _ Hc).
  split; intros ->; [reflexivity |].
  unfold bind, logging_error, logging_log, raise.
  destruct (logger_level w <=? logging_ERROR)%Z eqn:Hlv.
  - eexists. repeat split; reflexivity.
  - exists w. repeat split. intros Hle. apply Z.leb_gt in Hlv. lia.
Qed.

Lemma song_pattern_compiles :
  re_compile "^song-\d+\t\d+$" =
    Some [Bol; Rep (Lit "s") One; Rep (Lit "o") One; Rep (Lit "n") One;
          Rep (Lit "g") One; Rep (Lit "-") One; Rep Digit Plus;
          Rep (Lit (ascii_of_nat 9)) One; Rep Digit Plus; Eol].
Proof. reflexivity. Qed.

(** What [Tutorial.Command] does on a tutorial that has its release
    directory and its environment. *)
Lemma Command_never_raises_aux (X : Externals) (t : Tutorial)
    (command d : string) (e : gmap string string) (w : World) :
  _kiji_bento_dir t = Some d -> _env t = Some e ->
  exists w',
    Command X t command w = (Ok (ext_process X (kiji_argv command) d e w).1, w') /\
    events w' =
      events w ++
        [EvCommand (kiji_argv command) d e
                   (ext_process X (kiji_argv command) d e w).1].
Proof.
  intros Hd He.
  destruct (Command_cases X t command w)
    as [[_ [Hn | Hn]] | (d' & e' & w' & Hd' & He' & Hrun)]; try congruence.
  assert (d' = d) as -> by congruence.
  assert (e' = e) as -> by congruence.
  simpl in Hrun. destruct Hrun as (Hrun & Hev & Hfs).
  exists w'. split; [exact Hrun |].
  rewrite Hev. unfold issued. rewrite Hd, He. reflexivity.
Qed.

(** C9.  [Tutorial.Command], on a tutorial that [Setup] has prepared,
    returns the [CommandResult] of the process runner for every command
    text and every exit code: it runs [/bin/bash -c] on the text once, in
    the release directory and with the environment of the tutorial, and
    raises nothing; a failed command shows only in [exit_code]. *)
Theorem Command_never_raises (X : Externals) (t : Tutorial)
    (command d : string) (e : gmap string string) (w : World) :
  _kiji_bento_dir t = Some d -> _env t = Some e ->
  exists w',
    Command X t command w = (Ok (ext_process X (kiji_argv command) d e w).1, w') /\
    events w' =
      events w ++
        [EvCommand (kiji_argv command) d e
                   (ext_process X (kiji_argv command) d e w).1] /\
    fs w' = (ext_process X (kiji_argv command) d e w).2.
Proof.
  intros Hd He.
  destruct (Command_cases X t command w)
    as [[_ [Hn | Hn]] | (d' & e' & w' & Hd' & He' & Hrun)]; try congruence.
  assert (d' = d) as -> by congruence.
  assert (e' = e) as -> by congruence.
  simpl in Hrun. destruct Hrun as (Hrun & Hev & Hfs).
  exists w'. split; [exact Hrun |]. split; [| exact Hfs].
  rewrite Hev. unfold issued. rewrite Hd, He. reflexivity.
Qed.

(** An instance of C9: a command that exits with 1 is returned, not
    raised. *)
Lemma Command_never_raises_witness :
  exists w',
    Command (demo 0 1) demo_tutorial "kiji ls ${KIJI}" demo_world
      = (Ok (demo_result 1 demo_scan_lines), w') /\
    events w' =
      [EvCommand (kiji_argv "kiji ls ${KIJI}") "/w/kiji-bento-1.0.0"
                 (environ demo_world) (demo_result 1 demo_scan_lines)] /\
    fs w' = fs demo_world.
Proof.
  apply (Command_never_raises (demo 0 1) demo_tutorial "kiji ls ${KIJI}"
           "/w/kiji-bento-1.0.0" (environ demo_world) demo_world);
    reflexivity.
Defined.

(** C6.  The run is [Setup], [Part1], [Part2], [Part3], [Part4] and
    then, unless cleanup is disabled, [Cleanup]: each phase starts in the
    world the phase before it left, and only if that phase returned.  An
    exception raised by a phase is the outcome of the whole run, in the
    world where it was raised: no later phase has run and there is one
    failure, the first.  Across the four parts the commands of the
    tutorial are run in their fixed order. *)
Theorem phases_in_order (X : Externals) (wd ver : string) (FLAGS : Flags)
    (b : bool) (w : World) :
  then_ (Tutorial_init wd ver (maven_local_repo FLAGS) (maven_remote_repo FLAGS)) w
    (fun t0 w0 =>
     then_ (Setup X t0) w0
       (fun t w1 =>
        then_ (Part1 X t) w1
          (fun _ w2 =>
           then_ (Part2 X t) w2
             (fun _ w3 =>
              then_ (Part3 X t) w3
                (fun _ w4 =>
                 then_ (Part4 X t) w4
                   (fun _ w5 =>
                    if b then Main_tutorial X wd ver FLAGS b w = (Ok None, w5)
                    else
                      then_ (Cleanup X t) w5
                        (fun _ w6 =>
                           Main_tutorial X wd ver FLAGS b w = (Ok None, w6))
                        (fun e w6 =>
                           Main_tutorial X wd ver FLAGS b w = (Raise e, w6)))
                   (fun e w5 => Main_tutorial X wd ver FLAGS b w = (Raise e, w5)))
                (fun e w4 => Main_tutorial X wd ver FLAGS b w = (Raise e, w4)))
             (fun e w3 => Main_tutorial X wd ver FLAGS b w = (Raise e, w3)))
          (fun e w2 => Main_tutorial X wd ver FLAGS b w = (Raise e, w2)))
       (fun e w1 => Main_tutorial X wd ver FLAGS b w = (Raise e, w1)))
    (fun e w0 => Main_tutorial X wd ver FLAGS b w = (Raise e, w0))
  /\
  (forall t,
      runs t (Part1_commands ++ Part2_commands ++ Part3_commands ++ Part4_commands)
           (Part1 X t ;; Part2 X t ;; Part3 X t ;; Part4 X t)).
Proof.
  split; [| apply Parts_run].
  unfold then_, Main_tutorial, bind.
  destruct (Tutorial_init _ _ _ _ w) as [[t0 | e] w0]; [| reflexivity].
  destruct (Setup X t0 w0) as [[t | e] w1]; [| reflexivity].
  destruct (Part1 X t w1) as [[[] | e] w2]; [| reflexivity].
  destruct (Part2 X t w2) as [[[] | e] w3]; [| reflexivity].
  destruct (Part3 X t w3) as [[[] | e] w4]; [| reflexivity].
  destruct (Part4 X t w4) as [[[] | e] w5]; [| reflexivity].
  destruct b; simpl; [reflexivity |].
  destruct (Cleanup X t w5) as [[[] | e] w6]; reflexivity.
Qed.

(** The loop that checks the lines of a play-count file. *)
Lemma for_lines_ok (lines : list string) (w w' : World) :
  for_ lines (fun line => ExpectRegexMatch "^song-\d+\t\d+$" line ;; ret tt) w
    = (Ok tt, w') ->
  Forall (fun line =>
            forall w0, ExpectRegexMatch "^song-\d+\t\d+$" line w0 = (Ok true, w0))
         lines.
Proof.
  revert w. induction lines as [| line lines IH]; intros w Hrun.
  - constructor.
  - simpl in Hrun. unfold bind at 1 2 in Hrun.
    destruct (re_match
                [Bol; Rep (Lit "s") One; Rep (Lit "o") One; Rep (Lit "n") One;
                 Rep (Lit "g") One; Rep (Lit "-") One; Rep Digit Plus;
                 Rep (Lit (ascii_of_nat 9)) One; Rep Digit Plus; Eol] line)
      eqn:Hm.
    + destruct (ExpectRegexMatch_cases _ line _ w song_pattern_compiles)
        as [Hyes _].
      rewrite (Hyes Hm) in Hrun. simpl in Hrun.
      constructor; [| eapply IH; exact Hrun].
      intros w0.
      apply (ExpectRegexMatch_cases _ line _ w0 song_pattern_compiles). exact Hm.
    + destruct (ExpectRegexMatch_cases _ line _ w song_pattern_compiles)
        as [_ Hno].
      destruct (Hno Hm) as (w1 & Hr & _). rewrite Hr in Hrun. discriminate.
Qed.


(** ** What [Setup] does, step by step *)

Lemma append_not_empty (a b : string) : b <> "" -> a +:+ b <> "".
Proof. destruct a; simpl; [tauto | discriminate]. Qed.

Lemma release_dir_not_empty t : String.eqb (release_dir t) "" = false.
Proof.
  apply String.eqb_neq. unfold release_dir, os_path_join.
  change (startswith ("kiji-bento-" +:+ _kiji_version t) "/") with false.
  cbv iota.
  destruct (_ || _); apply append_not_empty; discriminate.
Qed.

Lemma makedirs_adds (p : string) (w : World) :
  p ∉ fs w -> p <> "" ->
  exists w', os_makedirs p w = (Ok tt, w') /\ p ∈ fs w' /\
             events w' = events w /\ environ w' = environ w /\
             (forall q, q ∈ fs w -> q ∈ fs w').
Proof.
  intros Hp Hne. unfold os_makedirs.
  apply String.eqb_neq in Hne. rewrite Hne.
  rewrite bool_decide_eq_false_2 by exact Hp.
  eexists. split; [reflexivity |]. simpl. repeat split.
  - apply elem_of_app. right. apply list_elem_of_In, filter_In. split.
    + apply in_or_app. right. left. reflexivity.
    + rewrite bool_decide_eq_false_2 by exact Hp. reflexivity.
  - intros q Hq. apply elem_of_app. left. exact Hq.
Qed.

Section SetupFacts.

Variable X : Externals.

Lemma Setup_unpack_eq t w :
  Setup_unpack X t w =
    let w1 := after_fetch X t w in
    if bool_decide (release_dir t ∈ fs w1) then (Ok (release_dir t), w1)
    else
      match os_makedirs (release_dir t) w1 with
      | (Ok _, w2) =>
          if bool_decide (release_archive t ∈ fs w2) then
            if bool_decide (release_dir t ∈ fs w2) then
              (Ok (release_dir t), after_tar X t w2)
            else (Raise AssertionError, w2)
          else (Raise AssertionError, w2)
      | (Raise e, w2) => (Raise e, w2)
      end.
Proof.
  unfold Setup_unpack.
  fold (release_archive t). fold (release_dir t). fold (fetch_request t).
  change ("/bin/tar xf " +:+ release_archive t +:+ " --directory " +:+
          release_dir t +:+ " --strip-components=" +:+ str_of_int 1)
    with (tar_command t).
  unfold bind, os_path_exists, after_fetch, after_tar, ExtractArchive, bind,
    os_path_exists, os_system, assert_, ret, raise.
  change ("/bin/tar xf " +:+ release_archive t +:+ " --directory " +:+
          release_dir t +:+ " --strip-components=" +:+ str_of_int 1)
    with (tar_command t).
  cbv zeta.
  destruct (bool_decide (release_archive t ∈ fs w)); cbn [negb];
    unfold FetchMavenArtifact; cbn [fs with_events with_fs];
    (destruct (bool_decide (release_dir t ∈ _)); cbn [negb]; [reflexivity |]);
    (destruct (os_makedirs _ _) as [[[] | e] w2]; [| reflexivity]);
    (destruct (bool_decide (release_archive t ∈ fs w2)); [| reflexivity]);
    (destruct (bool_decide (release_dir t ∈ fs w2)); [| reflexivity]);
    destruct (ext_shell X (tar_command t) w2) as [status files]; reflexivity.
Qed.

Lemma Setup_unpack_cases t w :
  if bool_decide (release_dir t ∈ fs (after_fetch X t w)) then
    Setup_unpack X t w = (Ok (release_dir t), after_fetch X t w)
  else
    exists w2,
      os_makedirs (release_dir t) (after_fetch X t w) = (Ok tt, w2) /\
      release_dir t ∈ fs w2 /\
      if bool_decide (release_archive t ∈ fs w2) then
        Setup_unpack X t w = (Ok (release_dir t), after_tar X t w2)
      else
        Setup_unpack X t w = (Raise AssertionError, w2).
Proof.
  rewrite Setup_unpack_eq. cbv zeta.
  destruct (bool_decide (release_dir t ∈ fs (after_fetch X t w))) eqn:Hd;
    [reflexivity |].
  apply bool_decide_eq_false in Hd.
  destruct (makedirs_adds (release_dir t) _ Hd) as (w2 & Hmk & Hin & _).
  { apply String.eqb_neq, release_dir_not_empty. }
  exists w2. split; [exact Hmk |]. split; [exact Hin |].
  rewrite Hmk. rewrite (bool_decide_eq_true_2 _ Hin).
  destruct (bool_decide (release_archive t ∈ fs w2)); reflexivity.
Qed.

Lemma Setup_after_unpack t w w1 :
  Setup_unpack X t w = (Ok (release_dir t), w1) ->
  Setup X t w =
    if bool_decide (release_dir t ∈ fs w1) then
      if bool_decide (cluster_dir t ∈ fs w1) then
        if bool_decide (music_dir t ∈ fs w1) then
          (Ok (prepared t (tutorial_env t (after_start X t w1))),
           after_start X t w1)
        else (Raise AssertionError, w1)
      else (Raise AssertionError, w1)
    else (Raise AssertionError, w1).
Proof.
  intros Hu. unfold Setup. unfold bind at 1. rewrite Hu.
  fold (cluster_dir t). fold (music_dir t). fold (music_lib_dir t).
  unfold bind, os_path_exists, assert_, ret, raise, BentoCluster_Start, glob_glob.
  cbn [home].
  destruct (bool_decide (release_dir t ∈ fs w1)); [| reflexivity].
  destruct (bool_decide (cluster_dir t ∈ fs w1)); [| reflexivity].
  destruct (bool_decide (music_dir t ∈ fs w1)); [| reflexivity].
  reflexivity.
Qed.

Lemma Setup_unpack_raises t w e w1 :
  Setup_unpack X t w = (Raise e, w1) -> Setup X t w = (Raise e, w1).
Proof. intros Hu. unfold Setup. unfold bind at 1. rewrite Hu. reflexivity. Qed.

Lemma Setup_unpack_returns t w d w1 :
  Setup_unpack X t w = (Ok d, w1) -> d = release_dir t.
Proof.
  rewrite Setup_unpack_eq. cbv zeta.
  destruct (bool_decide _); [congruence |].
  destruct (os_makedirs _ _) as [[[] | e] w2]; [| congruence].
  destruct (bool_decide _); [| congruence].
  destruct (bool_decide _); congruence.
Qed.

Lemma after_fetch_events t w :
  events (after_fetch X t w) =
    events w ++ (if bool_decide (release_archive t ∈ fs w) then []
                 else [EvFetch (fetch_request t)]).
Proof.
  unfold after_fetch. destruct (bool_decide _); simpl;
    [rewrite app_nil_r |]; reflexivity.
Qed.

Lemma Setup_events t w :
  exists tar start : bool,
    events (Setup X t w).2 =
      events w
      ++ (if bool_decide (release_archive t ∈ fs w) then []
          else [EvFetch (fetch_request t)])
      ++ (if tar then [EvSystem (tar_command t)] else [])
      ++ (if start then [EvBentoStart (cluster_dir t)] else []) /\
    (tar = true -> release_dir t ∉ fs (after_fetch X t w)) /\
    (start = true <-> exists t', (Setup X t w).1 = Ok t').
Proof.
  pose proof (Setup_unpack_cases t w) as Hu.
  pose proof (after_fetch_events t w) as Hf.
  set (w1 := after_fetch X t w) in *.
  set (fetched := if bool_decide (release_archive t ∈ fs w) then []
                  else [EvFetch (fetch_request t)]) in *.
  assert (forall w' (tar : bool),
             Setup_unpack X t w = (Ok (release_dir t), w') ->
             events w' = events w ++ fetched
                         ++ (if tar then [EvSystem (tar_command t)] else []) ->
             exists start : bool,
               events (Setup X t w).2 =
                 events w ++ fetched
                 ++ (if tar then [EvSystem (tar_command t)] else [])
                 ++ (if start then [EvBentoStart (cluster_dir t)] else []) /\
               (start = true <-> exists t', (Setup X t w).1 = Ok t')) as Hrest.
  { intros w' tar Hw' Hev. rewrite (Setup_after_unpack t w w' Hw').
    destruct (bool_decide (release_dir t ∈ fs w'));
      [destruct (bool_decide (cluster_dir t ∈ fs w'));
       [destruct (bool_decide (music_dir t ∈ fs w')) | ] | ].
    - exists true. simpl. rewrite Hev, <- !app_assoc. split; [reflexivity |].
      split; [intros _; eexists; reflexivity | reflexivity].
    - exists false. simpl. rewrite Hev, !app_nil_r. split; [reflexivity |].
      split; [discriminate | intros [t' Ht']; discriminate].
    - exists false. simpl. rewrite Hev, !app_nil_r. split; [reflexivity |].
      split; [discriminate | intros [t' Ht']; discriminate].
    - exists false. simpl. rewrite Hev, !app_nil_r. split; [reflexivity |].
      split; [discriminate | intros [t' Ht']; discriminate]. }
  destruct (bool_decide (release_dir t ∈ fs w1)) eqn:Hd.
  - destruct (Hrest w1 false Hu) as (start & Hev & Hs).
    { rewrite Hf, app_nil_r. reflexivity. }
    exists false, start. split; [exact Hev |]. split; [discriminate | exact Hs].
  - apply bool_decide_eq_false in Hd.
    destruct Hu as (w2 & Hmk & Hin & Hu).
    assert (events w2 = events w1) as Hq.
    { pose proof (quiet_os_makedirs (release_dir t) w1) as Hq.
      rewrite Hmk in Hq. exact Hq. }
    destruct (bool_decide (release_archive t ∈ fs w2)).
    + destruct (Hrest (after_tar X t w2) true Hu) as (start & Hev & Hs).
      { simpl. rewrite Hq, Hf, <- app_assoc. reflexivity. }
      exists true, start. split; [exact Hev |]. split; [intros _; exact Hd | exact Hs].
    + exists false, false. rewrite (Setup_unpack_raises t w _ _ Hu). simpl.
      rewrite Hq, Hf, !app_nil_r. split; [reflexivity |].
      split; [discriminate |]. split; [discriminate | intros [t' Ht']; discriminate].
Qed.
End SetupFacts.

(** C8.  [Setup] asks the fetcher for the release only when the cached
    archive is not in the working directory ([after_fetch]).  It creates
    the release directory and unpacks the archive into it, dropping one
    leading path component, only when that directory does not exist yet;
    an archive still missing at that point is an [AssertionError].  After
    the unpacking, a missing release directory, cluster directory or
    [examples/music] directory ends [Setup] in [AssertionError], before
    the cluster is started.  The calls [Setup] makes are, in order: the
    fetch (if the archive was absent), [tar] (only if the directory was
    absent), the start of the cluster (only if [Setup] returns). *)
Theorem Setup_fetches_and_unpacks (X : Externals) (t : Tutorial) (w : World) :
  (if bool_decide (release_dir t ∈ fs (after_fetch X t w)) then
     Setup_unpack X t w = (Ok (release_dir t), after_fetch X t w)
   else
     exists w2,
       os_makedirs (release_dir t) (after_fetch X t w) = (Ok tt, w2) /\
       release_dir t ∈ fs w2 /\
       if bool_decide (release_archive t ∈ fs w2) then
         Setup_unpack X t w = (Ok (release_dir t), after_tar X t w2)
       else
         Setup_unpack X t w = (Raise AssertionError, w2)) /\
  (forall w1,
      Setup_unpack X t w = (Ok (release_dir t), w1) ->
      Setup X t w =
        if bool_decide (release_dir t ∈ fs w1) then
          if bool_decide (cluster_dir t ∈ fs w1) then
            if bool_decide (music_dir t ∈ fs w1) then
              (Ok (prepared t (tutorial_env t (after_start X t w1))),
               after_start X t w1)
            else (Raise AssertionError, w1)
          else (Raise AssertionError, w1)
        else (Raise AssertionError, w1)) /\
  (forall e w1,
      Setup_unpack X t w = (Raise e, w1) -> Setup X t w = (Raise e, w1)) /\
  (exists tar start : bool,
      events (Setup X t w).2 =
        events w
        ++ (if bool_decide (release_archive t ∈ fs w) then []
            else [EvFetch (fetch_request t)])
        ++ (if tar then [EvSystem (tar_command t)] else [])
        ++ (if start then [EvBentoStart (cluster_dir t)] else []) /\
      (tar = true -> release_dir t ∉ fs (after_fetch X t w)) /\
      (start = true <-> exists t', (Setup X t w).1 = Ok t')).
Proof.
  split; [apply Setup_unpack_cases |].
  split; [intros w1; apply Setup_after_unpack |].
  split; [intros e w1; apply Setup_unpack_raises |].
  apply Setup_events.
Qed.

Section Environment.

Variable X : Externals.

Lemma Setup_unpack_environ t w :
  environ (Setup_unpack X t w).2 = environ w.
Proof.
  rewrite Setup_unpack_eq. cbv zeta.
  assert (environ (after_fetch X t w) = environ w) as Hf.
  { unfold after_fetch. destruct (bool_decide _); reflexivity. }
  destruct (bool_decide _); [exact Hf |].
  assert (environ (os_makedirs (release_dir t) (after_fetch X t w)).2
          = environ w) as Hm.
  { unfold os_makedirs. destruct (String.eqb _ _); [exact Hf |].
    destruct (bool_decide _); exact Hf. }
  destruct (os_makedirs _ _) as [[[] | e] w2]; simpl in Hm; [| exact Hm].
  destruct (bool_decide _); [| exact Hm].
  destruct (bool_decide _); exact Hm.
Qed.

(** What a successful [Setup] leaves. *)
Lemma Setup_Ok t w t' w' :
  Setup X t w = (Ok t', w') ->
  t' = prepared t (tutorial_env t w') /\ environ w' = environ w /\
  exists w1,
    Setup_unpack X t w = (Ok (release_dir t), w1) /\ w' = after_start X t w1 /\
    release_dir t ∈ fs w1 /\ cluster_dir t ∈ fs w1 /\ music_dir t ∈ fs w1.
Proof.
  intros Hs. pose proof (Setup_unpack_environ t w) as Henv.
  destruct (Setup_unpack X t w) as [[d | e] w1] eqn:Hu.
  - pose proof (Setup_unpack_returns X t w d w1 Hu) as ->.
    rewrite (Setup_after_unpack X t w w1 Hu) in Hs.
    destruct (bool_decide (release_dir t ∈ fs w1)) eqn:H1; [| discriminate].
    destruct (bool_decide (cluster_dir t ∈ fs w1)) eqn:H2; [| discriminate].
    destruct (bool_decide (music_dir t ∈ fs w1)) eqn:H3; [| discriminate].
    injection Hs as <- <-.
    split; [reflexivity |]. split; [exact Henv |].
    exists w1. split; [reflexivity |]. split; [reflexivity |].
    apply bool_decide_eq_true in H1, H2, H3. auto.
  - rewrite (Setup_unpack_raises X t w e w1 Hu) in Hs. discriminate.
Qed.

End Environment.

(** What [glob] takes for [lib/*]: the entries of [lib], the hidden ones
    and what lies deeper left out, in directory order. *)
Lemma glob_star_example :
  (glob_glob "/lib/*"
     (with_fs demo_world
        ["/lib"; "/lib/a.jar"; "/lib/.hidden"; "/lib/sub"; "/lib/sub/c.jar";
         "/lib/b.jar"; "/libs/d.jar"])).1
  = Ok ["/lib/a.jar"; "/lib/sub"; "/lib/b.jar"].
Proof. reflexivity. Qed.

(** [s[n:]]. *)
Fixpoint text_from (n : nat) (s : string) : string :=
  match n, s with
  | O, _ => s
  | S n', String _ s' => text_from n' s'
  | S _, EmptyString => ""
  end.

(** The entries of the directory [dir] that a listing shows: [p] is
    [dir/name], the name is not empty, holds no slash, so that it is an
    entry of [dir] itself, and does not begin with a dot. *)
Definition is_shown_entry (dir p : string) : bool :=
  startswith p (dir +:+ "/") &&
  let name := text_from (String.length dir + 1) p in
  negb (String.eqb name "") && negb (contains "/" name)
  && negb (startswith name ".").

Lemma append_nil (s : string) : "" +:+ s = s.
Proof. reflexivity. Qed.

Lemma append_cons c (s s' : string) : String c s +:+ s' = String c (s +:+ s').
Proof. reflexivity. Qed.

Lemma append_assoc (a b c : string) : (a +:+ b) +:+ c = a +:+ (b +:+ c).
Proof.
  induction a as [| x a IH]; [reflexivity |].
  rewrite !append_cons, IH. reflexivity.
Qed.

Lemma prefix_cons a s1 b s2 :
  String.prefix (String a s1) (String b s2) = Ascii.eqb a b && String.prefix s1 s2.
Proof.
  cbn. destruct (ascii_dec a b) as [-> | Hne].
  - rewrite Ascii.eqb_refl. reflexivity.
  - apply Ascii.eqb_neq in Hne. rewrite Hne. reflexivity.
Qed.

Lemma prefix_nil s : String.prefix "" s = true.
Proof. destruct s; reflexivity. Qed.

Lemma has_magic_cons c s :
  has_magic (String c s) = false -> Ascii.eqb c "*" = false /\ has_magic s = false.
Proof.
  unfold has_magic. cbn [list_ascii_of_string existsb].
  rewrite !orb_false_iff. intros [(H & _) Hs]. auto.
Qed.

(** A pattern that begins with a directory without magic: the name must
    begin with it. *)
Lemma glob_matches_dir d rest : forall p start,
  has_magic d = false ->
  glob_matches (d +:+ String "/" rest) p start =
    startswith p (d +:+ "/") &&
    glob_matches rest (text_from (String.length d + 1) p) true.
Proof.
  unfold startswith. induction d as [| a d IH]; intros p start Hd.
  - rewrite !append_nil. cbn [glob_matches String.length Nat.add].
    change (Ascii.eqb "/" "*") with false. cbv iota.
    destruct p as [| c p]; [reflexivity |].
    rewrite prefix_cons, prefix_nil, andb_true_r. cbn [text_from].
    destruct (Ascii.eqb "/" c) eqn:E; [| reflexivity].
    apply Ascii.eqb_eq in E. subst c. reflexivity.
  - apply has_magic_cons in Hd as [Ha Hd]. rewrite !append_cons.
    cbn [glob_matches String.length Nat.add]. rewrite Ha.
    destruct p as [| c p]; [reflexivity |].
    rewrite prefix_cons, IH by exact Hd. cbn [text_from].
    rewrite andb_assoc. reflexivity.
Qed.

Lemma contains_slash_cons c s :
  contains "/" (String c s) = Ascii.eqb "/" c || contains "/" s.
Proof. cbn [contains]. rewrite prefix_cons, prefix_nil, andb_true_r. reflexivity. Qed.

(** A [*] that ends the pattern takes what is left of the component, if
    the name ends with it. *)
Lemma glob_star_rest name : forall start,
  (fix star (name : string) (start : bool) {struct name} : bool :=
     String.eqb name "" ||
     match name with
     | String c name' => negb (Ascii.eqb c "/") && star name' false
     | EmptyString => false
     end) name start = negb (contains "/" name).
Proof.
  induction name as [| c name IH]; intros start; [reflexivity |].
  rewrite contains_slash_cons, IH. cbn [String.eqb orb].
  rewrite negb_orb, (Ascii.eqb_sym "/" c). reflexivity.
Qed.

Lemma glob_lib_star dir p :
  has_magic dir = false ->
  glob_matches (dir +:+ "/*") p true = is_shown_entry dir p.
Proof.
  intros Hd. unfold is_shown_entry.
  rewrite (glob_matches_dir dir "*" p true Hd). f_equal. cbv zeta.
  generalize (text_from (String.length dir + 1) p). intros name.
  cbn [glob_matches]. change (Ascii.eqb "*" "*") with true. cbv iota beta.
  rewrite glob_star_rest. cbn [andb].
  assert (startswith name "/" = true -> contains "/" name = true) as Hs.
  { unfold startswith. destruct name as [| c name]; [discriminate |].
    rewrite contains_slash_cons, prefix_cons, prefix_nil, andb_true_r.
    intros ->. reflexivity. }
  destruct (startswith name "."), (startswith name "/"), (String.eqb name ""),
    (contains "/" name); try reflexivity; discriminate (Hs eq_refl).
Qed.

Lemma ends_with_slash_lib a : ends_with_slash (a +:+ "lib") = false.
Proof.
  induction a as [| c a IH]; [reflexivity |].
  rewrite append_cons. cbn [ends_with_slash]. rewrite IH.
  destruct (a +:+ "lib") eqn:E; [destruct a; discriminate E | reflexivity].
Qed.

(** The pattern [Setup] hands to [glob]. *)
Lemma lib_pattern t :
  os_path_join (music_lib_dir t) "*" = music_lib_dir t +:+ "/*".
Proof.
  assert (exists a, music_lib_dir t = a +:+ "lib") as [a Ha].
  { unfold music_lib_dir, os_path_join at 1. cbn [startswith String.prefix].
    destruct (_ || _).
    - eexists. reflexivity.
    - exists (music_dir t +:+ "/"). rewrite append_assoc. reflexivity. }
  unfold os_path_join. rewrite Ha, ends_with_slash_lib.
  change (startswith "*" "/") with false. cbv iota.
  destruct (String.eqb (a +:+ "lib") "") eqn:E; [| reflexivity].
  apply String.eqb_eq in E. destruct a; discriminate E.
Qed.

(** C7.  A [Setup] that returns has built the environment of the
    tutorial commands: the environment of the process with [MUSIC_HOME],
    [LIBS_DIR], [KIJI], [KIJI_CLASSPATH] and [HDFS_BASE] laid over it,
    every other variable as the process has it.  Where the path of the
    library directory, [lib] under [examples/music], holds none of the
    wildcards of [glob], [KIJI_CLASSPATH] is the entries of that directory
    whose names do not begin with a dot, in directory order, full paths
    joined by a colon.  The environment is built in [Setup] and nowhere
    else: every command of [Part1] to [Part4] is run with exactly this
    mapping, in the release directory. *)
Theorem Setup_builds_environment (X : Externals) (t t' : Tutorial) (w w' : World) :
  Setup X t w = (Ok t', w') ->
  has_magic (music_lib_dir t) = false ->
  exists env,
    _env t' = Some env /\
    env !! "MUSIC_HOME" = Some (music_dir t) /\
    env !! "LIBS_DIR" = Some (music_lib_dir t) /\
    env !! "KIJI" = Some ("kiji://.env/kiji_music_" +:+ str_of_int (_run_id t)) /\
    env !! "KIJI_CLASSPATH"
      = Some (join ":" (List.filter (is_shown_entry (music_lib_dir t)) (fs w'))) /\
    env !! "HDFS_BASE" = Some ("kiji-music-" +:+ str_of_int (_run_id t)) /\
    (forall k,
        k ∉ ["MUSIC_HOME"; "LIBS_DIR"; "KIJI"; "KIJI_CLASSPATH"; "HDFS_BASE"] ->
        env !! k = environ w !! k) /\
    (forall command w1,
        exists r w2,
          Command X t' command w1 = (Ok r, w2) /\
          events w2 =
            events w1 ++ [EvCommand (kiji_argv command) (release_dir t) env r]) /\
    (forall w1, exists l,
        events ((Part1 X t' ;; Part2 X t' ;; Part3 X t' ;; Part4 X t') w1).2
          = events w1 ++ l /\
        Forall (fun ev => exists argv r,
                    ev = EvCommand argv (release_dir t) env r) l).
Proof.
  intros Hs Hmagic. destruct (Setup_Ok X t w t' w' Hs) as (-> & Henv & _).
  exists (tutorial_env t w').
  split; [reflexivity |].
  assert (List.filter
            (fun p => glob_matches (os_path_join (music_lib_dir t) "*") p true)
            (fs w')
          = List.filter (is_shown_entry (music_lib_dir t)) (fs w')) as Hglob.
  { rewrite lib_pattern. apply filter_ext. intros p.
    apply glob_lib_star. exact Hmagic. }
  unfold tutorial_env at 1 2 3 4 5 6. rewrite Hglob.
  unfold dict_update. cbn [fold_left fst snd].
  split; [by simplify_map_eq |].
  split; [by simplify_map_eq |].
  split; [by simplify_map_eq |].
  split; [by simplify_map_eq |].
  split; [by simplify_map_eq |].
  split.
  { intros k Hk. rewrite !not_elem_of_cons in Hk.
    destruct Hk as (H1 & H2 & H3 & H4 & H5 & _).
    rewrite !lookup_insert_ne by congruence. rewrite Henv. reflexivity. }
  split.
  - intros command w1.
    destruct (Command_never_raises_aux X (prepared t (tutorial_env t w')) command
                (release_dir t) (tutorial_env t w') w1 eq_refl eq_refl)
      as (w2 & Hrun & Hev).
    eexists. exists w2. split; [exact Hrun | exact Hev].
  - intros w1.
    destruct (Parts_run X (prepared t (tutorial_env t w')) w1) as (l & Hl & Hf).
    exists l. split; [exact Hl |].
    eapply Forall_impl; [eapply follows_issued; exact Hf |].
    intros ev (c & r & -> & _). exists (kiji_argv c), r. reflexivity.
Qed.

(** An instance of C7: a library directory that holds [a.jar] and
    [b.jar] gives their two full paths joined by a colon, and a variable
    of the process comes through untouched. *)
Lemma Setup_builds_environment_witness :
  Setup (demo 0 0) demo_fresh demo_home
    = (Ok (prepared demo_fresh (tutorial_env demo_fresh demo_ready)), demo_ready) /\
  has_magic (music_lib_dir demo_fresh) = false /\
  exists env,
    _env (prepared demo_fresh (tutorial_env demo_fresh demo_ready)) = Some env /\
    env !! "KIJI_CLASSPATH"
      = Some ("/w/kiji-bento-1.0.0/examples/music/lib/a.jar"
              +:+ ":" +:+ "/w/kiji-bento-1.0.0/examples/music/lib/b.jar") /\
    env !! "PATH" = Some "/usr/bin".
Proof.
  assert (Setup (demo 0 0) demo_fresh demo_home
          = (Ok (prepared demo_fresh (tutorial_env demo_fresh demo_ready)),
             demo_ready)) as Hs
    by (vm_compute; reflexivity).
  destruct (Setup_builds_environment (demo 0 0) demo_fresh _ demo_home
              demo_ready Hs eq_refl)
    as (env & He & _ & _ & _ & Hcp & _ & Hother & _).
  split; [exact Hs |]. split; [reflexivity |].
  exists env. split; [exact He |]. split.
  - rewrite Hcp. vm_compute. reflexivity.
  - rewrite Hother; [vm_compute; reflexivity | compute_done].
Defined.

(** Collaborators as [demo 0 0], with a [tar] that unpacks a hidden file
    into the library directory as well. *)
Definition demo_hidden : Externals :=
  {| ext_process := ext_process (demo 0 0);
     ext_fetch := ext_fetch (demo 0 0);
     ext_shell := fun cmd w =>
       (0%Z,
        fs w ++ demo_release
             ++ ["/w/kiji-bento-1.0.0/examples/music/lib/.hidden.jar"]);
     ext_bento_start := ext_bento_start (demo 0 0);
     ext_bento_stop := ext_bento_stop (demo 0 0) |}.

(** Against C7 as worded, all files found in the library directory: a
    file of that directory whose name begins with a dot is left out of
    [KIJI_CLASSPATH]. *)
Lemma Setup_builds_environment_counterexample :
  exists t' w' env,
    Setup demo_hidden demo_fresh demo_home = (Ok t', w') /\
    _env t' = Some env /\
    music_lib_dir demo_fresh = "/w/kiji-bento-1.0.0/examples/music/lib" /\
    "/w/kiji-bento-1.0.0/examples/music/lib/.hidden.jar" ∈ fs w' /\
    env !! "KIJI_CLASSPATH"
      = Some ("/w/kiji-bento-1.0.0/examples/music/lib/a.jar"
              +:+ ":" +:+ "/w/kiji-bento-1.0.0/examples/music/lib/b.jar").
Proof.
  eexists _, _, _.
  split; [vm_compute; reflexivity |].
  split; [reflexivity |].
  split; [reflexivity |].
  split; [compute_done | vm_compute; reflexivity].
Qed.

(** ** What [Main] does before the tutorial *)

Lemma grows_refl w : grows w w.
Proof. repeat split. auto. Qed.

Lemma grows_trans w w1 w2 : grows w w1 -> grows w1 w2 -> grows w w2.
Proof.
  intros (He1 & Hs1 & Hf1) (He2 & Hs2 & Hf2).
  repeat split; [congruence | congruence | auto].
Qed.

Lemma run_logging_debug {B} fmt a (k : unit -> M B) w :
  exists w1, bind (logging_debug fmt a) k w = k tt w1 /\ grows w w1 /\
             logger_level w1 = logger_level w.
Proof.
  unfold bind, logging_debug, logging_log.
  destruct (_ <=? _)%Z; eexists; (split; [reflexivity |]); split;
    solve [apply grows_refl | reflexivity | repeat split; auto].
Qed.

Lemma run_logging_info {B} fmt a (k : unit -> M B) w :
  exists w1, bind (logging_info fmt a) k w = k tt w1 /\ grows w w1 /\
             logger_level w1 = logger_level w.
Proof.
  unfold bind, logging_info, logging_log.
  destruct (_ <=? _)%Z; eexists; (split; [reflexivity |]); split;
    solve [apply grows_refl | reflexivity | repeat split; auto].
Qed.

Lemma makedirs_result p w :
  (p = "" /\ os_makedirs p w = (Raise FileNotFoundError, w)) \/
  (p ∈ fs w /\ os_makedirs p w = (Raise FileExistsError, w)) \/
  (exists w1, os_makedirs p w = (Ok tt, w1) /\ grows w w1 /\
              logger_level w1 = logger_level w /\ p ∈ fs w1 /\ p ∉ fs w).
Proof.
  unfold os_makedirs. destruct (String.eqb p "") eqn:He.
  - left. apply String.eqb_eq in He. auto.
  - destruct (bool_decide (p ∈ fs w)) eqn:Hp.
    + right. left. apply bool_decide_eq_true in Hp. auto.
    + right. right. apply bool_decide_eq_false in Hp.
      eexists. split; [reflexivity |].
      split; [| split; [reflexivity | split; [| exact Hp]]].
      * repeat split. intros q Hq. simpl. apply elem_of_app. left. exact Hq.
      * simpl. apply elem_of_app. right. apply list_elem_of_In, filter_In.
        split; [apply in_or_app; right; left; reflexivity |].
        rewrite bool_decide_eq_false_2 by exact Hp. reflexivity.
Qed.

(** The two lines that make sure a directory exists. *)
Lemma run_ensure_dir {B} p (k : unit -> M B) w :
  (p = "" /\ (p ∉ fs w) /\
   bind (os_path_exists p)
        (fun e => bind (if negb e then os_makedirs p else ret tt) k) w
     = (Raise FileNotFoundError, w)) \/
  (exists w1,
      bind (os_path_exists p)
           (fun e => bind (if negb e then os_makedirs p else ret tt) k) w
        = k tt w1 /\
      grows w w1 /\ logger_level w1 = logger_level w /\ p ∈ fs w1).
Proof.
  assert (bind (os_path_exists p)
               (fun e => bind (if negb e then os_makedirs p else ret tt) k) w
          = if bool_decide (p ∈ fs w) then k tt w
            else match os_makedirs p w with
                 | (Ok _, w1) => k tt w1
                 | (Raise e, w1) => (Raise e, w1)
                 end) as ->.
  { unfold bind, os_path_exists. destruct (bool_decide _); cbn [negb]; [reflexivity |].
    destruct (os_makedirs p w) as [[[] | e] w1]; reflexivity. }
  destruct (bool_decide (p ∈ fs w)) eqn:Hp.
  - right. exists w. apply bool_decide_eq_true in Hp.
    split; [reflexivity |]. split; [apply grows_refl |]. split; [reflexivity | exact Hp].
  - apply bool_decide_eq_false in Hp.
    destruct (makedirs_result p w)
      as [[-> ->] | [[Hin _] | (w1 & -> & Hg & Hl & Hin & _)]].
    + left. auto.
    + contradiction.
    + right. exists w1. auto.
Qed.

Lemma os_path_normpath_not_empty p : os_path_normpath p <> "".
Proof.
  unfold os_path_normpath. destruct (String.eqb p ""); [discriminate |].
  cbv zeta. destruct (String.eqb _ "") eqn:He; [discriminate |].
  apply String.eqb_neq. exact He.
Qed.

Lemma py_int_raises text e : py_int text = Raise e -> e = ValueError.
Proof.
  unfold py_int. destruct (strip text) as [| c rest].
  - cbn. congruence.
  - destruct (Ascii.eqb c "-"); [| destruct (Ascii.eqb c "+")];
      repeat match goal with
             | |- context [match ?x with _ => _ end] => destruct x
             end; congruence.
Qed.

Section MainFacts.

Variable X : Externals.

Lemma Main_cases args w :
  match parse_known_args BuildFlagParser (tail args) with
  | Raise e =>
      exists w', Main X args w = (Raise e, w') /\ events w' = events w /\
                 fs w' = fs w
  | Ok (FLAGS, u :: us) =>
      Main X args w =
        (Ok (Some EX_USAGE),
         with_stdout w (stdout w ++ [("Unknown flag: %s", [PList (u :: us)])]))
  | Ok (FLAGS, []) =>
      match disable_cleanup_after_test FLAGS with
      | None => Main X args w = (Raise AttributeError, w)
      | Some s =>
          match Truth s with
          | Raise e => Main X args w = (Raise e, w)
          | Ok b =>
              match log_level FLAGS with
              | None => Main X args w = (Raise TypeError, w)
              | Some name =>
                  match level_of name with
                  | None => exists e, Main X args w = (Raise e, w)
                  | Some n =>
                      (log_dir FLAGS = Some "" /\
                       exists w1, Main X args w = (Raise FileNotFoundError, w1)) \/
                      (exists wd w1,
                          grows w w1 /\ logger_level w1 = n /\ wd ∈ fs w1 /\
                          Main X args w =
                            match kiji_bento_version FLAGS with
                            | None | Some "" => usage w1
                            | Some ver =>
                                (logging_info "Testing tutorial of KijiBento %s"
                                              [PStr ver] ;;
                                 Main_tutorial X wd ver FLAGS b) w1
                            end)
                  end
              end
          end
      end
  end.
Proof.
  remember (Main X args w) as r eqn:Hr. unfold Main in Hr.
  unfold bind at 1 in Hr.
  destruct (parse_known_args BuildFlagParser (tail args)) as [[FLAGS unparsed] | e];
    cbn [lift ret raise] in Hr.
  2:{ subst r. destruct e; try (eexists; repeat split; reflexivity).
      unfold bind, print, ret, raise. destruct (code =? 0)%Z;
        eexists; repeat split; reflexivity. }
  destruct unparsed as [| u us]; [| exact Hr].
  change (0 <? @List.length string [])%nat with false in Hr. cbv iota in Hr.
  unfold bind at 1 in Hr.
  destruct (disable_cleanup_after_test FLAGS) as [s |]; cbn [attr ret raise] in Hr;
    [| exact Hr].
  unfold bind at 1 in Hr.
  destruct (Truth s) as [b | e]; cbn [lift ret raise] in Hr; [| exact Hr].
  unfold bind at 1 in Hr.
  destruct (log_level FLAGS) as [name |]; cbn [ret raise] in Hr; [| exact Hr].
  unfold level_of. unfold bind at 1 in Hr.
  destruct (0 <? String.length name)%nat.
  2:{ cbn [ret] in Hr. unfold bind at 1 in Hr. cbn [raise] in Hr.
      eexists. exact Hr. }
  assert (match logging_dict_int name with
          | Some n => ret (Some n)
          | None => n <- lift (py_int name) ;; ret (Some n)
          end w
          = match match logging_dict_int name with
                  | Some n => Some n
                  | None => match py_int name with
                            | Ok n => Some n
                            | Raise _ => None
                            end
                  end with
            | Some n => (Ok (Some n), w)
            | None => (Raise ValueError, w)
            end) as HL.
  { destruct (logging_dict_int name) as [n |]; [reflexivity |].
    unfold bind. pose proof (py_int_raises name) as Hpi.
    destruct (py_int name) as [n | e]; [reflexivity |].
    rewrite (Hpi e eq_refl). reflexivity. }
  rewrite HL in Hr. clear HL.
  destruct (match logging_dict_int name with
            | Some n => Some n
            | None => match py_int name with
                      | Ok n => Some n
                      | Raise _ => None
                      end
            end) as [n |].
  2:{ eexists. exact Hr. }
  unfold bind at 1 in Hr. cbv beta iota in Hr.
  assert (grows w (with_logger_level w n)) as Hg by (repeat split; auto).
  assert (logger_level (with_logger_level w n) = n) as Hl by reflexivity.
  revert Hr Hg Hl. generalize (with_logger_level w n). intros w0 Hr Hg Hl.
  (* the working directory *)
  unfold bind at 1 in Hr.
  assert (exists d w1,
             match work_dir FLAGS with
             | Some d => ret d
             | None => d <- os_getcwd ;; tempfile_mkdtemp "work_dir." d
             end w0 = (Ok d, w1) /\
             grows w w1 /\ logger_level w1 = n) as (d & w1 & HW & Hg1 & Hl1).
  { destruct (work_dir FLAGS) as [d |].
    - exists d, w0. auto.
    - eexists. eexists. split; [reflexivity |]. split; [| exact Hl].
      eapply grows_trans; [exact Hg |]. repeat split.
      intros q Hq. simpl. apply elem_of_app. left. exact Hq. }
  rewrite HW in Hr. clear HW Hg Hl w0. rename Hr into Hr1.
  unfold bind at 1 in Hr1. cbn [os_path_abspath] in Hr1.
  set (wd := os_path_normpath
               (if startswith d "/" then d else os_path_join (cwd w1) d)) in *.
  match type of Hr1 with
  | _ = bind (os_path_exists ?p)
             (fun e => bind (if negb e then os_makedirs ?p else ret tt) ?k) ?w0 =>
      destruct (run_ensure_dir p k w0)
        as [(He & _) | (w2 & Heq & Hg2 & Hl2 & Hwd)];
      [exfalso; exact (os_path_normpath_not_empty _ He) |];
      rewrite Heq in Hr1; clear Heq
  end.
  cbv beta in Hr1.
  match type of Hr1 with
  | _ = bind (logging_debug ?f ?a) ?k ?w0 =>
      destruct (run_logging_debug f a k w0) as (w3 & Heq & Hg3 & Hl3);
      rewrite Heq in Hr1; clear Heq
  end.
  cbv beta in Hr1.
  match type of Hr1 with
  | _ = bind (os_path_exists ?p)
             (fun e => bind (if negb e then os_makedirs ?p else ret tt) ?k) ?w0 =>
      destruct (run_ensure_dir p k w0)
        as [(He & _ & Heq) | (w4 & Heq & Hg4 & Hl4 & _)];
      rewrite Heq in Hr1; clear Heq
  end.
  { left. destruct (log_dir FLAGS) as [ld |].
    - subst ld. split; [reflexivity |]. eexists. exact Hr1.
    - exfalso. exact (os_path_normpath_not_empty _ He). }
  cbv beta in Hr1.
  match type of Hr1 with
  | _ = bind (logging_debug ?f ?a) ?k ?w0 =>
      destruct (run_logging_debug f a k w0) as (w5 & Heq & Hg5 & Hl5);
      rewrite Heq in Hr1; clear Heq
  end.
  cbv beta in Hr1.
  right. exists wd, w5.
  split; [eauto using grows_trans |].
  split; [congruence |].
  split; [destruct Hg3 as (_ & _ & H3); destruct Hg4 as (_ & _ & H4);
          destruct Hg5 as (_ & _ & H5); auto |].
  rewrite Hr1. destruct (kiji_bento_version FLAGS) as [[| c ver] |]; reflexivity.
Qed.

End MainFacts.

(** * Further properties of the script *)

(** ** [Main] and its flags *)

(** X1.  A flag the parser does not know makes [Main] print [Unknown
    flag] with the list of such flags and return [os.EX_USAGE], at once:
    no flag is read, no directory made, no collaborator called, whatever
    the other flags say. *)
Theorem Main_unknown_flag (X : Externals) (args : list string) (w : World)
    (FLAGS : Flags) (u : string) (us : list string) :
  parse_known_args BuildFlagParser (tail args) = Ok (FLAGS, u :: us) ->
  Main X args w =
    (Ok (Some EX_USAGE),
     with_stdout w (stdout w ++ [("Unknown flag: %s", [PList (u :: us)])])).
Proof.
  intros Hparse. pose proof (Main_cases X args w) as HM.
  rewrite Hparse in HM. exact HM.
Qed.

(** An instance of X1: an unknown flag wins over a missing version and
    over a malformed cleanup flag. *)
Lemma Main_unknown_flag_witness :
  Main (demo 0 0)
       ["kiji_music.py"; "--bogus"; "--disable_cleanup_after_test=maybe"]
       demo_world
  = (Ok (Some 64%Z),
     with_stdout demo_world [("Unknown flag: %s", [PList ["--bogus"]])]).
Proof.
  apply (Main_unknown_flag (demo 0 0)
           ["kiji_music.py"; "--bogus"; "--disable_cleanup_after_test=maybe"]
           demo_world
           (setattr (setattr (setattr empty_namespace "disable_cleanup_after_test"
                                      (Some "false"))
                             "log_level" (Some "INFO"))
                    "disable_cleanup_after_test" (Some "maybe"))
           "--bogus" []).
  vm_compute. reflexivity.
Defined.

(** The working directory of [--work_dir], made absolute: resolved
    against the current directory and normalised. *)
Definition absolute (w : World) (d : string) : string :=
  os_path_normpath (if startswith d "/" then d else os_path_join (cwd w) d).

Lemma level_of_name name n : logging_dict_int name = Some n -> level_of name = Some n.
Proof.
  intros H. unfold level_of. destruct name as [| c name]; [discriminate H |].
  cbn [String.length Nat.ltb Nat.leb]. rewrite H. reflexivity.
Qed.

(** X2.  With no version given and no unknown flag, [Main] prints the
    usage message and returns [os.EX_USAGE], provided the flags it reads
    before are well formed and ask for no directory to be made: the
    cleanup flag is a truth value, the log level is the name of a level,
    the working directory, if one is given, exists, and so does the log
    directory, if one is given.  By then the log level is set; no file is
    gone and no collaborator was called. *)
Theorem Main_missing_version (X : Externals) (args : list string) (w : World)
    (FLAGS : Flags) (s name : string) (b : bool) (n : Z) :
  parse_known_args BuildFlagParser (tail args) = Ok (FLAGS, []) ->
  kiji_bento_version FLAGS = None \/ kiji_bento_version FLAGS = Some "" ->
  disable_cleanup_after_test FLAGS = Some s -> Truth s = Ok b ->
  log_level FLAGS = Some name -> logging_dict_int name = Some n ->
  (forall d, work_dir FLAGS = Some d -> absolute w d ∈ fs w) ->
  (forall d, log_dir FLAGS = Some d -> d <> "" /\ d ∈ fs w) ->
  exists w',
    Main X args w = (Ok (Some EX_USAGE), w') /\
    events w' = events w /\
    stdout w' =
      stdout w ++
        [("Specify the version of KijiBento to test "
          +:+ "with --kiji_bento_version=...", [])] /\
    logger_level w' = n /\
    (forall q, q ∈ fs w -> q ∈ fs w').
Proof.
  intros Hparse Hver Hs Hb Hname Hn _ Hld.
  pose proof (Main_cases X args w) as HM.
  rewrite Hparse, Hs, Hb, Hname, (level_of_name _ _ Hn) in HM.
  destruct HM as [[Hld' _] | (wd & w1 & (He & Hso & Hfs) & Hl & _ & HM)].
  { destruct (Hld _ Hld') as [Hne _]. contradiction. }
  exists (with_stdout w1
            (stdout w1 ++
               [("Specify the version of KijiBento to test "
                 +:+ "with --kiji_bento_version=...", [])])).
  split.
  { rewrite HM. destruct Hver as [-> | ->]; reflexivity. }
  simpl. rewrite Hso. auto.
Qed.

(** An instance of X2: the script started with no flag at all. *)
Lemma Main_missing_version_witness :
  exists w',
    Main (demo 0 0) ["kiji_music.py"] demo_world = (Ok (Some EX_USAGE), w') /\
    events w' = events demo_world /\
    stdout w' =
      stdout demo_world ++
        [("Specify the version of KijiBento to test "
          +:+ "with --kiji_bento_version=...", [])] /\
    logger_level w' = 20%Z /\
    (forall q, q ∈ fs demo_world -> q ∈ fs w').
Proof.
  apply (Main_missing_version (demo 0 0) ["kiji_music.py"] demo_world
           (setattr (setattr empty_namespace "disable_cleanup_after_test"
                             (Some "false"))
                    "log_level" (Some "INFO"))
           "false" "INFO" false 20%Z).
  - vm_compute. reflexivity.
  - left. reflexivity.
  - reflexivity.
  - reflexivity.
  - reflexivity.
  - reflexivity.
  - intros d Hd. discriminate Hd.
  - intros d Hd. discriminate Hd.
Defined.

(** X3.  The cleanup flag is parsed before anything else is looked at: a
    value that is no truth value makes [Main] raise the [Error] of
    [Truth] in the world it started in, with nothing printed, also when
    the version is missing (no usage message then). *)
Theorem Main_bad_cleanup_flag (X : Externals) (args : list string) (w : World)
    (FLAGS : Flags) (s : string) :
  parse_known_args BuildFlagParser (tail args) = Ok (FLAGS, []) ->
  disable_cleanup_after_test FLAGS = Some s ->
  lower s <> "yes" -> lower s <> "true" -> lower s <> "no" -> lower s <> "false" ->
  Main X args w = (Raise (Error s), w).
Proof.
  intros Hparse Hs H1 H2 H3 H4.
  pose proof (Main_cases X args w) as HM. rewrite Hparse, Hs in HM.
  assert (Truth s = Raise (Error s)) as HT.
  { unfold Truth. cbv zeta.
    rewrite bool_decide_eq_false_2
      by (rewrite elem_of_yes_true; intros [|]; contradiction).
    rewrite bool_decide_eq_false_2
      by (rewrite elem_of_no_false; intros [|]; contradiction).
    reflexivity. }
  rewrite HT in HM. exact HM.
Qed.

(** An instance of X3, with no version on the command line. *)
Lemma Main_bad_cleanup_flag_witness :
  Main (demo 0 0) ["kiji_music.py"; "--disable_cleanup_after_test=maybe"]
       demo_world
  = (Raise (Error "maybe"), demo_world).
Proof.
  apply (Main_bad_cleanup_flag (demo 0 0)
           ["kiji_music.py"; "--disable_cleanup_after_test=maybe"] demo_world
           (setattr (setattr (setattr empty_namespace "disable_cleanup_after_test"
                                      (Some "false"))
                             "log_level" (Some "INFO"))
                    "disable_cleanup_after_test" (Some "maybe"))
           "maybe");
    solve [vm_compute; reflexivity | discriminate].
Defined.

(** The characters a decimal numeral may hold for [int]: digits, a
    sign, the underscore, blanks. *)
Definition numeral_char (c : ascii) : bool :=
  is_digit c || is_unicode_space c
  || existsb (Ascii.eqb c) (list_ascii_of_string "+-_").

Lemma elem_of_rev_app (c : ascii) (s1 : string) : forall s2,
  c ∈ list_ascii_of_string (String.rev_app s1 s2) <->
  c ∈ list_ascii_of_string s1 \/ c ∈ list_ascii_of_string s2.
Proof.
  induction s1 as [| a s1 IH]; intros s2; cbn [String.rev_app list_ascii_of_string].
  - rewrite elem_of_nil. tauto.
  - rewrite IH. cbn [list_ascii_of_string]. rewrite !elem_of_cons. tauto.
Qed.

Lemma elem_of_rev (c : ascii) (s : string) :
  c ∈ list_ascii_of_string (String.rev s) <-> c ∈ list_ascii_of_string s.
Proof.
  unfold String.rev. rewrite elem_of_rev_app. cbn [list_ascii_of_string].
  rewrite elem_of_nil. tauto.
Qed.

Lemma lstrip_keeps (c : ascii) (s : string) :
  is_int_space c = false ->
  c ∈ list_ascii_of_string s -> c ∈ list_ascii_of_string (lstrip s).
Proof.
  intros Hc. induction s as [| a s IH]; [auto |].
  cbn [lstrip]. destruct (is_int_space a) eqn:Ha; [| auto].
  cbn [list_ascii_of_string]. rewrite elem_of_cons.
  intros [-> | H]; [congruence | auto].
Qed.

Lemma ungroup_stray (c : ascii) (s : string) : forall after_digit,
  is_digit c = false -> Ascii.eqb c "_" = false ->
  c ∈ list_ascii_of_string s -> ungroup after_digit s = None.
Proof.
  induction s as [| a s IH]; intros after_digit Hd Hu Hin.
  - cbn in Hin. apply elem_of_nil in Hin. contradiction.
  - cbn [list_ascii_of_string] in Hin. apply elem_of_cons in Hin.
    cbn [ungroup]. destruct (Ascii.eqb a "_") eqn:Ea.
    + destruct after_digit; [| reflexivity].
      destruct Hin as [-> | Hin]; [congruence |]. apply IH; assumption.
    + destruct (is_digit a) eqn:Da; [| reflexivity].
      destruct Hin as [-> | Hin]; [congruence |].
      rewrite (IH true Hd Hu Hin). reflexivity.
Qed.

(** A text that holds a character no numeral holds is no numeral. *)
Lemma py_int_stray (text : string) (c : ascii) :
  c ∈ list_ascii_of_string text -> numeral_char c = false ->
  py_int text = Raise ValueError.
Proof.
  unfold numeral_char. cbn [existsb list_ascii_of_string].
  rewrite !orb_false_iff. intros Hin ((Hd & Hsp) & Hplus & Hminus & Hu & _).
  assert (is_int_space c = false) as Hi.
  { unfold is_unicode_space in Hsp. cbv zeta in Hsp.
    apply orb_false_iff in Hsp as [H _]. exact H. }
  assert (c ∈ list_ascii_of_string (strip text)) as Hs.
  { unfold strip. apply elem_of_rev, lstrip_keeps; [exact Hi |].
    apply elem_of_rev, lstrip_keeps; assumption. }
  unfold py_int. destruct (strip text) as [| a rest].
  - cbn in Hs. apply elem_of_nil in Hs. contradiction.
  - cbn [list_ascii_of_string] in Hs. apply elem_of_cons in Hs.
    assert (c ∈ list_ascii_of_string (String a rest)) as Hall.
    { cbn [list_ascii_of_string]. apply elem_of_cons. exact Hs. }
    destruct (Ascii.eqb a "-") eqn:Em; [| destruct (Ascii.eqb a "+") eqn:Ep].
    + apply Ascii.eqb_eq in Em. subst a.
      destruct Hs as [-> | Hs]; [discriminate Hminus |].
      rewrite (ungroup_stray c rest false Hd Hu Hs). reflexivity.
    + apply Ascii.eqb_eq in Ep. subst a.
      destruct Hs as [-> | Hs]; [discriminate Hplus |].
      rewrite (ungroup_stray c rest false Hd Hu Hs). reflexivity.
    + rewrite (ungroup_stray c (String a rest) false Hd Hu Hall). reflexivity.
Qed.

(** X4.  A log level that is no name of a level and holds an ASCII
    character no numeral holds (a letter, a dot) stops [Main] with
    [ValueError], and the empty text does so with [TypeError], before any
    directory is made or anything is printed. *)
Theorem Main_bad_log_level (X : Externals) (args : list string) (w : World)
    (FLAGS : Flags) (s name : string) (b : bool) :
  parse_known_args BuildFlagParser (tail args) = Ok (FLAGS, []) ->
  disable_cleanup_after_test FLAGS = Some s -> Truth s = Ok b ->
  log_level FLAGS = Some name ->
  name = "" \/
  (logging_dict_int name = None /\
   exists c, c ∈ list_ascii_of_string name /\ (nat_of_ascii c < 128)%nat /\
             numeral_char c = false) ->
  Main X args w =
    (Raise (if String.eqb name "" then TypeError else ValueError), w).
Proof.
  intros Hparse Hs Hb Hname Hbad.
  unfold Main, bind. rewrite Hparse. cbn [lift ret raise].
  change (0 <? @List.length string [])%nat with false. cbv iota.
  rewrite Hs. cbn [attr ret]. rewrite Hb. cbn [lift ret]. rewrite Hname.
  cbn [ret].
  destruct Hbad as [-> | (Hdict & c & Hin & _ & Hc)]; [reflexivity |].
  destruct name as [| a rest].
  { cbn in Hin. apply elem_of_nil in Hin. contradiction. }
  cbn [String.length Nat.ltb Nat.leb String.eqb]. rewrite Hdict.
  rewrite (py_int_stray _ c Hin Hc). reflexivity.
Qed.

(** An instance of X4. *)
Lemma Main_bad_log_level_witness :
  Main (demo 0 0) ["kiji_music.py"; "--log_level=loud"] demo_world
    = (Raise ValueError, demo_world).
Proof.
  apply (Main_bad_log_level (demo 0 0) ["kiji_music.py"; "--log_level=loud"]
           demo_world
           (setattr (setattr (setattr empty_namespace "disable_cleanup_after_test"
                                      (Some "false"))
                             "log_level" (Some "INFO"))
                    "log_level" (Some "loud"))
           "false" "loud" false); try (vm_compute; reflexivity).
  right. split; [reflexivity |].
  exists "l"%char. split; [compute_done |]. split; [vm_compute; lia | reflexivity].
Defined.

(** ** Files that stay in place *)

Lemma stays_bind {A B} p (m : M A) (f : A -> M B) :
  stays p m -> (forall a, stays p (f a)) -> stays p (bind m f).
Proof.
  intros Hm Hf w Hp. unfold bind. specialize (Hm w Hp).
  destruct (m w) as [[a | e] w1]; simpl in *; [apply Hf; exact Hm | exact Hm].
Qed.

Lemma stays_for {A} p (xs : list A) (body : A -> M unit) :
  (forall x, stays p (body x)) -> stays p (for_ xs body).
Proof.
  intros Hb. induction xs as [| x xs IH]; simpl.
  - intros w Hp. exact Hp.
  - apply stays_bind; [apply Hb | intros _; exact IH].
Qed.

Lemma stays_same_fs {A} p (m : M A) :
  (forall w, fs (m w).2 = fs w) -> stays p m.
Proof. intros Hm w Hp. rewrite Hm. exact Hp. Qed.

Lemma stays_os_makedirs p q : stays p (os_makedirs q).
Proof.
  intros w Hp. unfold os_makedirs.
  destruct (String.eqb q ""); [exact Hp |].
  destruct (bool_decide _); [exact Hp |].
  simpl. apply elem_of_app. left. exact Hp.
Qed.

(** A step that reads the world, or writes only to the log. *)
Ltac stays_leaf :=
  apply stays_same_fs; intros ?;
  unfold ret, raise, assert_, attr, index, lift, NowMS, os_path_exists,
    glob_glob, logging_debug, logging_info, logging_error, logging_log,
    re_library_match;
  repeat match goal with
         | |- context [if ?b then _ else _] => destruct b
         | |- context [match ?x with _ => _ end] => destruct x
         end;
  reflexivity.

Section Stays.

Variable X : Externals.
Variable p : string.
Hypothesis Hkeep : keeps X p.

Lemma stays_command_Command argv d e : stays p (command_Command X argv d e).
Proof.
  intros w Hp. unfold command_Command.
  pose proof (proj1 Hkeep argv d e w Hp) as H.
  destruct (ext_process X argv d e w) as [r files]. exact H.
Qed.

Lemma stays_FetchMavenArtifact a : stays p (FetchMavenArtifact X a).
Proof. intros w Hp. exact (proj1 (proj2 Hkeep) a w Hp). Qed.

Lemma stays_os_system cmd : stays p (os_system X cmd).
Proof.
  intros w Hp. unfold os_system.
  pose proof (proj1 (proj2 (proj2 Hkeep)) cmd w Hp) as H.
  destruct (ext_shell X cmd w) as [status files]. exact H.
Qed.

Lemma stays_BentoCluster_Start b : stays p (BentoCluster_Start X b).
Proof. intros w Hp. exact (proj1 (proj2 (proj2 (proj2 Hkeep))) (home b) w Hp). Qed.

(** Walks through a script, following its shape. *)
Ltac stays_tac :=
  repeat match goal with
    | |- stays _ (bind _ _) => apply stays_bind; [| intros ? ]
    | |- stays _ (for_ _ _) => apply stays_for; intros ?
    | |- stays _ (let _ := _ in _) => cbv zeta
    | |- stays _ (if ?b then _ else _) => destruct b
    | |- stays _ (match ?x with _ => _ end) => destruct x
    | |- stays _ (Expect _ _) => unfold Expect
    | |- stays _ (ExpectRegexMatch _ _) => unfold ExpectRegexMatch
    | |- stays _ (Command _ _ _) => unfold Command
    | |- stays _ (KijiCommand _ _ _ _) => apply stays_command_Command
    | |- stays _ (FetchMavenArtifact _ _) => apply stays_FetchMavenArtifact
    | |- stays _ (os_system _ _) => apply stays_os_system
    | |- stays _ (BentoCluster_Start _ _) => apply stays_BentoCluster_Start
    | |- stays _ (os_makedirs _) => apply stays_os_makedirs
    | |- stays _ (ExtractArchive _ _ _ _) => unfold ExtractArchive
    | |- stays _ (Setup_unpack _ _) => unfold Setup_unpack
    | |- stays _ _ => solve [ stays_leaf ]
    end.

Lemma stays_Setup t : stays p (Setup X t).
Proof. unfold Setup. stays_tac. Qed.

Lemma stays_Part1 t : stays p (Part1 X t).
Proof. unfold Part1. stays_tac. Qed.

Lemma stays_Part2 t : stays p (Part2 X t).
Proof. unfold Part2. stays_tac. Qed.

Lemma stays_Part3 t : stays p (Part3 X t).
Proof. unfold Part3. stays_tac. Qed.

Lemma stays_Part4 t : stays p (Part4 X t).
Proof. unfold Part4. stays_tac. Qed.

Lemma stays_Main_tutorial wd ver FLAGS :
  stays p (Main_tutorial X wd ver FLAGS true).
Proof.
  unfold Main_tutorial, Tutorial_init. cbn [negb].
  repeat match goal with
    | |- stays _ (Setup _ _) => apply stays_Setup
    | |- stays _ (Part1 _ _) => apply stays_Part1
    | |- stays _ (Part2 _ _) => apply stays_Part2
    | |- stays _ (Part3 _ _) => apply stays_Part3
    | |- stays _ (Part4 _ _) => apply stays_Part4
    | |- stays _ (bind _ _) => apply stays_bind; [| intros ? ]
    | |- stays _ _ => solve [ stays_leaf ]
    end.
Qed.

End Stays.

(** ** Stopping the cluster *)

Lemma issued_not_stop t (cmds : list string) ev :
  (exists c r, ev = issued t c r /\ c ∈ cmds) -> is_stop ev = false.
Proof. intros (c & r & -> & _). reflexivity. Qed.

Lemma setup_event_not_stop ev : is_setup_event ev = true -> is_stop ev = false.
Proof. destruct ev; simpl; congruence. Qed.

Section Stop.

Variable X : Externals.

Lemma no_stop_Main_tutorial wd ver FLAGS :
  emits (fun ev => is_stop ev = false) (Main_tutorial X wd ver FLAGS true).
Proof.
  unfold Main_tutorial, Tutorial_init. cbn [negb].
  repeat match goal with
    | |- emits _ (Setup _ _) =>
        eapply emits_weaken; [| apply emits_Setup]; apply setup_event_not_stop
    | |- emits _ (Part1 _ _) =>
        eapply emits_weaken;
        [| apply runs_emits; apply Part1_runs]; apply issued_not_stop
    | |- emits _ (Part2 _ _) =>
        eapply emits_weaken;
        [| apply runs_emits; apply Part2_runs]; apply issued_not_stop
    | |- emits _ (Part3 _ _) =>
        eapply emits_weaken;
        [| apply runs_emits; apply Part3_runs]; apply issued_not_stop
    | |- emits _ (Part4 _ _) =>
        eapply emits_weaken;
        [| apply runs_emits; apply Part4_runs]; apply issued_not_stop
    | |- emits _ (bind _ _) => apply emits_bind; [| intros ? ]
    | |- emits _ _ => apply emits_quiet; quiet_tac
    end.
Qed.

(** With cleanup enabled, a run in which a phase fails ends exactly as
    it would with cleanup disabled. *)
Lemma Main_tutorial_enabled wd ver FLAGS w :
  Main_tutorial X wd ver FLAGS false w = Main_tutorial X wd ver FLAGS true w \/
  exists t0 w0 t w1 w2 w3 w4 w5,
    Tutorial_init wd ver (maven_local_repo FLAGS) (maven_remote_repo FLAGS) w
      = (Ok t0, w0) /\
    Setup X t0 w0 = (Ok t, w1) /\
    Part1 X t w1 = (Ok tt, w2) /\ Part2 X t w2 = (Ok tt, w3) /\
    Part3 X t w3 = (Ok tt, w4) /\ Part4 X t w4 = (Ok tt, w5) /\
    Main_tutorial X wd ver FLAGS false w =
      match Cleanup X t w5 with
      | (Ok _, w6) => (Ok None, w6)
      | (Raise e, w6) => (Raise e, w6)
      end.
Proof.
  unfold Main_tutorial, bind.
  destruct (Tutorial_init _ _ _ _ w) as [[t0 | e] w0] eqn:H0; [| left; reflexivity].
  destruct (Setup X t0 w0) as [[t | e] w1] eqn:H1; [| left; reflexivity].
  destruct (Part1 X t w1) as [[[] | e] w2] eqn:H2; [| left; reflexivity].
  destruct (Part2 X t w2) as [[[] | e] w3] eqn:H3; [| left; reflexivity].
  destruct (Part3 X t w3) as [[[] | e] w4] eqn:H4; [| left; reflexivity].
  destruct (Part4 X t w4) as [[[] | e] w5] eqn:H5; [| left; reflexivity].
  right. exists t0, w0, t, w1, w2, w3, w4, w5.
  split; [reflexivity |]. split; [exact H1 |]. split; [exact H2 |].
  split; [exact H3 |]. split; [exact H4 |]. split; [exact H5 |].
  cbn [negb]. destruct (Cleanup X t w5) as [[[] | e] w6]; reflexivity.
Qed.

End Stop.

(** X5.  [Cleanup] stops the cluster first and removes the working
    directory after, for a working directory whose path is not empty and
    has no final slash, as [Main] hands it over unless it is the root:
    when the directory is still there once the cluster has stopped, it and
    everything below it are gone afterwards and every other file is kept;
    when it is not, [Cleanup] raises [FileNotFoundError], the cluster
    having been stopped all the same. *)
Theorem Cleanup_stops_then_removes (X : Externals) (t : Tutorial)
    (b : BentoCluster) (w : World) :
  _bento t = Some b ->
  _work_dir t <> "" -> ends_with_slash (_work_dir t) = false ->
  (_work_dir t ∈ ext_bento_stop X (home b) w ->
   exists w',
     Cleanup X t w = (Ok tt, w') /\
     events w' = events w ++ [EvBentoStop (home b)] /\
     forall q,
       q ∈ fs w' <->
       q ∈ ext_bento_stop X (home b) w /\ q <> _work_dir t /\
       startswith q (_work_dir t +:+ "/") = false) /\
  (_work_dir t ∉ ext_bento_stop X (home b) w ->
   exists w',
     Cleanup X t w = (Raise FileNotFoundError, w') /\
     events w' = events w ++ [EvBentoStop (home b)] /\
     fs w' = ext_bento_stop X (home b) w).
Proof.
  intros Hb _ _. unfold Cleanup. rewrite Hb.
  unfold bind, attr, ret, BentoCluster_Stop, shutil_rmtree.
  cbn [fs with_fs with_events events].
  split; intros Hwd.
  - rewrite bool_decide_eq_true_2 by exact Hwd.
    eexists. split; [reflexivity |]. split; [reflexivity |].
    intros q. cbn [fs with_fs with_events].
    rewrite list_elem_of_In, filter_In, <- list_elem_of_In.
    rewrite negb_true_iff, orb_false_iff, String.eqb_neq. tauto.
  - rewrite bool_decide_eq_false_2 by exact Hwd.
    eexists. split; [reflexivity |]. split; reflexivity.
Qed.

(** An instance of X5: the working directory [/w] and what is below it
    go, [/home] stays. *)
Lemma Cleanup_stops_then_removes_witness :
  exists w',
    Cleanup (demo 0 0) demo_tutorial demo_ready = (Ok tt, w') /\
    events w' = events demo_ready ++ [EvBentoStop "/w/kiji-bento-1.0.0/cluster"] /\
    forall q,
      q ∈ fs w' <->
      q ∈ fs demo_ready /\ q <> "/w" /\ startswith q "/w/" = false.
Proof.
  apply (proj1 (Cleanup_stops_then_removes (demo 0 0) demo_tutorial
                  {| home := "/w/kiji-bento-1.0.0/cluster" |} demo_ready
                  eq_refl ltac:(discriminate) eq_refl)).
  compute_done.
Defined.

(** X6.  With cleanup disabled the run never stops the cluster and
    never removes the working directory: no call to [Stop] is among its
    events, however the run ends, and a working directory that the tools
    themselves leave in place is still there at the end. *)
Theorem cleanup_disabled (X : Externals) (wd ver : string) (FLAGS : Flags)
    (w : World) :
  keeps X wd -> wd ∈ fs w ->
  wd ∈ fs (Main_tutorial X wd ver FLAGS true w).2 /\
  exists l,
    events (Main_tutorial X wd ver FLAGS true w).2 = events w ++ l /\
    Forall (fun ev => is_stop ev = false) l.
Proof.
  intros Hkeep Hwd. split.
  - apply (stays_Main_tutorial X wd Hkeep wd ver FLAGS w Hwd).
  - apply no_stop_Main_tutorial.
Qed.

Lemma demo_keeps (p : string) (a b : Z) : keeps (demo a b) p.
Proof.
  repeat split; simpl; intros; try assumption.
  apply elem_of_app. left. assumption.
  apply elem_of_app. left. assumption.
Qed.

(** An instance of X6: a whole run of the tutorial under [/w]. *)
Lemma cleanup_disabled_witness :
  "/w" ∈ fs (Main_tutorial (demo 0 0) "/w" "1.0.0" empty_namespace true demo_home).2 /\
  exists l,
    events (Main_tutorial (demo 0 0) "/w" "1.0.0" empty_namespace true demo_home).2
      = events demo_home ++ l /\
    Forall (fun ev => is_stop ev = false) l.
Proof.
  apply (cleanup_disabled (demo 0 0) "/w" "1.0.0" empty_namespace demo_home).
  - apply demo_keeps.
  - compute_done.
Defined.

(** X7.  The cluster is stopped only at the very end of a complete run:
    if a call to [Stop] is among the events of a run, then cleanup was not
    disabled and [Setup] and the four parts have all returned, each in the
    world the one before left. *)
Theorem cluster_stopped_only_after_all_parts (X : Externals) (wd ver : string)
    (FLAGS : Flags) (b : bool) (w : World) (h : string) (l : list Event) :
  events (Main_tutorial X wd ver FLAGS b w).2 = events w ++ l ->
  EvBentoStop h ∈ l ->
  b = false /\
  exists t0 w0 t w1 w2 w3 w4 w5,
    Tutorial_init wd ver (maven_local_repo FLAGS) (maven_remote_repo FLAGS) w
      = (Ok t0, w0) /\
    Setup X t0 w0 = (Ok t, w1) /\
    Part1 X t w1 = (Ok tt, w2) /\ Part2 X t w2 = (Ok tt, w3) /\
    Part3 X t w3 = (Ok tt, w4) /\ Part4 X t w4 = (Ok tt, w5).
Proof.
  intros Hl Hin.
  assert (events (Main_tutorial X wd ver FLAGS true w).2 = events w ++ l -> False)
    as Hno.
  { intros Hl'. destruct (no_stop_Main_tutorial X wd ver FLAGS w) as (l' & Hl'' & Hf).
    rewrite Hl' in Hl''. apply app_inv_head in Hl''. subst l'.
    rewrite Forall_forall in Hf. specialize (Hf _ Hin). discriminate. }
  destruct b; [contradiction (Hno Hl) |].
  split; [reflexivity |].
  destruct (Main_tutorial_enabled X wd ver FLAGS w)
    as [Heq | (t0 & w0 & t & w1 & w2 & w3 & w4 & w5 & H0 & H1 & H2 & H3 & H4 & H5 & _)].
  - rewrite Heq in Hl. contradiction (Hno Hl).
  - exists t0, w0, t, w1, w2, w3, w4, w5. auto 10.
Qed.

(** The calls of a complete run of the tutorial under [/w], cleanup
    enabled. *)
Definition demo_run_events : list Event :=
  Eval vm_compute in
    events (Main_tutorial (demo 0 0) "/w" "1.0.0" empty_namespace false demo_home).2.

(** An instance of X7: a complete run with cleanup enabled; [Stop] is
    the nineteenth and last call. *)
Lemma cluster_stopped_only_after_all_parts_witness :
  false = false /\
  exists t0 w0 t w1 w2 w3 w4 w5,
    Tutorial_init "/w" "1.0.0" None None demo_home = (Ok t0, w0) /\
    Setup (demo 0 0) t0 w0 = (Ok t, w1) /\
    Part1 (demo 0 0) t w1 = (Ok tt, w2) /\ Part2 (demo 0 0) t w2 = (Ok tt, w3) /\
    Part3 (demo 0 0) t w3 = (Ok tt, w4) /\ Part4 (demo 0 0) t w4 = (Ok tt, w5).
Proof.
  apply (cluster_stopped_only_after_all_parts (demo 0 0) "/w" "1.0.0"
           empty_namespace false demo_home "/w/kiji-bento-1.0.0/cluster"
           demo_run_events).
  - vm_compute. reflexivity.
  - apply (list_elem_of_lookup_2 _ 18). vm_compute. reflexivity.
Defined.

(** ** How [Main] returns *)

(** The commands of the tutorial, in the order the four parts run them. *)
Definition tutorial_commands : list string :=
  Part1_commands ++ Part2_commands ++ Part3_commands ++ Part4_commands.

(** Lines 589-590, [if __name__ == '__main__': Main(sys.argv)]: what
    [Main] returns is dropped. *)
Definition run_script (X : Externals) (argv : list string) : M unit :=
  Main X argv ;; ret tt.

(** The status the interpreter exits with: 0 after a script that ran to
    its end, the code of a [SystemExit], 1 after any other exception. *)
Definition exit_status {A} (r : result A) : Z :=
  match r with
  | Ok _ => 0
  | Raise (SystemExit code) => code
  | Raise _ => 1
  end.

(** Commands that were all run and checked, the script having returned. *)
Lemma follows_None t cmds l :
  follows t None cmds l ->
  exists rs,
    l = zip_with (issued t) cmds rs /\ List.length rs = List.length cmds /\
    Forall (fun r => exit_code r = 0%Z) rs.
Proof.
  induction 1 as [cmds Hc | c cmds r Hr Ho | c cmds r l Hr H1 IH].
  - rewrite (Hc eq_refl). exists []. repeat split. constructor.
  - discriminate.
  - destruct IH as (rs & -> & Hlen & Hall).
    exists (r :: rs). split; [reflexivity |].
    split; [simpl; rewrite Hlen; reflexivity | constructor; assumption].
Qed.

Section Returns.

Variable X : Externals.

(** A run of the tutorial that returns has gone through every phase. *)
Lemma Main_tutorial_Ok wd ver FLAGS b w r w' :
  Main_tutorial X wd ver FLAGS b w = (Ok r, w') ->
  r = None /\
  exists t0 w0 t w1 w2 w3 w4 w5,
    Tutorial_init wd ver (maven_local_repo FLAGS) (maven_remote_repo FLAGS) w
      = (Ok t0, w0) /\
    Setup X t0 w0 = (Ok t, w1) /\
    Part1 X t w1 = (Ok tt, w2) /\ Part2 X t w2 = (Ok tt, w3) /\
    Part3 X t w3 = (Ok tt, w4) /\ Part4 X t w4 = (Ok tt, w5) /\
    if b then w' = w5 else Cleanup X t w5 = (Ok tt, w').
Proof.
  unfold Main_tutorial, bind.
  destruct (Tutorial_init _ _ _ _ w) as [[t0 | e] w0] eqn:H0; [| discriminate].
  destruct (Setup X t0 w0) as [[t | e] w1] eqn:H1; [| discriminate].
  destruct (Part1 X t w1) as [[[] | e] w2] eqn:H2; [| discriminate].
  destruct (Part2 X t w2) as [[[] | e] w3] eqn:H3; [| discriminate].
  destruct (Part3 X t w3) as [[[] | e] w4] eqn:H4; [| discriminate].
  destruct (Part4 X t w4) as [[[] | e] w5] eqn:H5; [| discriminate].
  intros Hrun.
  assert (r = None /\ if b then w' = w5 else Cleanup X t w5 = (Ok tt, w'))
    as [Hr Hc].
  { destruct b; cbn [negb] in Hrun.
    - unfold ret in Hrun. injection Hrun as <- <-. split; reflexivity.
    - destruct (Cleanup X t w5) as [[[] | e] w6]; [| discriminate].
      unfold ret in Hrun. injection Hrun as <- <-. split; reflexivity. }
  split; [exact Hr |].
  exists t0, w0, t, w1, w2, w3, w4, w5. auto 10.
Qed.

(** The calls of a run of the tutorial that returns. *)
Lemma Main_tutorial_Ok_events wd ver FLAGS b w r w' :
  Main_tutorial X wd ver FLAGS b w = (Ok r, w') ->
  exists t l0 rs l2,
    events w' = events w ++ l0 ++ zip_with (issued t) tutorial_commands rs ++ l2 /\
    Forall (fun ev => is_setup_event ev = true) l0 /\
    List.length rs = 15 /\
    Forall (fun r => exit_code r = 0%Z) rs /\
    if b then l2 = [] else exists h, l2 = [EvBentoStop h].
Proof.
  intros Hrun.
  destruct (Main_tutorial_Ok _ _ _ _ _ _ _ Hrun)
    as (_ & t0 & w0 & t & w1 & w2 & w3 & w4 & w5 &
        H0 & H1 & H2 & H3 & H4 & H5 & Hc).
  assert (events w0 = events w) as E0.
  { unfold Tutorial_init, bind, NowMS, ret in H0. injection H0 as _ <-.
    reflexivity. }
  destruct (emits_Setup X t0 w0) as (l0 & E1 & Hl0). rewrite H1 in E1.
  pose proof (Parts_run X t w1) as Hparts. unfold runs in Hparts.
  destruct Hparts as (l & E & Hf). revert E Hf. unfold bind.
  rewrite H2, H3, H4, H5. cbn [fst snd outcome]. intros E Hf.
  destruct (follows_None _ _ _ Hf) as (rs & -> & Hlen & Hall).
  assert (exists l2, events w' = events w5 ++ l2 /\
                     if b then l2 = [] else exists h, l2 = [EvBentoStop h])
    as (l2 & E2 & Hl2).
  { destruct b.
    - exists []. rewrite Hc, app_nil_r. split; reflexivity.
    - unfold Cleanup, bind, attr, BentoCluster_Stop, shutil_rmtree in Hc.
      destruct (_bento t) as [bento |]; [| discriminate].
      unfold ret in Hc. cbn [fs with_fs with_events events] in Hc.
      destruct (bool_decide _); [| discriminate].
      injection Hc as <-. eexists. split; [reflexivity |].
      exists (home bento). reflexivity. }
  exists t, l0, rs, l2.
  split.
  { rewrite E2, E. cbn [snd] in E1. rewrite E1, E0.
    unfold tutorial_commands. rewrite <- !app_assoc. reflexivity. }
  split; [exact Hl0 |]. split; [exact Hlen |]. split; [exact Hall | exact Hl2].
Qed.

(** How [Main] can return: with [os.EX_USAGE], having run nothing, or
    off its end, after a run of the tutorial that returned. *)
Lemma Main_returns args w r w' :
  Main X args w = (Ok r, w') ->
  (r = Some EX_USAGE /\ events w' = events w /\
   (exists line, stdout w' = stdout w ++ [line]) /\
   (forall q, q ∈ fs w -> q ∈ fs w')) \/
  (r = None /\
   exists wd ver FLAGS b w1,
     events w1 = events w /\ (forall q, q ∈ fs w -> q ∈ fs w1) /\
     Main_tutorial X wd ver FLAGS b w1 = (Ok None, w')).
Proof.
  intros HM. pose proof (Main_cases X args w) as H.
  destruct (parse_known_args BuildFlagParser (tail args))
    as [[FLAGS [| u us]] | e]; [| | destruct H as (w1 & H & _); congruence].
  2:{ left. rewrite H in HM. injection HM as <- <-.
      split; [reflexivity |]. split; [reflexivity |].
      split; [eexists; reflexivity | auto]. }
  destruct (disable_cleanup_after_test FLAGS) as [s |]; [| congruence].
  destruct (Truth s) as [b | e]; [| congruence].
  destruct (log_level FLAGS) as [name |]; [| congruence].
  destruct (level_of name) as [n |]; [| destruct H as (e & H); congruence].
  destruct H as [[_ (w1 & H)] | (wd & w1 & (He & Hso & Hfs) & _ & _ & H)];
    [congruence |].
  assert (forall ver,
             (logging_info "Testing tutorial of KijiBento %s" [PStr ver] ;;
              Main_tutorial X wd ver FLAGS b) w1 = (Ok r, w') ->
             r = None /\
             exists wd ver FLAGS b w1,
               events w1 = events w /\ (forall q, q ∈ fs w -> q ∈ fs w1) /\
               Main_tutorial X wd ver FLAGS b w1 = (Ok None, w')) as Hrun.
  { intros ver Hv.
    destruct (run_logging_info "Testing tutorial of KijiBento %s" [PStr ver]
                (fun _ => Main_tutorial X wd ver FLAGS b) w1)
      as (w2 & Hi & (He2 & _ & Hfs2) & _).
    rewrite Hi in Hv.
    destruct (Main_tutorial_Ok _ _ _ _ _ _ _ Hv) as [-> _].
    split; [reflexivity |].
    exists wd, ver, FLAGS, b, w2.
    split; [congruence |]. split; [auto | exact Hv]. }
  assert (usage w1 = (Ok r, w') ->
          r = Some EX_USAGE /\ events w' = events w /\
          (exists line, stdout w' = stdout w ++ [line]) /\
          (forall q, q ∈ fs w -> q ∈ fs w')) as Husage.
  { unfold usage, bind, print, ret. intros Hu. injection Hu as <- <-.
    split; [reflexivity |]. split; [exact He |].
    split; [eexists; simpl; rewrite Hso; reflexivity | exact Hfs]. }
  rewrite HM in H.
  destruct (kiji_bento_version FLAGS) as [[| c ver] |].
  - left. apply Husage. symmetry. exact H.
  - right. apply (Hrun (String c ver)). symmetry. exact H.
  - left. apply Husage. symmetry. exact H.
Qed.

End Returns.

(** X8.  [Main] returns a status only for a usage error, the status is
    [os.EX_USAGE], and by then nothing has been run: no collaborator was
    called, no file is gone, one line was printed.  The entry stanza drops
    what [Main] returns, so the interpreter exits with status 0 all the
    same. *)
Theorem usage_status_is_dropped (X : Externals) (args : list string)
    (w w' : World) (c : Z) :
  Main X args w = (Ok (Some c), w') ->
  c = EX_USAGE /\
  events w' = events w /\
  (exists line, stdout w' = stdout w ++ [line]) /\
  (forall q, q ∈ fs w -> q ∈ fs w') /\
  run_script X args w = (Ok tt, w') /\
  exit_status (run_script X args w).1 = 0%Z.
Proof.
  intros HM.
  assert (run_script X args w = (Ok tt, w')) as Hs.
  { unfold run_script, bind. rewrite HM. reflexivity. }
  destruct (Main_returns X args w _ _ HM)
    as [(Hc & He & Hso & Hfs) | (Hc & _)]; [| discriminate].
  injection Hc as ->.
  split; [reflexivity |]. split; [exact He |]. split; [exact Hso |].
  split; [exact Hfs |]. split; [exact Hs |]. rewrite Hs. reflexivity.
Qed.

(** An instance of X8: an unknown flag. *)
Lemma usage_status_is_dropped_witness :
  64%Z = EX_USAGE /\
  events (Main (demo 0 0) ["kiji_music.py"; "--bogus"] demo_world).2
    = events demo_world /\
  (exists line,
      stdout (Main (demo 0 0) ["kiji_music.py"; "--bogus"] demo_world).2
      = stdout demo_world ++ [line]) /\
  (forall q,
      q ∈ fs demo_world ->
      q ∈ fs (Main (demo 0 0) ["kiji_music.py"; "--bogus"] demo_world).2) /\
  run_script (demo 0 0) ["kiji_music.py"; "--bogus"] demo_world
    = (Ok tt, (Main (demo 0 0) ["kiji_music.py"; "--bogus"] demo_world).2) /\
  exit_status (run_script (demo 0 0) ["kiji_music.py"; "--bogus"] demo_world).1
    = 0%Z.
Proof.
  apply (usage_status_is_dropped (demo 0 0) ["kiji_music.py"; "--bogus"]
           demo_world).
  vm_compute. reflexivity.
Defined.

(** X9.  [Main] falls off its end only after a complete run: the calls
    it made are those of [Setup] (fetch, [tar], start of the cluster),
    then the fifteen commands of the tutorial in their order, every one
    of which exited with 0, then the stop of the cluster and nothing
    more, or nothing at all. *)
Theorem Main_returns_after_every_command (X : Externals) (args : list string)
    (w w' : World) :
  Main X args w = (Ok None, w') ->
  exists t l0 rs l2,
    events w' = events w ++ l0 ++ zip_with (issued t) tutorial_commands rs ++ l2 /\
    Forall (fun ev => is_setup_event ev = true) l0 /\
    List.length rs = 15 /\
    Forall (fun r => exit_code r = 0%Z) rs /\
    (l2 = [] \/ exists h, l2 = [EvBentoStop h]).
Proof.
  intros HM.
  destruct (Main_returns X args w _ _ HM)
    as [(Hc & _) | (_ & wd & ver & FLAGS & b & w1 & He & _ & Hrun)];
    [discriminate |].
  destruct (Main_tutorial_Ok_events X _ _ _ _ _ _ _ Hrun)
    as (t & l0 & rs & l2 & E & Hl0 & Hlen & Hall & Hl2).
  exists t, l0, rs, l2. rewrite <- He.
  split; [exact E |]. split; [exact Hl0 |]. split; [exact Hlen |].
  split; [exact Hall |].
  destruct b; [left; exact Hl2 | right; exact Hl2].
Qed.

(** An instance of X9: the tutorial of release 1.0.0 run under [/w]. *)
Lemma Main_returns_after_every_command_witness :
  exists t l0 rs l2,
    events (Main (demo 0 0)
              ["kiji_music.py"; "--kiji_bento_version=1.0.0"; "--work_dir=/w"]
              demo_home).2
      = events demo_home ++ l0 ++ zip_with (issued t) tutorial_commands rs ++ l2 /\
    Forall (fun ev => is_setup_event ev = true) l0 /\
    List.length rs = 15 /\
    Forall (fun r => exit_code r = 0%Z) rs /\
    (l2 = [] \/ exists h, l2 = [EvBentoStop h]).
Proof.
  apply (Main_returns_after_every_command (demo 0 0)
           ["kiji_music.py"; "--kiji_bento_version=1.0.0"; "--work_dir=/w"]
           demo_home).
  vm_compute. reflexivity.
Defined.

(** ** Unpacking the release *)

(** The command line [ExtractArchive] hands to the shell. *)
Definition tar_xf (archive work_dir : string) (strip_components : Z) : string :=
  "/bin/tar xf " +:+ archive +:+ " --directory " +:+ work_dir
  +:+ " --strip-components=" +:+ str_of_int strip_components.

(** Two sets of collaborators that do the same, except for the status
    the shell hands back. *)
Definition same_but_status (X X' : Externals) : Prop :=
  (forall argv d e w, ext_process X argv d e w = ext_process X' argv d e w) /\
  (forall a w, ext_fetch X a w = ext_fetch X' a w) /\
  (forall cmd w, (ext_shell X cmd w).2 = (ext_shell X' cmd w).2) /\
  (forall h w, ext_bento_start X h w = ext_bento_start X' h w) /\
  (forall h w, ext_bento_stop X h w = ext_bento_stop X' h w).

(** Two computations that end alike from every world. *)
Definition same {A} (m m' : M A) : Prop := forall w, m w = m' w.

Lemma same_refl {A} (m : M A) : same m m.
Proof. intros w. reflexivity. Qed.

Lemma same_bind {A B} (m m' : M A) (f f' : A -> M B) :
  same m m' -> (forall a, same (f a) (f' a)) -> same (bind m f) (bind m' f').
Proof.
  intros Hm Hf w. unfold bind. rewrite Hm.
  destruct (m' w) as [[a | e] w1]; [apply Hf | reflexivity].
Qed.

Lemma same_for {A} (xs : list A) (body body' : A -> M unit) :
  (forall x, same (body x) (body' x)) -> same (for_ xs body) (for_ xs body').
Proof.
  intros Hb. induction xs as [| x xs IH]; simpl.
  - apply same_refl.
  - apply same_bind; [apply Hb | intros _; exact IH].
Qed.

Section Status.

Variables X X' : Externals.
Hypothesis Hsame : same_but_status X X'.

Lemma same_ExtractArchive archive dir n :
  same (ExtractArchive X archive dir n) (ExtractArchive X' archive dir n).
Proof.
  unfold ExtractArchive.
  apply same_bind; [apply same_refl | intros e1].
  apply same_bind; [apply same_refl | intros _].
  apply same_bind; [apply same_refl | intros e2].
  apply same_bind; [apply same_refl | intros _].
  intros w. unfold bind, os_system.
  pose proof (proj1 (proj2 (proj2 Hsame)) (tar_xf archive dir n) w) as H.
  unfold tar_xf in H.
  destruct (ext_shell X _ w) as [s files], (ext_shell X' _ w) as [s' files'].
  simpl in H. subst files'. reflexivity.
Qed.

Lemma same_FetchMavenArtifact a :
  same (FetchMavenArtifact X a) (FetchMavenArtifact X' a).
Proof.
  intros w. unfold FetchMavenArtifact.
  rewrite (proj1 (proj2 Hsame)). reflexivity.
Qed.

Lemma same_BentoCluster_Start b :
  same (BentoCluster_Start X b) (BentoCluster_Start X' b).
Proof.
  intros w. unfold BentoCluster_Start.
  rewrite (proj1 (proj2 (proj2 (proj2 Hsame)))). reflexivity.
Qed.

Lemma same_BentoCluster_Stop b :
  same (BentoCluster_Stop X b) (BentoCluster_Stop X' b).
Proof.
  intros w. unfold BentoCluster_Stop.
  rewrite (proj2 (proj2 (proj2 (proj2 Hsame)))). reflexivity.
Qed.

Lemma same_KijiCommand c d e :
  same (KijiCommand X c d e) (KijiCommand X' c d e).
Proof.
  intros w. unfold KijiCommand, command_Command.
  rewrite (proj1 Hsame). reflexivity.
Qed.

(** Walks through two scripts of the same shape. *)
Ltac same_tac :=
  repeat match goal with
    | |- same ?m ?m => apply same_refl
    | |- same (bind _ _) (bind _ _) => apply same_bind; [| intros ? ]
    | |- same (for_ _ _) (for_ _ _) => apply same_for; intros ?
    | |- same (if ?b then _ else _) (if ?b then _ else _) => destruct b
    | |- same (match ?x with _ => _ end) (match ?x with _ => _ end) =>
        destruct x
    | |- same (ExtractArchive _ _ _ _) (ExtractArchive _ _ _ _) =>
        apply same_ExtractArchive
    | |- same (FetchMavenArtifact _ _) (FetchMavenArtifact _ _) =>
        apply same_FetchMavenArtifact
    | |- same (BentoCluster_Start _ _) (BentoCluster_Start _ _) =>
        apply same_BentoCluster_Start
    | |- same (BentoCluster_Stop _ _) (BentoCluster_Stop _ _) =>
        apply same_BentoCluster_Stop
    | |- same (KijiCommand _ _ _ _) (KijiCommand _ _ _ _) =>
        apply same_KijiCommand
    | |- same (Command _ _ _) (Command _ _ _) => unfold Command
    | |- same (Setup_unpack _ _) (Setup_unpack _ _) => unfold Setup_unpack
    end.

Lemma same_Setup t : same (Setup X t) (Setup X' t).
Proof. unfold Setup. same_tac. Qed.

Lemma same_Part1 t : same (Part1 X t) (Part1 X' t).
Proof. unfold Part1. same_tac. Qed.

Lemma same_Part2 t : same (Part2 X t) (Part2 X' t).
Proof. unfold Part2. same_tac. Qed.

Lemma same_Part3 t : same (Part3 X t) (Part3 X' t).
Proof. unfold Part3. same_tac. Qed.

Lemma same_Part4 t : same (Part4 X t) (Part4 X' t).
Proof. unfold Part4. same_tac. Qed.

Lemma same_Cleanup t : same (Cleanup X t) (Cleanup X' t).
Proof. unfold Cleanup. same_tac. Qed.

Lemma same_Main_tutorial wd ver FLAGS b :
  same (Main_tutorial X wd ver FLAGS b) (Main_tutorial X' wd ver FLAGS b).
Proof.
  unfold Main_tutorial.
  repeat match goal with
    | |- same ?m ?m => apply same_refl
    | |- same (Setup _ _) (Setup _ _) => apply same_Setup
    | |- same (Part1 _ _) (Part1 _ _) => apply same_Part1
    | |- same (Part2 _ _) (Part2 _ _) => apply same_Part2
    | |- same (Part3 _ _) (Part3 _ _) => apply same_Part3
    | |- same (Part4 _ _) (Part4 _ _) => apply same_Part4
    | |- same (Cleanup _ _) (Cleanup _ _) => apply same_Cleanup
    | |- same (if ?b then _ else _) (if ?b then _ else _) => destruct b
    | |- same (bind _ _) (bind _ _) => apply same_bind; [| intros ? ]
    end.
Qed.

Lemma same_Main args : same (Main X args) (Main X' args).
Proof.
  unfold Main. cbv zeta.
  repeat match goal with
    | |- same ?m ?m => apply same_refl
    | |- same (Main_tutorial _ _ _ _ _) (Main_tutorial _ _ _ _ _) =>
        apply same_Main_tutorial
    | |- same (if ?b then _ else _) (if ?b then _ else _) => destruct b
    | |- same (match ?x with _ => _ end) (match ?x with _ => _ end) =>
        destruct x
    | |- same (bind _ _) (bind _ _) => apply same_bind; [| intros ? ]
    end.
Qed.

End Status.

(** X10.  [ExtractArchive] checks that the archive and the directory
    exist, in this order, and raises [AssertionError] without running
    anything when one is missing.  Otherwise it hands one [tar] command
    line to the shell and returns, whatever status [tar] exits with: a
    failed extraction raises nothing. *)
Theorem ExtractArchive_ignores_tar_status (X : Externals)
    (archive dir : string) (n : Z) (w : World) :
  (archive ∈ fs w -> dir ∈ fs w ->
   ExtractArchive X archive dir n w =
     (Ok tt,
      with_events (with_fs w (ext_shell X (tar_xf archive dir n) w).2)
                  (events w ++ [EvSystem (tar_xf archive dir n)]))) /\
  ((archive ∉ fs w) \/ (dir ∉ fs w) ->
   ExtractArchive X archive dir n w = (Raise AssertionError, w)).
Proof.
  unfold ExtractArchive, bind, os_path_exists, assert_, os_system, tar_xf.
  split.
  - intros Ha Hd. rewrite (bool_decide_eq_true_2 _ Ha). cbn [ret].
    rewrite (bool_decide_eq_true_2 _ Hd). cbn [ret].
    destruct (ext_shell X _ w) as [s files]. reflexivity.
  - intros [Ha | Hd].
    + rewrite (bool_decide_eq_false_2 _ Ha). reflexivity.
    + destruct (bool_decide (archive ∈ fs w)); [| reflexivity].
      cbn [ret]. rewrite (bool_decide_eq_false_2 _ Hd). reflexivity.
Qed.

(** X11.  The status [tar] exits with is never read: two runs of the
    script whose collaborators do the same, but for the status the shell
    hands back, end alike, in the same world and with the same result or
    exception.  A failed extraction shows only through the directories
    [Setup] looks for afterwards. *)
Theorem tar_status_is_never_read (X X' : Externals) (args : list string)
    (w : World) :
  same_but_status X X' -> Main X args w = Main X' args w.
Proof. intros Hsame. apply same_Main. exact Hsame. Qed.

(** An instance of X11: a [tar] that exits with 0 and one that exits
    with 2, both having unpacked the release. *)
Lemma tar_status_is_never_read_witness :
  Main (demo 0 0)
       ["kiji_music.py"; "--kiji_bento_version=1.0.0"; "--work_dir=/w"] demo_home
  = Main (demo 2 0)
       ["kiji_music.py"; "--kiji_bento_version=1.0.0"; "--work_dir=/w"] demo_home.
Proof.
  apply (tar_status_is_never_read (demo 0 0) (demo 2 0)).
  repeat split.
Defined.

(** C1.  Whatever the flags are and whatever the tools do, among the
    calls a run of [Main] makes, a tutorial command whose exit code is
    not 0 is the last call of the run, and the run ends in
    [AssertionError]: the run goes past a command only if it exited
    with 0.  Each of [Part1] to [Part4] runs its own commands in order
    and checks every one of them in this way.  [Setup] runs no tutorial
    command at all: the one command it runs is [tar], handed to the shell,
    and the status the shell hands back is not among the exit codes that
    are checked, for runs whose collaborators differ in that status only
    end alike. *)
Theorem exit_code_must_be_zero (X : Externals) :
  (forall args w, exists l,
      events (Main X args w).2 = events w ++ l /\
      forall i argv d e r,
        l !! i = Some (EvCommand argv d e r) -> exit_code r <> 0%Z ->
        S i = List.length l /\ (Main X args w).1 = Raise AssertionError) /\
  (forall t,
      runs t Part1_commands (Part1 X t) /\ runs t Part2_commands (Part2 X t) /\
      runs t Part3_commands (Part3 X t) /\ runs t Part4_commands (Part4 X t)) /\
  (forall t w, exists l,
      events (Setup X t w).2 = events w ++ l /\
      Forall (fun ev => is_command ev = false) l) /\
  (forall X' args w, same_but_status X X' -> Main X args w = Main X' args w).
Proof.
  split; [| split; [| split]].
  - intros args w. destruct (Main_checked X args w) as (l & Hl & H).
    exists l. split; [exact Hl |].
    intros i argv d e r Hi Hne. destruct (H i argv d e r Hi Hne) as [Hlen Ho].
    split; [exact Hlen | apply outcome_Raise; exact Ho].
  - intros t. repeat split.
    + apply Part1_runs.
    + apply Part2_runs.
    + apply Part3_runs.
    + apply Part4_runs.
  - intros t w. destruct (emits_Setup X t w) as (l & Hl & H).
    exists l. split; [exact Hl |].
    eapply Forall_impl; [exact H |].
    intros [] Hev; solve [reflexivity | discriminate].
  - intros X' args w Hsame. apply same_Main. exact Hsame.
Qed.

(** Against C1 as worded, which counts the commands of [Setup] among
    those whose exit code must be 0: the one command of [Setup], [tar],
    exits with 2 here, [Setup] returns all the same and the run goes
    through its nineteen calls to its end. *)
Lemma exit_code_must_be_zero_counterexample :
  events (Setup (demo 2 0) demo_fresh demo_home).2 !! 1%nat
    = Some (EvSystem
              ("/bin/tar xf /w/kiji-bento-1.0.0-release.tar.gz"
               +:+ " --directory /w/kiji-bento-1.0.0 --strip-components=1")) /\
  (forall cmd w, (ext_shell (demo 2 0) cmd w).1 = 2%Z) /\
  outcome (Setup (demo 2 0) demo_fresh demo_home).1 = None /\
  (Main (demo 2 0)
        ["kiji_music.py"; "--kiji_bento_version=1.0.0"; "--work_dir=/w"]
        demo_home).1 = Ok None /\
  List.length
    (events
       (Main (demo 2 0)
          ["kiji_music.py"; "--kiji_bento_version=1.0.0"; "--work_dir=/w"]
          demo_home).2) = 19%nat.
Proof.
  split; [vm_compute; reflexivity |].
  split; [intros cmd w; reflexivity |].
  split; [vm_compute; reflexivity |].
  split; vm_compute; reflexivity.
Qed.

(** ** The exceptions of the four parts *)

(** A computation that raises nothing but the exceptions in [S]. *)
Definition raises_only {A} (S : exn -> Prop) (m : M A) : Prop :=
  forall w e w', m w = (Raise e, w') -> S e.

Lemma raises_ret {A} S (a : A) : raises_only S (ret a).
Proof. intros w e w' H. discriminate. Qed.

Lemma raises_raise {A} (S : exn -> Prop) e : S e -> raises_only S (@raise A e).
Proof. intros He w e' w' H. injection H as <- _. exact He. Qed.

Lemma raises_bind {A B} S (m : M A) (f : A -> M B) :
  raises_only S m -> (forall a, raises_only S (f a)) -> raises_only S (bind m f).
Proof.
  intros Hm Hf w e w'. unfold bind.
  destruct (m w) as [[a | e1] w1] eqn:E.
  - apply Hf.
  - intros H. injection H as <- _. exact (Hm _ _ _ E).
Qed.

Lemma raises_for {A} S (xs : list A) (body : A -> M unit) :
  (forall x, raises_only S (body x)) -> raises_only S (for_ xs body).
Proof.
  intros Hb. induction xs as [| x xs IH]; simpl.
  - apply raises_ret.
  - apply raises_bind; [apply Hb | intros _; exact IH].
Qed.

Lemma raises_assert (S : exn -> Prop) b :
  S AssertionError -> raises_only S (assert_ b).
Proof.
  intros HS. unfold assert_. destruct b; [apply raises_ret | apply raises_raise, HS].
Qed.

Lemma raises_index {A} (S : exn -> Prop) (l : list A) i :
  S IndexError -> raises_only S (index l i).
Proof.
  intros HS. unfold index. destruct (l !! i); [apply raises_ret | apply raises_raise, HS].
Qed.

Lemma raises_index_in_range {A} (S : exn -> Prop) (l : list A) i :
  (i < List.length l)%nat -> raises_only S (index l i).
Proof.
  intros Hi. unfold index. destruct (l !! i) eqn:E; [apply raises_ret |].
  apply lookup_ge_None in E. lia.
Qed.

Lemma raises_logging_log (S : exn -> Prop) level fmt a :
  raises_only S (logging_log level fmt a).
Proof.
  intros w e w'. unfold logging_log. destruct (_ <=? _)%Z; discriminate.
Qed.

Lemma raises_Expect (S : exn -> Prop) expect actual :
  S AssertionError -> raises_only S (Expect expect actual).
Proof.
  intros HS. unfold Expect. destruct (negb _); [| apply raises_ret].
  apply raises_bind; [apply raises_logging_log | intros _; apply raises_raise, HS].
Qed.

Lemma raises_ExpectRegexMatch (S : exn -> Prop) expect actual :
  S AssertionError -> is_Some (re_compile expect) ->
  raises_only S (ExpectRegexMatch expect actual).
Proof.
  intros HS [r Hr]. rewrite (ExpectRegexMatch_compiled _ _ _ Hr).
  destruct (re_match r actual); [apply raises_ret |].
  apply raises_bind; [apply raises_logging_log | intros _; apply raises_raise, HS].
Qed.

Section Raises.

Variable X : Externals.

(** After [Setup], [Tutorial.Command] raises nothing. *)
Lemma raises_Command (S : exn -> Prop) t c :
  is_Some (_kiji_bento_dir t) -> is_Some (_env t) ->
  raises_only S (Command X t c).
Proof.
  intros [d Hd] [env He] w e w' H.
  destruct (Command_never_raises_aux X t c d env w Hd He) as (w1 & Hrun & _).
  congruence.
Qed.

Variable t : Tutorial.
Hypothesis Hdir : is_Some (_kiji_bento_dir t).
Hypothesis Henv : is_Some (_env t).

(** Walks through a part, [S] holding [AssertionError]. *)
Ltac raises_tac HS :=
  repeat match goal with
    | |- raises_only _ (bind _ _) => apply raises_bind; [| intros ? ]
    | |- raises_only _ (for_ _ _) => apply raises_for; intros ?
    | |- raises_only _ (Command _ _ _) =>
        apply raises_Command; [exact Hdir | exact Henv]
    | |- raises_only _ (assert_ _) => apply raises_assert; exact HS
    | |- raises_only _ (Expect _ _) => apply raises_Expect; exact HS
    | |- raises_only _ (ExpectRegexMatch _ _) =>
        apply raises_ExpectRegexMatch; [exact HS | eexists; reflexivity]
    | |- raises_only _ (ret _) => apply raises_ret
    end.

Lemma raises_Part1 : raises_only (fun e => e = AssertionError) (Part1 X t).
Proof. unfold Part1. raises_tac (eq_refl AssertionError). Qed.

Lemma raises_Part3 : raises_only (fun e => e = AssertionError) (Part3 X t).
Proof. unfold Part3. cbv zeta. raises_tac (eq_refl AssertionError). Qed.

Lemma raises_Part4 : raises_only (fun e => e = AssertionError) (Part4 X t).
Proof. unfold Part4. cbv zeta. raises_tac (eq_refl AssertionError). Qed.

Lemma raises_Part2 :
  raises_only (fun e => e = AssertionError \/ e = IndexError) (Part2 X t).
Proof.
  unfold Part2.
  repeat match goal with
    | |- raises_only _ (index _ _) => apply raises_index; right; reflexivity
    | |- raises_only _ (bind _ _) => apply raises_bind; [| intros ? ]
    | |- raises_only _ (for_ _ _) => apply raises_for; intros ?
    | |- raises_only _ (Command _ _ _) =>
        apply raises_Command; [exact Hdir | exact Henv]
    | |- raises_only _ (assert_ _) => apply raises_assert; left; reflexivity
    | |- raises_only _ (ExpectRegexMatch _ _) =>
        apply raises_ExpectRegexMatch; [left; reflexivity | eexists; reflexivity]
    | |- raises_only _ (ret _) => apply raises_ret
    end.
Qed.

(** What follows the last scan of [Part2], on a result that has ten
    lines or more: the loop over three rows reads lines that are there. *)
Lemma raises_scan_rows (lines : list string) :
  (3 * 3 + 1 <= List.length lines)%nat ->
  raises_only (fun e => e = AssertionError)
    (for_ (seq 0 3) (fun row =>
       line <- index lines (1 + row * 3) ;;
       ExpectRegexMatch "^entity-id=\['user-\d+'\] \[\d+\] info:track_plays$" line ;;
       line <- index lines (2 + row * 3) ;;
       ExpectRegexMatch "^\s*song-\d+$" line ;;
       line <- index lines (3 + row * 3) ;;
       ExpectRegexMatch "^$" line ;;
       ret tt)).
Proof.
  intros Hlen. cbn [seq for_].
  repeat match goal with
    | |- raises_only _ (index _ _) => apply raises_index_in_range; simpl; lia
    | |- raises_only _ (bind _ _) => apply raises_bind; [| intros ? ]
    | |- raises_only _ (ExpectRegexMatch _ _) =>
        apply raises_ExpectRegexMatch; [reflexivity | eexists; reflexivity]
    | |- raises_only _ (ret _) => apply raises_ret
    end.
Qed.

(** The checks [Part2] makes on its last scan. *)
Lemma scan_check_IndexError (list_rows : CommandResult) (w w' : World) :
  (assert_ (exit_code list_rows =? 0)%Z ;;
   first <- index (output_lines list_rows) 0 ;;
   assert_ (startswith first "Scanning kiji table: kiji://") ;;
   assert_ (3 * 3 + 1 <=? List.length (output_lines list_rows))%nat ;;
   for_ (seq 0 3) (fun row =>
     line <- index (output_lines list_rows) (1 + row * 3) ;;
     ExpectRegexMatch "^entity-id=\['user-\d+'\] \[\d+\] info:track_plays$" line ;;
     line <- index (output_lines list_rows) (2 + row * 3) ;;
     ExpectRegexMatch "^\s*song-\d+$" line ;;
     line <- index (output_lines list_rows) (3 + row * 3) ;;
     ExpectRegexMatch "^$" line ;;
     ret tt)) w = (Raise IndexError, w') ->
  exit_code list_rows = 0%Z /\ output_lines list_rows = [] /\ w' = w.
Proof.
  unfold bind at 1. unfold assert_ at 1.
  destruct (exit_code list_rows =? 0)%Z eqn:Hz; [| discriminate].
  cbn [ret]. unfold bind at 1. unfold index at 1.
  destruct (output_lines list_rows) as [| first rest] eqn:Hl.
  { cbn [lookup list_lookup raise]. intros H. injection H as <-.
    split; [apply Z.eqb_eq; exact Hz | split; reflexivity]. }
  cbn [lookup list_lookup ret].
  unfold bind at 1. unfold assert_ at 1.
  destruct (startswith first _); [| discriminate].
  cbn [ret]. unfold bind at 1. unfold assert_ at 1.
  destruct (3 * 3 + 1 <=? List.length (first :: rest))%nat eqn:Hlen;
    [| discriminate].
  cbn [ret]. intros H.
  apply Nat.leb_le in Hlen.
  pose proof (raises_scan_rows (first :: rest) Hlen _ _ _ H). discriminate.
Qed.

(** The only [IndexError] of [Part2] is that of a last scan that exited
    with 0 and printed no line at all. *)
Lemma Part2_IndexError_aux w w' :
  Part2 X t w = (Raise IndexError, w') ->
  exists l r,
    events w' = events w ++ l ++ [issued t Part2_list_rows_2 r] /\
    List.length l = 4 /\
    exit_code r = 0%Z /\ output_lines r = [].
Proof.
  destruct Hdir as [d Hd], Henv as [env He].
  assert (forall (k : CommandResult -> M unit) c w0 w1,
             bind (Command X t c) k w0 = (Raise IndexError, w1) ->
             exists r w2,
               events w2 = events w0 ++ [issued t c r] /\
               k r w2 = (Raise IndexError, w1)) as Hcmd.
  { intros k c w0 w1 H. unfold bind in H.
    destruct (Command_never_raises_aux X t c d env w0 Hd He) as (w2 & Hrun & Hev).
    rewrite Hrun in H. eexists _, w2. split; [| exact H].
    rewrite Hev. unfold issued. rewrite Hd, He. reflexivity. }
  assert (forall b (k : M unit) w0 w1,
             bind (assert_ b) (fun _ => k) w0 = (Raise IndexError, w1) ->
             k w0 = (Raise IndexError, w1)) as Hassert.
  { intros b k w0 w1. unfold bind, assert_.
    destruct b; [cbn [ret]; auto | discriminate]. }
  unfold Part2. intros H.
  apply Hcmd in H. destruct H as (r1 & w1 & E1 & H).
  do 3 apply Hassert in H.
  apply Hcmd in H. destruct H as (r2 & w2 & E2 & H).
  apply Hassert in H.
  apply Hcmd in H. destruct H as (r3 & w3 & E3 & H).
  apply Hassert in H.
  apply Hcmd in H. destruct H as (r4 & w4 & E4 & H).
  do 3 apply Hassert in H.
  apply Hcmd in H. destruct H as (r5 & w5 & E5 & H).
  apply scan_check_IndexError in H. destruct H as (Hz & Hl & ->).
  exists [issued t Part2_bulk_import_1 r1; issued t Part2_list_rows_1 r2;
          issued t Part2_copy r3; issued t Part2_bulk_import_2 r4], r5.
  split; [| split; [reflexivity | split; assumption]].
  rewrite E5, E4, E3, E2, E1, <- !app_assoc. reflexivity.
Qed.

End Raises.

(** X12.  On a tutorial whose [Setup] has not run, every part and
    [Cleanup] raise [AttributeError] at once, in the world they were
    started in: the attributes they read are set by [Setup] and not by the
    constructor. *)
Theorem parts_need_Setup (X : Externals) (wd ver : string)
    (lr rr : option string) (w0 w1 w : World) (t : Tutorial) :
  Tutorial_init wd ver lr rr w0 = (Ok t, w1) ->
  Part1 X t w = (Raise AttributeError, w) /\
  Part2 X t w = (Raise AttributeError, w) /\
  Part3 X t w = (Raise AttributeError, w) /\
  Part4 X t w = (Raise AttributeError, w) /\
  Cleanup X t w = (Raise AttributeError, w).
Proof.
  unfold Tutorial_init, bind, NowMS, ret. intros H. injection H as <- _.
  repeat split; reflexivity.
Qed.

(** An instance of X12. *)
Lemma parts_need_Setup_witness :
  Part1 (demo 0 0) demo_fresh demo_home = (Raise AttributeError, demo_home) /\
  Part2 (demo 0 0) demo_fresh demo_home = (Raise AttributeError, demo_home) /\
  Part3 (demo 0 0) demo_fresh demo_home = (Raise AttributeError, demo_home) /\
  Part4 (demo 0 0) demo_fresh demo_home = (Raise AttributeError, demo_home) /\
  Cleanup (demo 0 0) demo_fresh demo_home = (Raise AttributeError, demo_home).
Proof.
  apply (parts_need_Setup (demo 0 0) "/w" "1.0.0" None None
           demo_world demo_world demo_home demo_fresh).
  reflexivity.
Defined.

(** X13.  After [Setup], a part that fails fails with
    [AssertionError]: [Part1], [Part3] and [Part4] raise nothing else,
    whatever the tools print and exit with, and [Part2] raises nothing
    else but [IndexError]. *)
Theorem parts_raise_assertions (X : Externals) (t0 t : Tutorial)
    (w0 w1 w : World) :
  Setup X t0 w0 = (Ok t, w1) ->
  outcome (Part1 X t w).1 ∈ [None; Some AssertionError] /\
  outcome (Part2 X t w).1 ∈ [None; Some AssertionError; Some IndexError] /\
  outcome (Part3 X t w).1 ∈ [None; Some AssertionError] /\
  outcome (Part4 X t w).1 ∈ [None; Some AssertionError].
Proof.
  intros Hs.
  destruct (Setup_Ok X t0 w0 t w1 Hs) as (-> & _).
  split; [| split; [| split]].
  - destruct (Part1 X _ w) as [[[] | e] w'] eqn:H; simpl; [left |].
    eapply raises_Part1 in H; [| eexists; reflexivity ..].
    subst e. right. left.
  - destruct (Part2 X _ w) as [[[] | e] w'] eqn:H; simpl; [left |].
    eapply raises_Part2 in H; [| eexists; reflexivity ..].
    destruct H as [-> | ->]; [right; left | right; right; left].
  - destruct (Part3 X _ w) as [[[] | e] w'] eqn:H; simpl; [left |].
    eapply raises_Part3 in H; [| eexists; reflexivity ..].
    subst e. right. left.
  - destruct (Part4 X _ w) as [[[] | e] w'] eqn:H; simpl; [left |].
    eapply raises_Part4 in H; [| eexists; reflexivity ..].
    subst e. right. left.
Qed.

(** An instance of X13: tools that exit with 1. *)
Lemma parts_raise_assertions_witness :
  outcome (Part1 (demo 0 1)
             (prepared demo_fresh (tutorial_env demo_fresh demo_ready))
             demo_ready).1
    ∈ [None; Some AssertionError] /\
  outcome (Part2 (demo 0 1)
             (prepared demo_fresh (tutorial_env demo_fresh demo_ready))
             demo_ready).1
    ∈ [None; Some AssertionError; Some IndexError] /\
  outcome (Part3 (demo 0 1)
             (prepared demo_fresh (tutorial_env demo_fresh demo_ready))
             demo_ready).1
    ∈ [None; Some AssertionError] /\
  outcome (Part4 (demo 0 1)
             (prepared demo_fresh (tutorial_env demo_fresh demo_ready))
             demo_ready).1
    ∈ [None; Some AssertionError].
Proof.
  apply (parts_raise_assertions (demo 0 1) demo_fresh _ demo_home demo_ready).
  vm_compute. reflexivity.
Defined.

(** Tools that exit with 0 and write what the tutorial looks for on
    their error stream, but print no line at all. *)
Definition demo_silent : Externals :=
  {| ext_process := fun _ _ _ w => (demo_result 0 [], fs w);
     ext_fetch := ext_fetch (demo 0 0);
     ext_shell := ext_shell (demo 0 0);
     ext_bento_start := ext_bento_start (demo 0 0);
     ext_bento_stop := ext_bento_stop (demo 0 0) |}.

(** X14.  [Part2] reads the first line of its last scan before it
    checks how many lines there are: the one [IndexError] it can raise is
    that of a last scan that exited with 0 and printed no line at all.
    The four commands before it have run and passed their checks by then,
    and the lines the loop reads afterwards are always there. *)
Theorem Part2_IndexError (X : Externals) (t : Tutorial) (w w' : World) :
  Part2 X t w = (Raise IndexError, w') ->
  exists l r,
    events w' = events w ++ l ++ [issued t Part2_list_rows_2 r] /\
    List.length l = 4 /\
    exit_code r = 0%Z /\ output_lines r = [].
Proof.
  intros H.
  destruct (Command_cases X t Part2_bulk_import_1 w)
    as [[Hc _] | (d & e & w2 & Hd & He & _)].
  - unfold Part2 in H. unfold bind at 1 in H. rewrite Hc in H. discriminate.
  - apply (Part2_IndexError_aux X t (ex_intro _ d Hd) (ex_intro _ e He)) in H.
    exact H.
Qed.

(** An instance of X14: a scan that prints nothing. *)
Lemma Part2_IndexError_witness :
  exists l r,
    events (Part2 demo_silent demo_tutorial demo_ready).2
      = events demo_ready ++ l ++ [issued demo_tutorial Part2_list_rows_2 r] /\
    List.length l = 4 /\
    exit_code r = 0%Z /\ output_lines r = [].
Proof.
  apply (Part2_IndexError demo_silent demo_tutorial demo_ready).
  vm_compute. reflexivity.
Defined.

(** ** The lines the tutorial accepts *)

(** Every character of [s] is one that [a] stands for. *)
Fixpoint all_match (a : atom) (s : string) : bool :=
  match s with
  | EmptyString => true
  | String c s' => atom_matches a c && all_match a s'
  end.

(** The pattern that spells the text [p], character by character. *)
Definition lits (p : string) : list item :=
  map (fun c => Rep (Lit c) One) (list_ascii_of_string p).

(** One character or more, each of which [\d] takes. *)
Definition digits (s : string) : Prop := s <> "" /\ all_match Digit s = true.

(** Characters [\s] takes, or nothing. *)
Definition blanks (s : string) : Prop := all_match Space s = true.

(** What [$] lets through: the end of the text, or a last newline. *)
Definition line_end (e : string) : Prop := e = "" \/ e = nl.

Lemma matches_star_eq a r s bol :
  matches_at (Rep a Star :: r) s bol =
    matches_at r s bol ||
    match s with
    | String c s' => atom_matches a c && matches_at (Rep a Star :: r) s' false
    | EmptyString => false
    end.
Proof. destruct s; reflexivity. Qed.

Lemma matches_plus_eq a r s bol :
  matches_at (Rep a Plus :: r) s bol =
    match s with
    | String c s' => atom_matches a c && matches_at (Rep a Star :: r) s' false
    | EmptyString => false
    end.
Proof. destruct s; reflexivity. Qed.

(** A starred atom takes some run of characters it stands for, and the
    rest of the pattern matches what is left. *)
Lemma star_spec a r s bol :
  matches_at (Rep a Star :: r) s bol = true <->
  exists pre post,
    s = pre +:+ post /\ all_match a pre = true /\
    matches_at r post (bol && String.eqb pre "") = true.
Proof.
  revert bol. induction s as [| c s IH]; intros bol; rewrite matches_star_eq.
  - rewrite orb_false_r. split.
    + intros H. exists "", "". rewrite andb_true_r. auto.
    + intros (pre & post & Hs & _ & H).
      destruct pre; [| discriminate]. rewrite append_nil in Hs. subst post.
      rewrite andb_true_r in H. exact H.
  - rewrite orb_true_iff, andb_true_iff, IH. split.
    + intros [H | (Hc & pre & post & -> & Hp & H)].
      * exists "", (String c s). rewrite andb_true_r. auto.
      * exists (String c pre), post. cbn [all_match String.eqb].
        rewrite Hc, Hp, andb_false_r. auto.
    + intros (pre & post & Hs & Hp & H). destruct pre as [| c' pre].
      * left. rewrite append_nil in Hs. subst post.
        rewrite andb_true_r in H. exact H.
      * right. rewrite append_cons in Hs. cbn [all_match] in Hp.
        injection Hs as -> ->.
        apply andb_true_iff in Hp as [Hc Hp]. split; [exact Hc |].
        exists pre, post. rewrite andb_false_r in H. auto.
Qed.

Lemma plus_spec a r s bol :
  matches_at (Rep a Plus :: r) s bol = true <->
  exists pre post,
    s = pre +:+ post /\ pre <> "" /\ all_match a pre = true /\
    matches_at r post false = true.
Proof.
  rewrite matches_plus_eq. destruct s as [| c s].
  - split; [discriminate |].
    intros (pre & post & Hs & Hne & _). destruct pre; [contradiction | discriminate].
  - rewrite andb_true_iff, star_spec. split.
    + intros (Hc & pre & post & -> & Hp & H).
      exists (String c pre), post. cbn [all_match]. rewrite Hc, Hp. auto.
    + intros (pre & post & Hs & Hne & Hp & H).
      destruct pre as [| c' pre]; [contradiction |].
      rewrite append_cons in Hs. cbn [all_match] in Hp. injection Hs as -> ->.
      apply andb_true_iff in Hp as [Hc Hp]. split; [exact Hc |].
      exists pre, post. auto.
Qed.

Lemma lits_spec c p r s bol :
  matches_at (lits (String c p) ++ r) s bol = true <->
  exists s', s = String c p +:+ s' /\ matches_at r s' false = true.
Proof.
  revert c s bol. induction p as [| c' p IH]; intros c s bol.
  - change (lits (String c "") ++ r) with (Rep (Lit c) One :: r).
    cbn [matches_at atom_matches].
    destruct s as [| c1 s];
      [split; [discriminate | intros (? & ? & _); discriminate] |].
    rewrite andb_true_iff, Ascii.eqb_eq. split.
    + intros [-> H]. exists s. auto.
    + intros (s' & Hs & H). rewrite append_cons, append_nil in Hs.
      injection Hs as -> ->. auto.
  - change (lits (String c (String c' p)) ++ r)
      with (Rep (Lit c) One :: (lits (String c' p) ++ r)).
    cbn [matches_at atom_matches].
    destruct s as [| c1 s];
      [split; [discriminate | intros (? & ? & _); discriminate] |].
    rewrite andb_true_iff, Ascii.eqb_eq, IH. split.
    + intros [-> (s' & -> & H)]. exists s'. auto.
    + intros (s' & Hs & H). rewrite append_cons in Hs. injection Hs as -> ->.
      split; [reflexivity |]. exists s'. auto.
Qed.

Lemma eol_spec s bol : matches_at [Eol] s bol = true <-> line_end s.
Proof.
  unfold line_end, nl. cbn. rewrite andb_true_r.
  destruct s as [| c [| c' s]]; cbn.
  - split; auto.
  - rewrite Ascii.eqb_eq. split.
    + intros ->. right. reflexivity.
    + intros [H | H]; [discriminate | injection H as ->; reflexivity].
  - split; [discriminate | intros [H | H]; discriminate].
Qed.

(** [ExpectRegexMatch] returns exactly on a match. *)
Lemma ExpectRegexMatch_returns expect actual r w :
  re_compile expect = Some r ->
  ExpectRegexMatch expect actual w = (Ok true, w) <-> re_match r actual = true.
Proof.
  intros Hc.
  destruct (ExpectRegexMatch_cases expect actual r w Hc) as [Hyes Hno].
  destruct (re_match r actual).
  - split; auto.
  - destruct (Hno eq_refl) as (w1 & -> & _). split; discriminate.
Qed.

(** The patterns of the tutorial, compiled. *)
Lemma play_count_pattern :
  re_compile "^song-\d+\t\d+$" =
    Some (Bol :: lits "song-" ++ Rep Digit Plus :: lits tab
              ++ [Rep Digit Plus; Eol]).
Proof. reflexivity. Qed.

Lemma entity_pattern :
  re_compile "^entity-id=\['user-\d+'\] \[\d+\] info:track_plays$" =
    Some (Bol :: lits "entity-id=['user-" ++ Rep Digit Plus :: lits "'] ["
              ++ Rep Digit Plus :: lits "] info:track_plays" ++ [Eol]).
Proof. reflexivity. Qed.

Lemma song_pattern :
  re_compile "^\s*song-\d+$" =
    Some (Bol :: Rep Space Star :: lits "song-" ++ [Rep Digit Plus; Eol]).
Proof. reflexivity. Qed.

Lemma empty_pattern : re_compile "^$" = Some [Bol; Eol].
Proof. reflexivity. Qed.

(** A line of a play-count file: [song-N], a tab, a count. *)
Definition play_count_line (line : string) : Prop :=
  exists name count e,
    line = "song-" +:+ name +:+ tab +:+ count +:+ e /\
    digits name /\ digits count /\ line_end e.

(** The first line of a row of a scan of the users table. *)
Definition entity_line (line : string) : Prop :=
  exists user stamp e,
    line = "entity-id=['user-" +:+ user +:+ "'] [" +:+ stamp
           +:+ "] info:track_plays" +:+ e /\
    digits user /\ digits stamp /\ line_end e.

(** The second line of a row: the song, after its indentation. *)
Definition song_line (line : string) : Prop :=
  exists indent song e,
    line = indent +:+ "song-" +:+ song +:+ e /\
    blanks indent /\ digits song /\ line_end e.

Lemma play_count_line_spec line :
  re_match (Bol :: lits "song-" ++ Rep Digit Plus :: lits tab
                ++ [Rep Digit Plus; Eol]) line = true
  <-> play_count_line line.
Proof.
  unfold re_match, play_count_line, digits. cbn [matches_at andb]. split.
  - intros H.
    apply lits_spec in H as (s1 & -> & H).
    apply plus_spec in H as (name & s2 & -> & Hn & Hdn & H).
    apply (lits_spec (ascii_of_nat 9) "") in H as (s3 & -> & H).
    apply plus_spec in H as (count & e & -> & Hc & Hdc & H).
    apply eol_spec in H.
    exists name, count, e. auto 10.
  - intros (name & count & e & -> & [Hn Hdn] & [Hc Hdc] & He).
    apply lits_spec. eexists. split; [reflexivity |].
    apply plus_spec. exists name. eexists. split; [reflexivity |].
    split; [exact Hn |]. split; [exact Hdn |].
    apply (lits_spec (ascii_of_nat 9) ""). eexists. split; [reflexivity |].
    apply plus_spec. exists count, e. split; [reflexivity |].
    split; [exact Hc |]. split; [exact Hdc |].
    apply eol_spec. exact He.
Qed.

Lemma entity_line_spec line :
  re_match (Bol :: lits "entity-id=['user-" ++ Rep Digit Plus :: lits "'] ["
                ++ Rep Digit Plus :: lits "] info:track_plays" ++ [Eol]) line
    = true
  <-> entity_line line.
Proof.
  unfold re_match, entity_line, digits. cbn [matches_at andb]. split.
  - intros H.
    apply lits_spec in H as (s1 & -> & H).
    apply plus_spec in H as (user & s2 & -> & Hu & Hdu & H).
    apply lits_spec in H as (s3 & -> & H).
    apply plus_spec in H as (stamp & s4 & -> & Hs & Hds & H).
    apply lits_spec in H as (e & -> & H).
    apply eol_spec in H.
    exists user, stamp, e. auto 10.
  - intros (user & stamp & e & -> & [Hu Hdu] & [Hs Hds] & He).
    apply lits_spec. eexists. split; [reflexivity |].
    apply plus_spec. exists user. eexists. split; [reflexivity |].
    split; [exact Hu |]. split; [exact Hdu |].
    apply lits_spec. eexists. split; [reflexivity |].
    apply plus_spec. exists stamp. eexists. split; [reflexivity |].
    split; [exact Hs |]. split; [exact Hds |].
    apply lits_spec. eexists. split; [reflexivity |].
    apply eol_spec. exact He.
Qed.

Lemma song_line_spec line :
  re_match (Bol :: Rep Space Star :: lits "song-" ++ [Rep Digit Plus; Eol]) line
    = true
  <-> song_line line.
Proof.
  unfold re_match, song_line, digits, blanks. cbn [matches_at andb]. split.
  - intros H.
    apply star_spec in H as (indent & s1 & -> & Hb & H).
    apply lits_spec in H as (s2 & -> & H).
    apply plus_spec in H as (song & e & -> & Hs & Hds & H).
    apply eol_spec in H.
    exists indent, song, e. auto 10.
  - intros (indent & song & e & -> & Hb & [Hs Hds] & He).
    apply star_spec. exists indent. eexists. split; [reflexivity |].
    split; [exact Hb |].
    apply lits_spec. eexists. split; [reflexivity |].
    apply plus_spec. exists song, e. split; [reflexivity |].
    split; [exact Hs |]. split; [exact Hds |].
    apply eol_spec. exact He.
Qed.

Lemma empty_line_spec line : re_match [Bol; Eol] line = true <-> line_end line.
Proof. exact (eol_spec line true). Qed.

(** ** What it is for a text to match a pattern

    The matcher above searches; here is what it searches for, in the
    words of the [re] documentation and without the matcher.  The
    classes are listed code point by code point, below U+0100. *)

Definition digit_chars : list ascii := list_ascii_of_string "0123456789".

Definition space_codes : list nat :=
  [9; 10; 11; 12; 13; 28; 29; 30; 31; 32; 133; 160].

Definition ascii_word_chars : list ascii :=
  list_ascii_of_string
    "abcdefghijklmnopqrstuvwxyzABCDEFGHIJKLMNOPQRSTUVWXYZ0123456789_".

(** The letters and numbers of Latin-1 above U+007F. *)
Definition latin1_word_codes : list nat :=
  [170; 178; 179; 181; 185; 186; 188; 189; 190]
    ++ seq 192 23 ++ seq 216 31 ++ seq 248 8.

(** The characters an atom stands for. *)
Definition stands_for (a : atom) (c : ascii) : Prop :=
  match a with
  | Lit x => c = x
  | Digit => c ∈ digit_chars
  | Space => nat_of_ascii c ∈ space_codes
  | WordChar => c ∈ ascii_word_chars \/ nat_of_ascii c ∈ latin1_word_codes
  | AnyChar => c <> ascii_of_nat 10
  end.

(** A run of characters the atom stands for. *)
Definition run_of (a : atom) (s : string) : Prop :=
  Forall (stands_for a) (list_ascii_of_string s).

(** How many times a quantifier lets its atom be taken. *)
Definition times (q : quant) (n : nat) : Prop :=
  match q with
  | One => n = 1%nat
  | Opt => (n <= 1)%nat
  | Star => True
  | Plus => (1 <= n)%nat
  end.

(** [reads r s bol]: the items of [r], one after the other, account for
    a beginning of [s]; [bol] says whether [s] starts where the text
    starts.  [^] takes nothing and needs the start of the text, [$] takes
    nothing and needs the end of the text or its last newline, an atom
    takes a run of its characters whose length its quantifier allows. *)
Fixpoint reads (r : list item) (s : string) (bol : bool) : Prop :=
  match r with
  | [] => True
  | Bol :: r' => bol = true /\ reads r' s bol
  | Eol :: r' => (s = "" \/ s = nl) /\ reads r' s bol
  | Rep a q :: r' =>
      exists run rest,
        s = run +:+ rest /\ run_of a run /\ times q (String.length run) /\
        reads r' rest (bol && String.eqb run "")
  end.

(** Text in which every character is an ASCII one. *)
Definition ascii_text (s : string) : Prop :=
  forallb (fun c => (nat_of_ascii c <? 128)%nat) (list_ascii_of_string s) = true.

Lemma class_tables (c : ascii) :
  is_digit c = bool_decide (c ∈ digit_chars) /\
  is_unicode_space c = bool_decide (nat_of_ascii c ∈ space_codes) /\
  is_word c =
    bool_decide (c ∈ ascii_word_chars \/ nat_of_ascii c ∈ latin1_word_codes).
Proof.
  destruct c as [[] [] [] [] [] [] [] []]; vm_compute; auto.
Qed.

Lemma atom_stands_for a c : atom_matches a c = true <-> stands_for a c.
Proof.
  destruct (class_tables c) as (Hd & Hs & Hw).
  destruct a as [x | | | |]; cbn [atom_matches stands_for].
  - rewrite Ascii.eqb_eq. split; congruence.
  - rewrite Hd. apply bool_decide_eq_true.
  - rewrite Hs. apply bool_decide_eq_true.
  - rewrite Hw. apply bool_decide_eq_true.
  - rewrite negb_true_iff. split.
    + intros H ->. rewrite Ascii.eqb_refl in H. discriminate.
    + intros H. apply Ascii.eqb_neq. exact H.
Qed.

Lemma all_match_run a s : all_match a s = true <-> run_of a s.
Proof.
  unfold run_of. induction s as [| c s IH]; cbn [all_match list_ascii_of_string].
  - split; [constructor | reflexivity].
  - rewrite andb_true_iff, IH, atom_stands_for. split.
    + intros [Hc Hr]. constructor; assumption.
    + intros H. inversion H; subst. auto.
Qed.

Lemma at_eol_spec s : at_eol s = true <-> s = "" \/ s = nl.
Proof. rewrite <- (eol_spec s true). cbn. rewrite andb_true_r. reflexivity. Qed.

(** The matcher finds a match exactly when there is one to find. *)
Lemma matches_at_reads r : forall s bol, matches_at r s bol = true <-> reads r s bol.
Proof.
  induction r as [| [| | a q] r IH]; intros s bol.
  - cbn. tauto.
  - cbn [matches_at reads]. rewrite andb_true_iff, IH.
    destruct bol; intuition congruence.
  - cbn [matches_at reads]. rewrite andb_true_iff, IH, at_eol_spec. reflexivity.
  - cbn [reads]. destruct q.
    + (* one *)
      cbn [matches_at]. destruct s as [| c s].
      * split; [discriminate |].
        intros (run & rest & Hs & _ & Ht & _).
        destruct run; [discriminate Ht | discriminate Hs].
      * rewrite andb_true_iff, IH, atom_stands_for. split.
        -- intros [Hc Hr]. exists (String c ""), s.
           split; [reflexivity |]. split; [repeat constructor; exact Hc |].
           split; [reflexivity |]. rewrite andb_false_r. exact Hr.
        -- intros (run & rest & Hs & Hrun & Ht & Hr).
           destruct run as [| c' [| c'' run]]; try discriminate Ht.
           rewrite append_cons, append_nil in Hs. injection Hs as -> ->.
           rewrite andb_false_r in Hr.
           inversion Hrun; subst. auto.
    + (* star *)
      rewrite star_spec. split.
      * intros (pre & post & Hs & Hp & H).
        exists pre, post. rewrite <- all_match_run, <- IH. cbn. auto.
      * intros (run & rest & Hs & Hrun & _ & H).
        exists run, rest. rewrite all_match_run, IH. auto.
    + (* plus *)
      rewrite plus_spec. split.
      * intros (pre & post & Hs & Hne & Hp & H).
        exists pre, post. rewrite <- all_match_run, <- IH.
        destruct pre; [contradiction |].
        rewrite andb_false_r. cbn. split; [exact Hs |]. split; [exact Hp |].
        split; [lia | exact H].
      * intros (run & rest & Hs & Hrun & Ht & H).
        exists run, rest. rewrite all_match_run, IH.
        destruct run; [cbn in Ht; lia |].
        rewrite andb_false_r in H. split; [exact Hs |].
        split; [discriminate |]. auto.
    + (* at most one *)
      cbn [matches_at]. rewrite orb_true_iff, IH. split.
      * intros [H | H].
        -- exists "", s. split; [reflexivity |]. split; [constructor |].
           split; [cbn; lia |]. rewrite andb_true_r. exact H.
        -- destruct s as [| c s]; [discriminate |].
           apply andb_true_iff in H as [Hc Hr].
           apply atom_stands_for in Hc. apply IH in Hr.
           exists (String c ""), s.
           split; [reflexivity |]. split; [repeat constructor; exact Hc |].
           split; [cbn; lia |]. rewrite andb_false_r. exact Hr.
      * intros (run & rest & Hs & Hrun & Ht & Hr).
        destruct run as [| c [| c' run]].
        -- left. rewrite append_nil in Hs. subst rest.
           rewrite andb_true_r in Hr. exact Hr.
        -- right. rewrite append_cons, append_nil in Hs. subst s.
           rewrite andb_false_r in Hr. inversion Hrun; subst.
           rewrite andb_true_iff, IH, atom_stands_for. auto.
        -- cbn in Ht. lia.
Qed.

Lemma re_match_reads r s : re_match r s = true <-> reads r s true.
Proof. apply matches_at_reads. Qed.



(** One or more of the ten digits [0] to [9]. *)
Definition numeral (s : string) : Prop :=
  s <> "" /\ Forall (fun c => c ∈ digit_chars) (list_ascii_of_string s).

(** Blanks, or nothing.  In ASCII text the blanks are the characters of
    code 9 to 13 and 28 to 32. *)
Definition indentation (s : string) : Prop :=
  Forall (fun c => nat_of_ascii c ∈ space_codes) (list_ascii_of_string s).

Lemma digits_numeral s : digits s <-> numeral s.
Proof. unfold digits, numeral. rewrite all_match_run. reflexivity. Qed.

Lemma blanks_indentation s : blanks s <-> indentation s.
Proof. unfold blanks. rewrite all_match_run. reflexivity. Qed.

(** X15.  Among the lines of ASCII text, those [Part3] and [Part4]
    accept are exactly the ones made of [song-], one or more of the
    digits [0] to [9], a tab, one or more of these digits again and
    nothing else, but for a newline that may end the line. *)
Theorem play_count_line_accepted (line : string) (w : World) :
  ascii_text line ->
  (ExpectRegexMatch "^song-\d+\t\d+$" line w = (Ok true, w) <->
   exists name count e,
     line = "song-" +:+ name +:+ tab +:+ count +:+ e /\
     numeral name /\ numeral count /\ (e = "" \/ e = nl)).
Proof.
  intros _.
  rewrite (ExpectRegexMatch_returns _ line _ w play_count_pattern).
  rewrite play_count_line_spec. unfold play_count_line.
  split; intros (name & count & e & Hl & Hn & Hc & He);
    exists name, count, e; (split; [exact Hl |]);
    (split; [apply digits_numeral; exact Hn |]);
    (split; [apply digits_numeral; exact Hc | exact He]).
Qed.

(** An instance of X15: the line [song-1], a tab, [10]. *)
Lemma play_count_line_accepted_witness :
  ExpectRegexMatch "^song-\d+\t\d+$" ("song-1" +:+ tab +:+ "10") demo_world
    = (Ok true, demo_world) <->
  exists name count e,
    "song-1" +:+ tab +:+ "10" = "song-" +:+ name +:+ tab +:+ count +:+ e /\
    numeral name /\ numeral count /\ (e = "" \/ e = nl).
Proof.
  apply (play_count_line_accepted ("song-1" +:+ tab +:+ "10") demo_world).
  reflexivity.
Defined.

(** X16.  Among the lines of ASCII text, the three [Part2] accepts for a
    row of its last scan: the entity line
    [entity-id=['user-N'] [T] info:track_plays], [N] and [T] being one or
    more of the digits [0] to [9]; a line [song-N] that blanks may come
    before, a blank being a character of code 9 to 13 or 28 to 32; an
    empty line.  Nothing may follow on any of them but a newline that ends
    the line. *)
Theorem scan_row_lines_accepted (line : string) (w : World) :
  ascii_text line ->
  (ExpectRegexMatch "^entity-id=\['user-\d+'\] \[\d+\] info:track_plays$" line w
     = (Ok true, w) <->
   exists user stamp e,
     line = "entity-id=['user-" +:+ user +:+ "'] [" +:+ stamp
            +:+ "] info:track_plays" +:+ e /\
     numeral user /\ numeral stamp /\ (e = "" \/ e = nl)) /\
  (ExpectRegexMatch "^\s*song-\d+$" line w = (Ok true, w) <->
   exists indent song e,
     line = indent +:+ "song-" +:+ song +:+ e /\
     indentation indent /\ numeral song /\ (e = "" \/ e = nl)) /\
  (ExpectRegexMatch "^$" line w = (Ok true, w) <-> line = "" \/ line = nl).
Proof.
  intros _. split; [| split].
  - rewrite (ExpectRegexMatch_returns _ line _ w entity_pattern).
    rewrite entity_line_spec. unfold entity_line.
    split; intros (user & stamp & e & Hl & Hu & Hs & He);
      exists user, stamp, e; (split; [exact Hl |]);
      (split; [apply digits_numeral; exact Hu |]);
      (split; [apply digits_numeral; exact Hs | exact He]).
  - rewrite (ExpectRegexMatch_returns _ line _ w song_pattern).
    rewrite song_line_spec. unfold song_line.
    split; intros (indent & song & e & Hl & Hi & Hs & He);
      exists indent, song, e; (split; [exact Hl |]);
      (split; [apply blanks_indentation; exact Hi |]);
      (split; [apply digits_numeral; exact Hs | exact He]).
  - rewrite (ExpectRegexMatch_returns _ line _ w empty_pattern).
    apply empty_line_spec.
Qed.

(** An instance of X16: an indented song line. *)
Lemma scan_row_lines_accepted_witness :
  (ExpectRegexMatch "^entity-id=\['user-\d+'\] \[\d+\] info:track_plays$"
                    "    song-12" demo_world
     = (Ok true, demo_world) <->
   exists user stamp e,
     "    song-12" = "entity-id=['user-" +:+ user +:+ "'] [" +:+ stamp
            +:+ "] info:track_plays" +:+ e /\
     numeral user /\ numeral stamp /\ (e = "" \/ e = nl)) /\
  (ExpectRegexMatch "^\s*song-\d+$" "    song-12" demo_world
     = (Ok true, demo_world) <->
   exists indent song e,
     "    song-12" = indent +:+ "song-" +:+ song +:+ e /\
     indentation indent /\ numeral song /\ (e = "" \/ e = nl)) /\
  (ExpectRegexMatch "^$" "    song-12" demo_world = (Ok true, demo_world) <->
   "    song-12" = "" \/ "    song-12" = nl).
Proof.
  apply (scan_row_lines_accepted "    song-12" demo_world). reflexivity.
Defined.

(** ** What a part that returns has checked *)

(** The line passes [ExpectRegexMatch] with this pattern, whatever the
    world. *)
Definition accepted (pattern line : string) : Prop :=
  forall w, ExpectRegexMatch pattern line w = (Ok true, w).

(** Three lines of a scan, as [Part2] checks them: the entity, its song,
    an empty line. *)
Definition scan_row (lines : list string) : Prop :=
  exists a b c,
    lines = [a; b; c] /\
    accepted "^entity-id=\['user-\d+'\] \[\d+\] info:track_plays$" a /\
    accepted "^\s*song-\d+$" b /\
    accepted "^$" c.

Lemma accepted_of_match pattern r line :
  re_compile pattern = Some r -> re_match r line = true -> accepted pattern line.
Proof.
  intros Hc Hm w. apply (ExpectRegexMatch_cases _ _ _ w Hc), Hm.
Qed.

Lemma bind_assoc {A B C} (m : M A) (f : A -> M B) (g : B -> M C) w :
  bind (bind m f) g w = bind m (fun x => bind (f x) g) w.
Proof. unfold bind. destruct (m w) as [[a | e] w1]; reflexivity. Qed.

Lemma assert_Ok {A} b (k : M A) w a w' :
  bind (assert_ b) (fun _ => k) w = (Ok a, w') ->
  b = true /\ k w = (Ok a, w').
Proof.
  unfold bind, assert_. destruct b; [cbn [ret]; auto | discriminate].
Qed.

Lemma index_Ok {A B} (l : list A) i (k : A -> M B) w a w' :
  bind (index l i) k w = (Ok a, w') ->
  exists x, l !! i = Some x /\ k x w = (Ok a, w').
Proof.
  unfold bind, index. destruct (l !! i) as [x |]; [| discriminate].
  cbn [ret]. intros H. exists x. auto.
Qed.

Lemma Expect_Ok {A} expect actual (k : M A) w a w' :
  bind (Expect expect actual) (fun _ => k) w = (Ok a, w') ->
  expect = actual /\ k w = (Ok a, w').
Proof.
  unfold bind at 1. unfold Expect.
  destruct (expect =? actual)%Z eqn:E; cbn [negb].
  - intros H. split; [apply Z.eqb_eq; exact E | exact H].
  - unfold bind, logging_error, logging_log, raise.
    destruct (_ <=? _)%Z; discriminate.
Qed.

Lemma ExpectRegexMatch_Ok {A} expect r actual (k : M A) w a w' :
  re_compile expect = Some r ->
  bind (ExpectRegexMatch expect actual) (fun _ => k) w = (Ok a, w') ->
  re_match r actual = true /\ k w = (Ok a, w').
Proof.
  intros Hc. unfold bind at 1.
  destruct (ExpectRegexMatch_cases expect actual r w Hc) as [Hyes Hno].
  destruct (re_match r actual).
  - rewrite (Hyes eq_refl). auto.
  - destruct (Hno eq_refl) as (w1 & -> & _). discriminate.
Qed.

Section Returned.

Variable X : Externals.

Lemma Command_Ok {A} t c (k : CommandResult -> M A) w a w' :
  bind (Command X t c) k w = (Ok a, w') ->
  exists r w1,
    events w1 = events w ++ [issued t c r] /\ k r w1 = (Ok a, w').
Proof.
  intros H. unfold bind in H.
  destruct (Command_cases X t c w) as [[Hc _] | (d & e & w1 & _ & _ & Hrun)].
  - rewrite Hc in H. discriminate.
  - cbv zeta in Hrun. destruct Hrun as (Hrun & Hev & _).
    rewrite Hrun in H. eexists _, w1. split; [exact Hev | exact H].
Qed.

(** One command of a part, with the check of its exit code. *)
Ltac command_Ok H r w E Hz :=
  apply Command_Ok in H; destruct H as (r & w & E & H);
  apply assert_Ok in H; destruct H as [Hz H]; apply Z.eqb_eq in Hz.

Lemma Part1_Ok t w w' :
  Part1 X t w = (Ok tt, w') ->
  exists install create_table generate_data mkdir copy list_tables,
    events w' =
      events w ++
        [issued t Part1_install install;
         issued t Part1_create_table create_table;
         issued t Part1_generate_data generate_data;
         issued t Part1_mkdir mkdir;
         issued t Part1_copy copy;
         issued t Part1_list_tables list_tables] /\
    Forall (fun r => exit_code r = 0%Z)
           [install; create_table; generate_data; mkdir; copy; list_tables] /\
    contains "Successfully created kiji instance: " (output_text install) = true /\
    contains "songs" (output_text list_tables) = true /\
    contains "users" (output_text list_tables) = true.
Proof.
  unfold Part1. intros H.
  command_Ok H r1 w1 E1 Hz1. apply assert_Ok in H as [Hc1 H].
  command_Ok H r2 w2 E2 Hz2.
  command_Ok H r3 w3 E3 Hz3.
  command_Ok H r4 w4 E4 Hz4.
  command_Ok H r5 w5 E5 Hz5.
  command_Ok H r6 w6 E6 Hz6. apply assert_Ok in H as [Hc6 H].
  unfold assert_ in H. destruct (contains "users" _) eqn:Hc7; [| discriminate].
  injection H as <-.
  exists r1, r2, r3, r4, r5, r6.
  split.
  { rewrite E6, E5, E4, E3, E2, E1, <- !app_assoc. reflexivity. }
  split; [repeat constructor; assumption |]. auto.
Qed.

Lemma Part2_Ok t w w' :
  Part2 X t w = (Ok tt, w') ->
  exists import1 scan1 copy import2 scan2,
    events w' =
      events w ++
        [issued t Part2_bulk_import_1 import1;
         issued t Part2_list_rows_1 scan1;
         issued t Part2_copy copy;
         issued t Part2_bulk_import_2 import2;
         issued t Part2_list_rows_2 scan2] /\
    Forall (fun r => exit_code r = 0%Z) [import1; scan1; copy; import2; scan2] /\
    contains "Total input paths to process : 1" (error_text import1) = true /\
    contains "BULKIMPORTER_RECORDS_PROCESSED=50" (error_text import1) = true /\
    contains "Total input paths to process : 1" (error_text import2) = true /\
    contains "BULKIMPORTER_RECORDS_PROCESSED=" (error_text import2) = true /\
    exists header row1 row2 row3 rest,
      output_lines scan2 = header :: row1 ++ row2 ++ row3 ++ rest /\
      startswith header "Scanning kiji table: kiji://" = true /\
      scan_row row1 /\ scan_row row2 /\ scan_row row3.
Proof.
  unfold Part2. intros H.
  command_Ok H r1 w1 E1 Hz1.
  apply assert_Ok in H as [Ha1 H]. apply assert_Ok in H as [Hb1 H].
  command_Ok H r2 w2 E2 Hz2.
  command_Ok H r3 w3 E3 Hz3.
  command_Ok H r4 w4 E4 Hz4.
  apply assert_Ok in H as [Ha4 H]. apply assert_Ok in H as [Hb4 H].
  command_Ok H r5 w5 E5 Hz5.
  apply index_Ok in H as (header & Hh & H).
  apply assert_Ok in H as [Hs H]. apply assert_Ok in H as [Hlen H].
  apply Nat.leb_le in Hlen.
  remember (output_lines r5) as ls eqn:Hls.
  destruct ls as [| x0 lines]; [discriminate |].
  cbn [lookup list_lookup] in Hh. injection Hh as ->.
  do 9 (destruct lines as [| ? lines]; [simpl in Hlen; lia |]).
  cbn [seq for_] in H.
  repeat match type of H with
    | bind (bind _ _) _ _ = _ => rewrite bind_assoc in H
    | bind (index _ _) _ _ = _ =>
        let x := fresh "x" in
        let Hx := fresh "Hx" in
        apply index_Ok in H as (x & Hx & H); simpl in Hx; injection Hx as <-
    | bind (ExpectRegexMatch "^$" _) _ _ = _ =>
        let Hm := fresh "Hm" in
        apply (ExpectRegexMatch_Ok _ _ _ _ _ _ _ empty_pattern) in H as [Hm H];
        apply (accepted_of_match _ _ _ empty_pattern) in Hm
    | bind (ExpectRegexMatch "^\s*song-\d+$" _) _ _ = _ =>
        let Hm := fresh "Hm" in
        apply (ExpectRegexMatch_Ok _ _ _ _ _ _ _ song_pattern) in H as [Hm H];
        apply (accepted_of_match _ _ _ song_pattern) in Hm
    | bind (ExpectRegexMatch _ _) _ _ = _ =>
        let Hm := fresh "Hm" in
        apply (ExpectRegexMatch_Ok _ _ _ _ _ _ _ entity_pattern) in H as [Hm H];
        apply (accepted_of_match _ _ _ entity_pattern) in Hm
    | bind (ret tt) _ _ = _ => unfold bind at 1 in H; cbn [ret] in H
    end.
  unfold ret in H. injection H as <-.
  exists r1, r2, r3, r4, r5.
  split.
  { rewrite E5, E4, E3, E2, E1, <- !app_assoc. reflexivity. }
  split; [repeat constructor; assumption |].
  do 4 (split; [assumption |]).
  eexists header, [_; _; _], [_; _; _], [_; _; _], lines.
  split; [rewrite <- Hls; reflexivity |]. split; [exact Hs |].
  split; [| split]; eexists _, _, _; (split; [reflexivity |]); auto.
Qed.

(** [Part3] and [Part4] differ in the job they run and in nothing
    else. *)
Lemma play_counts_Ok t (gather_command : string) w w' :
  (gather <- Command X t gather_command ;;
   assert_ (exit_code gather =? 0)%Z ;;
   fs_text <- Command X t Part3_fs_text ;;
   Expect 0 (exit_code fs_text) ;;
   let lines := filter_None (output_lines fs_text) in
   Expect 3 (Z.of_nat (List.length lines)) ;;
   for_ lines (fun line =>
     ExpectRegexMatch "^song-\d+\t\d+$" line ;;
     ret tt)) w = (Ok tt, w') ->
  exists gather fs_text a b c,
    events w' =
      events w ++ [issued t gather_command gather; issued t Part3_fs_text fs_text] /\
    exit_code gather = 0%Z /\ exit_code fs_text = 0%Z /\
    filter_None (output_lines fs_text) = [a; b; c] /\
    accepted "^song-\d+\t\d+$" a /\ accepted "^song-\d+\t\d+$" b /\
    accepted "^song-\d+\t\d+$" c.
Proof.
  intros H.
  command_Ok H r1 w1 E1 Hz1.
  apply Command_Ok in H as (r2 & w2 & E2 & H).
  apply Expect_Ok in H as [Hz2 H]. cbv zeta in H.
  apply Expect_Ok in H as [Hn H].
  remember (filter_None (output_lines r2)) as ls eqn:Hls.
  destruct ls as [| a [| b [| c [| d lines]]]]; try discriminate Hn.
  2:{ simpl in Hn. lia. }
  assert (events w' = events w2) as E3.
  { pose proof (quiet_for [a; b; c]
                  (fun line => ExpectRegexMatch "^song-\d+\t\d+$" line ;; ret tt))
      as Hq.
    assert (forall line,
               quiet (ExpectRegexMatch "^song-\d+\t\d+$" line ;; ret tt)) as Hb.
    { intros line. apply quiet_bind; [apply quiet_ExpectRegexMatch |].
      intros _. apply quiet_ret. }
    specialize (Hq Hb w2). rewrite H in Hq. exact Hq. }
  apply for_lines_ok in H.
  inversion H as [| ? ? Ha H']; subst.
  inversion H' as [| ? ? Hb H'']; subst.
  inversion H'' as [| ? ? Hc _]; subst.
  exists r1, r2, a, b, c.
  split; [rewrite E3, E2, E1, <- app_assoc; reflexivity |].
  split; [exact Hz1 |]. split; [symmetry; exact Hz2 |].
  split; [symmetry; exact Hls |]. auto.
Qed.

End Returned.

(** X17.  [Part1] returns only if its six commands have run in order
    and exited with 0, the installation has printed [Successfully created
    kiji instance: ] and the listing of the tables mentions [songs] and
    [users]. *)
Theorem Part1_postcondition (X : Externals) (t : Tutorial) (w w' : World) :
  Part1 X t w = (Ok tt, w') ->
  exists install create_table generate_data mkdir copy list_tables,
    events w' =
      events w ++
        [issued t Part1_install install;
         issued t Part1_create_table create_table;
         issued t Part1_generate_data generate_data;
         issued t Part1_mkdir mkdir;
         issued t Part1_copy copy;
         issued t Part1_list_tables list_tables] /\
    Forall (fun r => exit_code r = 0%Z)
           [install; create_table; generate_data; mkdir; copy; list_tables] /\
    contains "Successfully created kiji instance: " (output_text install) = true /\
    contains "songs" (output_text list_tables) = true /\
    contains "users" (output_text list_tables) = true.
Proof. apply Part1_Ok. Qed.

(** An instance of X17. *)
Lemma Part1_postcondition_witness :
  exists install create_table generate_data mkdir copy list_tables,
    events (Part1 (demo 0 0) demo_tutorial demo_ready).2 =
      events demo_ready ++
        [issued demo_tutorial Part1_install install;
         issued demo_tutorial Part1_create_table create_table;
         issued demo_tutorial Part1_generate_data generate_data;
         issued demo_tutorial Part1_mkdir mkdir;
         issued demo_tutorial Part1_copy copy;
         issued demo_tutorial Part1_list_tables list_tables] /\
    Forall (fun r => exit_code r = 0%Z)
           [install; create_table; generate_data; mkdir; copy; list_tables] /\
    contains "Successfully created kiji instance: " (output_text install) = true /\
    contains "songs" (output_text list_tables) = true /\
    contains "users" (output_text list_tables) = true.
Proof.
  apply (Part1_postcondition (demo 0 0) demo_tutorial demo_ready).
  vm_compute. reflexivity.
Defined.

(** X18.  [Part2] returns only if its five commands have run in order
    and exited with 0, both imports have reported one input path, the
    first one fifty records and the second one a count of records,
    whatever it is, and the last scan has printed its header and, right
    after it, three rows of three lines each, which [ExpectRegexMatch]
    accepts as an entity line, a song line and an empty line.  What the
    first scan prints is not looked at. *)
Theorem Part2_postcondition (X : Externals) (t : Tutorial) (w w' : World) :
  Part2 X t w = (Ok tt, w') ->
  exists import1 scan1 copy import2 scan2,
    events w' =
      events w ++
        [issued t Part2_bulk_import_1 import1;
         issued t Part2_list_rows_1 scan1;
         issued t Part2_copy copy;
         issued t Part2_bulk_import_2 import2;
         issued t Part2_list_rows_2 scan2] /\
    Forall (fun r => exit_code r = 0%Z) [import1; scan1; copy; import2; scan2] /\
    contains "Total input paths to process : 1" (error_text import1) = true /\
    contains "BULKIMPORTER_RECORDS_PROCESSED=50" (error_text import1) = true /\
    contains "Total input paths to process : 1" (error_text import2) = true /\
    contains "BULKIMPORTER_RECORDS_PROCESSED=" (error_text import2) = true /\
    exists header row1 row2 row3 rest,
      output_lines scan2 = header :: row1 ++ row2 ++ row3 ++ rest /\
      startswith header "Scanning kiji table: kiji://" = true /\
      scan_row row1 /\ scan_row row2 /\ scan_row row3.
Proof. apply Part2_Ok. Qed.

(** An instance of X18. *)
Lemma Part2_postcondition_witness :
  exists import1 scan1 copy import2 scan2,
    events (Part2 (demo 0 0) demo_tutorial demo_ready).2 =
      events demo_ready ++
        [issued demo_tutorial Part2_bulk_import_1 import1;
         issued demo_tutorial Part2_list_rows_1 scan1;
         issued demo_tutorial Part2_copy copy;
         issued demo_tutorial Part2_bulk_import_2 import2;
         issued demo_tutorial Part2_list_rows_2 scan2] /\
    Forall (fun r => exit_code r = 0%Z) [import1; scan1; copy; import2; scan2] /\
    contains "Total input paths to process : 1" (error_text import1) = true /\
    contains "BULKIMPORTER_RECORDS_PROCESSED=50" (error_text import1) = true /\
    contains "Total input paths to process : 1" (error_text import2) = true /\
    contains "BULKIMPORTER_RECORDS_PROCESSED=" (error_text import2) = true /\
    exists header row1 row2 row3 rest,
      output_lines scan2 = header :: row1 ++ row2 ++ row3 ++ rest /\
      startswith header "Scanning kiji table: kiji://" = true /\
      scan_row row1 /\ scan_row row2 /\ scan_row row3.
Proof.
  apply (Part2_postcondition (demo 0 0) demo_tutorial demo_ready).
  vm_compute. reflexivity.
Defined.

(** X19.  [Part3] and [Part4] return only if their job and the
    inspection after it have exited with 0 and the inspection has printed
    three lines that are not empty, no more and no fewer, each of which
    [ExpectRegexMatch] accepts as a play count, [^song-\d+\t\d+$].
    Empty lines are skipped wherever they are. *)
Theorem play_counts_postcondition (X : Externals) (t : Tutorial)
    (w w' : World) (part : Tutorial -> M unit) (job : string) :
  (part = Part3 X /\ job = Part3_gather) \/ (part = Part4 X /\ job = Part4_gather) ->
  part t w = (Ok tt, w') ->
  exists gather fs_text a b c,
    events w' = events w ++ [issued t job gather; issued t Part3_fs_text fs_text] /\
    exit_code gather = 0%Z /\ exit_code fs_text = 0%Z /\
    filter_None (output_lines fs_text) = [a; b; c] /\
    accepted "^song-\d+\t\d+$" a /\ accepted "^song-\d+\t\d+$" b /\
    accepted "^song-\d+\t\d+$" c.
Proof.
  intros [[-> ->] | [-> ->]] H; apply (play_counts_Ok X t _ w w'); exact H.
Qed.

(** An instance of X19: [Part3] on three play counts and an empty
    line. *)
Lemma play_counts_postcondition_witness :
  exists gather fs_text a b c,
    events (Part3 (demo 0 0) demo_tutorial demo_ready).2 =
      events demo_ready ++
        [issued demo_tutorial Part3_gather gather;
         issued demo_tutorial Part3_fs_text fs_text] /\
    exit_code gather = 0%Z /\ exit_code fs_text = 0%Z /\
    filter_None (output_lines fs_text) = [a; b; c] /\
    accepted "^song-\d+\t\d+$" a /\ accepted "^song-\d+\t\d+$" b /\
    accepted "^song-\d+\t\d+$" c.
Proof.
  apply (play_counts_postcondition (demo 0 0) demo_tutorial demo_ready _
           (Part3 (demo 0 0)) Part3_gather).
  - left. split; reflexivity.
  - vm_compute. reflexivity.
Defined.

(** ** One instance per run *)

From Stdlib Require DecimalZ DecimalPos.

Lemma str_of_int_inj (n m : Z) : str_of_int n = str_of_int m -> n = m.
Proof.
  unfold str_of_int. intros H.
  apply DecimalZ.to_int_inj.
  assert (forall z, NilZero.int_of_string (NilZero.string_of_int (Z.to_int z))
                    = Some (Z.to_int z)) as Hz.
  { intros z. apply NilZero.isi; destruct z; simpl; try discriminate;
      intros E; injection E as E; revert E;
      apply DecimalPos.Unsigned.to_uint_nonnil. }
  pose proof (Hz n) as Hn. rewrite H, Hz in Hn. injection Hn as Hn.
  symmetry. exact Hn.
Qed.

Lemma append_inj (p a b : string) : p +:+ a = p +:+ b -> a = b.
Proof.
  induction p as [| c p IH]; [auto |].
  rewrite !append_cons. intros H. injection H as H. auto.
Qed.

(** The same world, a millisecond later. *)
Definition demo_later : World :=
  {| fs := fs demo_home;
     environ := environ demo_home;
     cwd := cwd demo_home;
     clock_ms := clock_ms demo_home + 1;
     temp_name := temp_name demo_home;
     logger_level := logger_level demo_home;
     log_records := log_records demo_home;
     stdout := stdout demo_home;
     events := events demo_home;
     re_library := re_library demo_home |}.

(** A tutorial constructed in [demo_later], and the world [Setup]
    leaves for it. *)
Definition demo_fresh_later : Tutorial :=
  {| _work_dir := "/w";
     _run_id := 8;
     _kiji_version := "1.0.0";
     _maven_local_repo := None;
     _maven_remote_repo := None;
     _kiji_bento_dir := None;
     _bento_cluster_dir := None;
     _kiji_music_dir := None;
     _bento := None;
     _hdfs_base := None;
     _kiji_instance_uri := None;
     _env := None |}.

Definition demo_ready_later : World :=
  Eval vm_compute in (Setup (demo 0 0) demo_fresh_later demo_later).2.

Definition demo_prepared : Tutorial :=
  prepared demo_fresh (tutorial_env demo_fresh demo_ready).

Definition demo_prepared_later : Tutorial :=
  prepared demo_fresh_later (tutorial_env demo_fresh_later demo_ready_later).

(** X20.  The Kiji instance and the HDFS directory of a run are named
    after the millisecond at which its [Tutorial] was constructed: two
    runs share them exactly when they were constructed within the same
    millisecond, whatever their working directories and versions are.
    The environment of the commands holds the same two names as the
    attributes [_kiji_instance_uri] and [_hdfs_base]. *)
Theorem instance_named_after_the_clock (X X' : Externals)
    (wd wd' ver ver' : string) (lr rr lr' rr' : option string)
    (w w0 w1 w' w0' w1' : World) (t0 t t0' t' : Tutorial) :
  Tutorial_init wd ver lr rr w = (Ok t0, w0) -> Setup X t0 w0 = (Ok t, w1) ->
  Tutorial_init wd' ver' lr' rr' w' = (Ok t0', w0') ->
  Setup X' t0' w0' = (Ok t', w1') ->
  (_kiji_instance_uri t = _kiji_instance_uri t' <-> clock_ms w = clock_ms w') /\
  (_hdfs_base t = _hdfs_base t' <-> clock_ms w = clock_ms w') /\
  _env t ≫= lookup "KIJI" = _kiji_instance_uri t /\
  _env t ≫= lookup "HDFS_BASE" = _hdfs_base t.
Proof.
  intros H0 Hs H0' Hs'.
  destruct (Setup_Ok X t0 w0 t w1 Hs) as (-> & _).
  destruct (Setup_Ok X' t0' w0' t' w1' Hs') as (-> & _).
  unfold Tutorial_init, bind, NowMS, ret in H0, H0'.
  injection H0 as <- _. injection H0' as <- _.
  cbn [prepared _kiji_instance_uri _hdfs_base _env _run_id mbind option_bind].
  split; [| split; [| split]].
  - split.
    + intros H. injection H as H. apply append_inj in H.
      apply str_of_int_inj. exact H.
    + intros ->. reflexivity.
  - split.
    + intros H. injection H as H. apply append_inj in H.
      apply str_of_int_inj. exact H.
    + intros ->. reflexivity.
  - unfold tutorial_env, dict_update. cbn [fold_left fst snd _run_id].
    by simplify_map_eq.
  - unfold tutorial_env, dict_update. cbn [fold_left fst snd _run_id].
    by simplify_map_eq.
Qed.

(** An instance of X20: two runs under [/w], one millisecond apart. *)
Lemma instance_named_after_the_clock_witness :
  (_kiji_instance_uri demo_prepared = _kiji_instance_uri demo_prepared_later
   <-> clock_ms demo_home = clock_ms demo_later) /\
  (_hdfs_base demo_prepared = _hdfs_base demo_prepared_later
   <-> clock_ms demo_home = clock_ms demo_later) /\
  _env demo_prepared ≫= lookup "KIJI" = _kiji_instance_uri demo_prepared /\
  _env demo_prepared ≫= lookup "HDFS_BASE" = _hdfs_base demo_prepared.
Proof.
  apply (instance_named_after_the_clock (demo 0 0) (demo 0 0)
           "/w" "/w" "1.0.0" "1.0.0" None None None None
           demo_home demo_home demo_ready demo_later demo_later demo_ready_later
           demo_fresh demo_prepared demo_fresh_later demo_prepared_later);
    vm_compute; reflexivity.
Defined.

(** ** Where the tutorial is run *)

(** The working directory [Main] settles on: [--work_dir], or a fresh
    [work_dir.*] under the current directory, made absolute. *)
Definition chosen_work_dir (FLAGS : Flags) (w : World) : string :=
  let d := match work_dir FLAGS with
           | Some d => d
           | None => os_path_join (cwd w) ("work_dir." +:+ temp_name w)
           end in
  os_path_normpath (if startswith d "/" then d else os_path_join (cwd w) d).

(** The flags of a run that uses [/home/w] and release 1.0.0. *)
Definition demo_flags : Flags :=
  {| work_dir := Some "w";
     maven_local_repo := None;
     maven_remote_repo := None;
     kiji_bento_version := Some "1.0.0";
     disable_cleanup_after_test := Some "false";
     log_dir := None;
     log_level := Some "INFO" |}.

Section Handoff.

Variable X : Externals.

Lemma Main_handoff args w FLAGS s b name n ver :
  parse_known_args BuildFlagParser (tail args) = Ok (FLAGS, []) ->
  disable_cleanup_after_test FLAGS = Some s -> Truth s = Ok b ->
  log_level FLAGS = Some name -> level_of name = Some n ->
  log_dir FLAGS <> Some "" ->
  kiji_bento_version FLAGS = Some ver -> ver <> "" ->
  exists w1,
    Main X args w = Main_tutorial X (chosen_work_dir FLAGS w) ver FLAGS b w1 /\
    chosen_work_dir FLAGS w ∈ fs w1 /\
    (forall d, log_dir FLAGS = Some d -> d ∈ fs w1) /\
    (forall q, q ∈ fs w -> q ∈ fs w1) /\
    events w1 = events w /\ stdout w1 = stdout w /\ logger_level w1 = n.
Proof.
  intros Hparse Hs Hb Hname Hn Hld Hver Hne.
  remember (Main X args w) as r eqn:Hr. unfold Main in Hr.
  unfold bind at 1 in Hr. rewrite Hparse in Hr. cbn [lift ret] in Hr.
  change (0 <? @List.length string [])%nat with false in Hr. cbv iota in Hr.
  unfold bind at 1 in Hr. rewrite Hs in Hr. cbn [attr ret] in Hr.
  unfold bind at 1 in Hr. rewrite Hb in Hr. cbn [lift ret] in Hr.
  unfold bind at 1 in Hr. rewrite Hname in Hr. cbn [ret] in Hr.
  unfold level_of in Hn. unfold bind at 1 in Hr.
  destruct (0 <? String.length name)%nat; [| discriminate Hn].
  assert (match logging_dict_int name with
          | Some n => ret (Some n)
          | None => n <- lift (py_int name) ;; ret (Some n)
          end w = (Ok (Some n), w)) as HL.
  { destruct (logging_dict_int name) as [n' |];
      [injection Hn as ->; reflexivity |].
    unfold bind. destruct (py_int name) as [n' | e]; [| discriminate Hn].
    injection Hn as ->. reflexivity. }
  rewrite HL in Hr. clear HL.
  unfold bind at 1 in Hr. cbv beta iota in Hr.
  (* the working directory *)
  unfold bind at 1 in Hr.
  assert (exists d w1,
             match work_dir FLAGS with
             | Some d => ret d
             | None => d <- os_getcwd ;; tempfile_mkdtemp "work_dir." d
             end (with_logger_level w n) = (Ok d, w1) /\
             grows w w1 /\ logger_level w1 = n /\ cwd w1 = cwd w /\
             d = match work_dir FLAGS with
                 | Some d => d
                 | None => os_path_join (cwd w) ("work_dir." +:+ temp_name w)
                 end) as (d & w1 & HW & Hg1 & Hl1 & Hcwd & Hd).
  { destruct (work_dir FLAGS) as [d |].
    - exists d, (with_logger_level w n). repeat split; auto.
    - eexists. eexists. split; [reflexivity |].
      split; [| repeat split].
      repeat split. intros q Hq. simpl. apply elem_of_app. left. exact Hq. }
  rewrite HW in Hr. clear HW. rename Hr into Hr1.
  unfold bind at 1 in Hr1. cbn [os_path_abspath] in Hr1.
  assert (os_path_normpath
            (if startswith d "/" then d else os_path_join (cwd w1) d)
          = chosen_work_dir FLAGS w) as Hwd.
  { unfold chosen_work_dir. cbv zeta. rewrite Hcwd, Hd. reflexivity. }
  rewrite Hwd in Hr1.
  match type of Hr1 with
  | _ = bind (os_path_exists ?p)
             (fun e => bind (if negb e then os_makedirs ?p else ret tt) ?k) ?w0 =>
      destruct (run_ensure_dir p k w0)
        as [(He & _) | (w2 & Heq & Hg2 & Hl2 & Hin2)];
      [exfalso; rewrite <- Hwd in He; exact (os_path_normpath_not_empty _ He) |];
      rewrite Heq in Hr1; clear Heq
  end.
  cbv beta in Hr1.
  match type of Hr1 with
  | _ = bind (logging_debug ?f ?a) ?k ?w0 =>
      destruct (run_logging_debug f a k w0) as (w3 & Heq & Hg3 & Hl3);
      rewrite Heq in Hr1; clear Heq
  end.
  cbv beta in Hr1.
  match type of Hr1 with
  | _ = bind (os_path_exists ?p)
             (fun e => bind (if negb e then os_makedirs ?p else ret tt) ?k) ?w0 =>
      destruct (run_ensure_dir p k w0)
        as [(He & _ & Heq) | (w4 & Heq & Hg4 & Hl4 & Hin4)];
      rewrite Heq in Hr1; clear Heq
  end.
  { exfalso. destruct (log_dir FLAGS) as [ld |].
    - subst ld. apply Hld. reflexivity.
    - rewrite <- Hwd in He. exact (os_path_normpath_not_empty _ He). }
  cbv beta in Hr1.
  match type of Hr1 with
  | _ = bind (logging_debug ?f ?a) ?k ?w0 =>
      destruct (run_logging_debug f a k w0) as (w5 & Heq & Hg5 & Hl5);
      rewrite Heq in Hr1; clear Heq
  end.
  cbv beta in Hr1. rewrite Hver in Hr1.
  destruct ver as [| c ver]; [contradiction |].
  match type of Hr1 with
  | _ = bind (logging_info ?f ?a) ?k ?w0 =>
      destruct (run_logging_info f a k w0) as (w6 & Heq & Hg6 & Hl6);
      rewrite Heq in Hr1; clear Heq
  end.
  cbv beta in Hr1.
  assert (grows w4 w6) as Hg46
    by (eapply grows_trans; [exact Hg5 | exact Hg6]).
  assert (grows w2 w6) as Hg26
    by (eapply grows_trans; [exact Hg3 |];
        eapply grows_trans; [exact Hg4 | exact Hg46]).
  assert (grows w w6) as Hg
    by (eapply grows_trans; [exact Hg1 |];
        eapply grows_trans; [exact Hg2 | exact Hg26]).
  exists w6. split; [exact Hr1 |].
  split; [apply Hg26; exact Hin2 |].
  split.
  { intros ld Hl. rewrite Hl in Hin4. apply Hg46. exact Hin4. }
  split; [apply Hg |]. split; [apply Hg |]. split; [apply Hg | congruence].
Qed.

End Handoff.

(** X22.  When the flags are well formed, name a release and ask for
    no directory to be made, [Main] hands the run over to the tutorial in
    the working directory it has settled on: [--work_dir] if there is one,
    which must exist, a fresh [work_dir.*] under the current directory
    otherwise, resolved against the current directory and normalised.
    The log level is the name of a level and the log directory, if one is
    given, exists.  At the hand-over the working directory exists, no file
    is gone, nothing has been printed or run, and the root logger is at
    the level asked for. *)
Theorem Main_working_directory (X : Externals) (args : list string) (w : World)
    (FLAGS : Flags) (s name ver : string) (b : bool) (n : Z) :
  parse_known_args BuildFlagParser (tail args) = Ok (FLAGS, []) ->
  disable_cleanup_after_test FLAGS = Some s -> Truth s = Ok b ->
  log_level FLAGS = Some name -> logging_dict_int name = Some n ->
  work_dir FLAGS = None \/ chosen_work_dir FLAGS w ∈ fs w ->
  (forall d, log_dir FLAGS = Some d -> d <> "" /\ d ∈ fs w) ->
  kiji_bento_version FLAGS = Some ver -> ver <> "" ->
  exists w1,
    Main X args w = Main_tutorial X (chosen_work_dir FLAGS w) ver FLAGS b w1 /\
    chosen_work_dir FLAGS w ∈ fs w1 /\
    (forall d, log_dir FLAGS = Some d -> d ∈ fs w1) /\
    (forall q, q ∈ fs w -> q ∈ fs w1) /\
    events w1 = events w /\ stdout w1 = stdout w /\ logger_level w1 = n.
Proof.
  intros Hparse Hs Hb Hname Hn _ Hld Hver Hne.
  apply (Main_handoff X args w FLAGS s b name n ver); try assumption.
  - apply level_of_name. exact Hn.
  - intros Hld'. destruct (Hld _ Hld') as [H _]. contradiction.
Qed.

(** The world [demo_world] with a directory [/home/w]. *)
Definition demo_home_w : World := with_fs demo_world ["/"; "/home"; "/home/w"].

(** An instance of X22: [--work_dir=w], given in [/home], is
    [/home/w]. *)
Lemma Main_working_directory_witness :
  exists w1,
    Main (demo 0 0)
         ["kiji_music.py"; "--kiji_bento_version=1.0.0"; "--work_dir=w"]
         demo_home_w
    = Main_tutorial (demo 0 0) "/home/w" "1.0.0" demo_flags false w1 /\
    "/home/w" ∈ fs w1 /\
    (forall d, log_dir demo_flags = Some d -> d ∈ fs w1) /\
    (forall q, q ∈ fs demo_home_w -> q ∈ fs w1) /\
    events w1 = events demo_home_w /\ stdout w1 = stdout demo_home_w /\
    logger_level w1 = 20%Z.
Proof.
  apply (Main_working_directory (demo 0 0)
           ["kiji_music.py"; "--kiji_bento_version=1.0.0"; "--work_dir=w"]
           demo_home_w demo_flags "false" "INFO" "1.0.0" false 20%Z);
    try solve [vm_compute; reflexivity | discriminate | right; compute_done].
Defined.
